(** * A shallow embedding of the PPPoE billing server

    The development follows the three source files of the repository:
    - [Database]  : database.js  (tables, userOps, customerOps,
                    transactionOps, messageOps);
    - [Whatsapp]  : whatsapp.js  (gateway status, sendBillingMessage,
                    broadcastBillingMessage);
    - [Server]    : server.js    (SSE fan-out, login, token checks, routes).

    JavaScript code that can throw is embedded in a state-and-exception
    monad in which the state SURVIVES an exception: every SQL statement is
    committed on its own, so whatever was written before a throw stays
    written. *)

From Stdlib Require Import ZArith List String Bool Lia Ascii.
From Stdlib Require Import DecimalString.
From Stdlib Require Import Sorted Permutation.
Import ListNotations.
Local Open Scope string_scope.
Local Open Scope list_scope.
Local Open Scope Z_scope.

(** ** JavaScript completions *)

Inductive js_error : Type :=
| Error (msg : string)
| ReferenceError (msg : string)
| SqliteError (msg : string)
| JsonWebTokenError (msg : string)
| TokenExpiredError (msg : string).

(** [error.message] *)
Definition error_message (e : js_error) : string :=
  match e with
  | Error m | ReferenceError m | SqliteError m
  | JsonWebTokenError m | TokenExpiredError m => m
  end.

Inductive completion (A : Type) : Type :=
| Normal (a : A)
| Throw (e : js_error).
Arguments Normal {A} a.
Arguments Throw {A} e.

Definition Eff (S A : Type) : Type := S -> completion A * S.

Definition ret {S A : Type} (a : A) : Eff S A := fun s => (Normal a, s).

Definition throw {S A : Type} (e : js_error) : Eff S A := fun s => (Throw e, s).

Definition bind {S A B : Type} (m : Eff S A) (k : A -> Eff S B) : Eff S B :=
  fun s =>
    match m s with
    | (Normal a, s') => k a s'
    | (Throw e, s') => (Throw e, s')
    end.

(** [try { body } catch (error) { handler }] *)
Definition try_catch {S A : Type} (body : Eff S A) (handler : js_error -> Eff S A)
  : Eff S A :=
  fun s =>
    match body s with
    | (Normal a, s') => (Normal a, s')
    | (Throw e, s') => handler e s'
    end.

Definition get {S : Type} : Eff S S := fun s => (Normal s, s).

Definition modify {S : Type} (f : S -> S) : Eff S unit := fun s => (Normal tt, f s).

(** [if (b) stmt;] *)
Definition when {S : Type} (b : bool) (m : Eff S unit) : Eff S unit :=
  if b then m else ret tt.

(** Run a computation on a component of a larger state. *)
Definition zoom {S T A : Type} (proj : T -> S) (upd : S -> T -> T) (m : Eff S A)
  : Eff T A :=
  fun t => let '(r, s') := m (proj t) in (r, upd s' t).

Declare Scope eff_scope.
Delimit Scope eff_scope with eff.
Notation "x <- m ;; k" := (bind m (fun x => k))
  (at level 100, m at next level, right associativity) : eff_scope.
Notation "m ;; k" := (bind m (fun _ => k))
  (at level 100, right associativity) : eff_scope.
Local Open Scope eff_scope.

(** ** Small JavaScript helpers *)

(** Template-literal concatenation. *)
Definition cat (a b : string) : string := String.append a b.
Infix "+++" := cat (at level 60, right associativity).

(** [`${n}`] for a non-negative counter. *)
Definition show_nat (n : nat) : string := NilZero.string_of_uint (Nat.to_uint n).

(** Truthiness of an id that may be [null]: [null] and [0] are falsy. *)
Definition truthy_id (u : option Z) : bool :=
  match u with
  | Some n => negb (n =? 0)
  | None => false
  end.

(** [x || null] on an id. *)
Definition or_null (u : option Z) : option Z :=
  if truthy_id u then u else None.

(** [x || null] on a string: [undefined], [null] and [''] are falsy. *)
Definition text_or_null (x : option string) : option string :=
  match x with
  | Some s => if String.eqb s "" then None else Some s
  | None => None
  end.

(** [s.substring(0, 200)] *)
Definition preview (s : string) : string := String.substring 0 200 s.

(** ** Libraries the source calls into

    bcrypt and the formatting built-ins of the JavaScript runtime are
    outside the repository; the code is verified for every behaviour they
    may have. *)

Class Bcrypt : Type := {
  hashSync : string -> Z -> string;
  compareSync : string -> string -> bool
}.

Class JsRuntime : Type := {
  (** [new Intl.NumberFormat('id-ID', {currency: 'IDR', ...}).format(num)] *)
  formatIDR : Z -> string;
  (** [parseInt(n).toLocaleString('id-ID')] *)
  toLocaleString : Z -> string;
  (** [new Date().toLocaleDateString('id-ID', {month, year})] *)
  localePeriod : Z -> string;
  (** [new Date().toLocaleDateString('id-ID', {day, month, year})] *)
  localeToday : Z -> string;
  (** [new Date().toISOString()] *)
  toISOString : Z -> string;
  (** [s.replace(/\{name\}/g, v)] for the placeholder [name] *)
  replacePlaceholder : string -> string -> string -> string
}.

(** SQLite as better-sqlite3 bundles it.  The library builds it with
    SQLITE_DQS=0, so a token in double quotes is always an identifier. *)
Class Sqlite : Type := {
  (** [value LIKE pattern] *)
  like : string -> string -> bool;
  (** the message of the error for an identifier that names no column;
      its wording depends on the version of SQLite *)
  no_such_column : string -> string
}.

(** * database.js *)

Module Database.

(** ** Schema

    Conventions of the embedding:
    - a table is the list of its rows, in rowid order;
    - a TEXT column under a [CHECK (col IN (...))] constraint is an
      enumeration, a nullable column an [option];
    - an INTEGER column holds 64-bit signed integers; the embedding covers
      the rows whose amount ([jumlah]) is stored as such an integer, and
      a property that depends on it says so ([in_int64]);
    - an integer that JavaScript reads from a row is a double: exact up to
      2^53 in magnitude, rounded beyond ([to_double]);
    - timestamps are numbers read from the process clock;
    - in the statements of the source, ["pending"], ["lunas"],
      ["pemasukan"], ["pengeluaran"], ["success"] and ["failed"] stand in
      double quotes where a value is meant: SQLite reads each as an
      identifier, no column bears such a name, and [db.prepare] refuses
      the statement ([prepare_refused]);
    - [foreign_keys = ON]: an INSERT or DELETE that would break a foreign
      key throws. *)

Inductive role : Type := admin | staff.
Inductive tipe : Type := internet | gas.
Inductive jenis : Type := pemasukan | pengeluaran.
Inductive status : Type := pending | lunas.
Inductive log_status : Type := log_success | log_failed | log_pending.

Definition tipe_text (t : tipe) : string :=
  match t with internet => "internet" | gas => "gas" end.

Definition status_eqb (a b : status) : bool :=
  match a, b with
  | pending, pending | lunas, lunas => true
  | _, _ => false
  end.

Record user_row : Type := {
  u_id : Z;
  u_username : string;
  u_password : string;
  u_nama_lengkap : string;
  u_role : role;
  u_aktif : Z;
  u_created_at : Z;
  u_updated_at : Z
}.

Record customer_row : Type := {
  c_id : Z;
  c_nama : string;
  c_tipe : tipe;
  c_whatsapp : string;
  c_username_pppoe : option string;
  c_password_pppoe : option string;
  c_alamat : option string;
  c_aktif : Z;
  c_created_by : option Z;
  c_created_at : Z;
  c_updated_at : Z
}.

Record transaction_row : Type := {
  t_id : Z;
  t_customer_id : Z;
  t_customer_nama : string;
  t_customer_tipe : string;
  t_kategori : string;
  t_jumlah : Z;
  t_jenis : jenis;
  t_status : status;
  t_deskripsi : option string;
  t_created_by : option Z;
  t_created_at : Z;
  t_updated_at : Z
}.

Record message_log_row : Type := {
  m_id : Z;
  m_customer_id : option Z;
  m_customer_nama : option string;
  m_phone : string;
  m_message_type : string;
  m_status : log_status;
  m_message_preview : option string;
  m_error_message : option string;
  m_sent_by : option Z;
  m_sent_at : Z
}.

Record activity_log_row : Type := {
  a_id : Z;
  a_user_id : option Z;
  a_action : string;
  a_details : string;
  a_ip_address : string;
  a_created_at : Z
}.

(** The database file: the tables in rowid order, and the AUTOINCREMENT
    counters (sqlite_sequence) of the tables this development inserts into. *)
Record db : Type := {
  users : list user_row;
  customers : list customer_row;
  transactions : list transaction_row;
  message_logs : list message_log_row;
  activity_logs : list activity_log_row;
  seq_transactions : Z;
  seq_message_logs : Z;
  seq_activity_logs : Z
}.

Definition set_users (us : list user_row) (d : db) : db :=
  {| users := us; customers := customers d; transactions := transactions d;
     message_logs := message_logs d; activity_logs := activity_logs d;
     seq_transactions := seq_transactions d;
     seq_message_logs := seq_message_logs d;
     seq_activity_logs := seq_activity_logs d |}.

Definition set_customers (cs : list customer_row) (d : db) : db :=
  {| users := users d; customers := cs; transactions := transactions d;
     message_logs := message_logs d; activity_logs := activity_logs d;
     seq_transactions := seq_transactions d;
     seq_message_logs := seq_message_logs d;
     seq_activity_logs := seq_activity_logs d |}.

Definition set_transactions (ts : list transaction_row) (seq : Z) (d : db) : db :=
  {| users := users d; customers := customers d; transactions := ts;
     message_logs := message_logs d; activity_logs := activity_logs d;
     seq_transactions := seq;
     seq_message_logs := seq_message_logs d;
     seq_activity_logs := seq_activity_logs d |}.

Definition set_message_logs (ms : list message_log_row) (seq : Z) (d : db) : db :=
  {| users := users d; customers := customers d; transactions := transactions d;
     message_logs := ms; activity_logs := activity_logs d;
     seq_transactions := seq_transactions d;
     seq_message_logs := seq;
     seq_activity_logs := seq_activity_logs d |}.

Definition set_activity_logs (ls : list activity_log_row) (seq : Z) (d : db) : db :=
  {| users := users d; customers := customers d; transactions := transactions d;
     message_logs := message_logs d; activity_logs := ls;
     seq_transactions := seq_transactions d;
     seq_message_logs := seq_message_logs d;
     seq_activity_logs := seq |}.

(** ** SQL building blocks *)

(** AUTOINCREMENT: one more than the largest rowid ever used. *)
Definition next_rowid (seq : Z) (ids : list Z) : Z :=
  fold_left Z.max ids seq + 1.

(** The range of an INTEGER of SQLite. *)
Definition in_int64 (n : Z) : bool :=
  (- 2 ^ 63 <=? n) && (n <? 2 ^ 63).

Definition integer_overflow : js_error := SqliteError "integer overflow".

(** The running total of [SUM]: the aggregate fails as soon as the total
    leaves the 64-bit range. *)
Fixpoint sum_from (total : Z) (xs : list Z) : completion Z :=
  match xs with
  | [] => Normal total
  | x :: rest =>
      if in_int64 (total + x) then sum_from (total + x) rest
      else Throw integer_overflow
  end.

(** [SUM(col)] over integers, in the order of the rows: NULL over no rows. *)
Definition sql_sum (xs : list Z) : completion (option Z) :=
  match xs with
  | [] => Normal None
  | _ :: _ =>
      match sum_from 0 xs with
      | Normal total => Normal (Some total)
      | Throw e => Throw e
      end
  end.

(** The number JavaScript gets for a 64-bit integer of a result row: the
    nearest double, ties to the even significand of 53 bits. *)
Definition to_double (n : Z) : Z :=
  let a := Z.abs n in
  if a <=? 2 ^ 53 then n
  else
    let e := Z.log2 a - 52 in
    let q := a / 2 ^ e in
    let r := a mod 2 ^ e in
    let half := 2 ^ (e - 1) in
    let q := if r <? half then q
             else if half <? r then q + 1
             else if Z.even q then q else q + 1 in
    Z.sgn n * (q * 2 ^ e).

Definition user_exists (d : db) (id : Z) : bool :=
  existsb (fun u => u_id u =? id) (users d).

Definition customer_exists (d : db) (id : Z) : bool :=
  existsb (fun c => c_id c =? id) (customers d).

(** A nullable foreign key is satisfied by NULL or by an existing parent. *)
Definition fk_ok (parent_exists : Z -> bool) (ref : option Z) : bool :=
  match ref with
  | None => true
  | Some id => parent_exists id
  end.

Definition fk_failed : js_error := SqliteError "FOREIGN KEY constraint failed".

Definition not_null_failed (col : string) : js_error :=
  SqliteError ("NOT NULL constraint failed: " +++ col).


Section Operations.
Context {js : JsRuntime} {bcrypt : Bcrypt} {sqlite : Sqlite}.

(** [db.prepare(sql)] of a statement in which [name] stands in double
    quotes where a value is meant: the statement is refused, whatever the
    tables hold, and nothing of it is run. *)
Definition prepare_refused {A : Type} (name : string) : Eff db A :=
  throw (SqliteError (no_such_column name)).

(** ** userOps *)

(** The columns [getById] selects: everything but the password hash. *)
Record user_public : Type := {
  p_id : Z;
  p_username : string;
  p_nama_lengkap : string;
  p_role : role;
  p_aktif : Z;
  p_created_at : Z
}.

Definition public_columns (u : user_row) : user_public :=
  {| p_id := u_id u; p_username := u_username u;
     p_nama_lengkap := u_nama_lengkap u; p_role := u_role u;
     p_aktif := u_aktif u; p_created_at := u_created_at u |}.

Definition userOps_getById (id : Z) : Eff db (option user_public) :=
  d <- get ;;
  ret (option_map public_columns (find (fun u => u_id u =? id) (users d))).

Definition userOps_getByUsername (username : string) : Eff db (option user_row) :=
  d <- get ;;
  ret (find (fun u => String.eqb (u_username u) username) (users d)).

Record user_update : Type := {
  data_nama_lengkap : string;
  data_role : role;
  data_aktif : bool;
  data_password : option string
}.

(** [if (data.password)]: a non-empty string. *)
Definition new_password (data : user_update) : option string :=
  match data_password data with
  | Some p => if String.eqb p "" then None else Some p
  | None => None
  end.

Definition update_user_row (data : user_update) (now : Z) (u : user_row) : user_row :=
  {| u_id := u_id u;
     u_username := u_username u;
     u_password := match new_password data with
                   | Some p => hashSync p 10
                   | None => u_password u
                   end;
     u_nama_lengkap := data_nama_lengkap data;
     u_role := data_role data;
     u_aktif := if data_aktif data then 1 else 0;
     u_created_at := u_created_at u;
     u_updated_at := now |}.

Definition userOps_update (id : Z) (data : user_update) (now : Z)
  : Eff db (option user_public) :=
  modify (fun d =>
    set_users (map (fun u => if u_id u =? id then update_user_row data now u else u)
                   (users d)) d) ;;
  userOps_getById id.

Definition userOps_verifyPassword (user : user_row) (password : string) : bool :=
  compareSync password (u_password user).

(** [INSERT INTO activity_logs (user_id, action, details, ip_address)] *)
Definition userOps_logActivity (userId : option Z) (action details ip : string)
    (now : Z) : Eff db unit :=
  d <- get ;;
  if fk_ok (user_exists d) userId then
    let id := next_rowid (seq_activity_logs d) (map a_id (activity_logs d)) in
    modify (set_activity_logs
              (activity_logs d ++
               [{| a_id := id; a_user_id := userId; a_action := action;
                   a_details := details; a_ip_address := ip;
                   a_created_at := now |}]) id)
  else throw fk_failed.

(** ** customerOps *)

Definition customerOps_getById (id : Z) : Eff db (option customer_row) :=
  d <- get ;;
  ret (find (fun c => c_id c =? id) (customers d)).

(** The rows of [transactions] joined to customer [c] that pass
    [t.status = 'pending']. *)
Definition pending_of (d : db) (c : customer_row) : list transaction_row :=
  filter (fun t => (c_id c =? t_customer_id t) && status_eqb (t_status t) pending)
         (transactions d).

(** A result row of [getWithPending]: [c.*] and [total_debt]. *)
Record debtor_row : Type := {
  debtor : customer_row;
  total_debt : Z
}.

(** [ORDER BY c.nama] (BINARY collation), as a stable insertion sort. *)
Fixpoint insert_by_nama (r : debtor_row) (rs : list debtor_row) : list debtor_row :=
  match rs with
  | [] => [r]
  | r' :: rs' =>
      if String.leb (c_nama (debtor r)) (c_nama (debtor r'))
      then r :: r' :: rs'
      else r' :: insert_by_nama r rs'
  end.

Definition order_by_nama (rs : list debtor_row) : list debtor_row :=
  fold_right insert_by_nama [] rs.

(** One group per customer row, since GROUP BY is on the primary key; the
    INNER JOIN leaves no group for a customer without a matching row, and
    the WHERE clause none for a customer that is not active.  HAVING
    compares the integer total; the row object carries it as a double. *)
Definition debtor_group (d : db) (c : customer_row) : completion (list debtor_row) :=
  if c_aktif c =? 1 then
    match sql_sum (map t_jumlah (pending_of d c)) with
    | Normal (Some total) =>
        Normal (if total >? 0
                then [{| debtor := c; total_debt := to_double total |}]
                else [])
    | Normal None => Normal []
    | Throw e => Throw e
    end
  else Normal [].

(** The groups of all customers: the query fails when one aggregate does. *)
Fixpoint debtor_groups (d : db) (cs : list customer_row)
  : completion (list debtor_row) :=
  match cs with
  | [] => Normal []
  | c :: rest =>
      match debtor_group d c with
      | Throw e => Throw e
      | Normal rows =>
          match debtor_groups d rest with
          | Throw e => Throw e
          | Normal more => Normal (rows ++ more)
          end
      end
  end.

Definition customerOps_getWithPending : Eff db (list debtor_row) :=
  d <- get ;;
  match debtor_groups d (customers d) with
  | Throw e => throw e
  | Normal rows => ret (order_by_nama rows)
  end.

(** [DELETE FROM customers WHERE id = ?] under [foreign_keys = ON]:
    transactions.customer_id and message_logs.customer_id reference the row. *)
Definition referenced_customer (d : db) (id : Z) : bool :=
  existsb (fun t => t_customer_id t =? id) (transactions d)
  || existsb (fun m => match m_customer_id m with
                       | Some c => c =? id
                       | None => false
                       end) (message_logs d).

Definition sql_delete_customer (id : Z) : Eff db unit :=
  d <- get ;;
  if customer_exists d id && referenced_customer d id then throw fk_failed
  else modify (fun d => set_customers
                 (filter (fun c => negb (c_id c =? id)) (customers d)) d).

Definition customerOps_delete (id : Z) (userId : option Z) (now : Z) : Eff db bool :=
  customer <- customerOps_getById id ;;
  match customer with
  | Some customer =>
      sql_delete_customer id ;;
      when (truthy_id userId)
           (userOps_logActivity userId "DELETE_CUSTOMER"
              ("Hapus customer: " +++ c_nama customer) "" now) ;;
      ret true
  | None => ret false
  end.

(** ** transactionOps *)

(** A row of [SELECT t.*, c.tipe as customer_tipe ... LEFT JOIN customers c]:
    the second [customer_tipe] column replaces the stored one in the row
    object, and is NULL when no customer matches. *)
Record transaction_view : Type := {
  row : transaction_row;
  customer_tipe : option string
}.

Definition left_join_customer (d : db) (t : transaction_row) : transaction_view :=
  {| row := t;
     customer_tipe :=
       option_map (fun c => tipe_text (c_tipe c))
                  (find (fun c => t_customer_id t =? c_id c) (customers d)) |}.

(** [t.jumlah] of a row object, as JavaScript reads it. *)
Definition jumlah_of (t : transaction_view) : Z := to_double (t_jumlah (row t)).

Definition transactionOps_getById (id : Z) : Eff db (option transaction_view) :=
  d <- get ;;
  ret (option_map (left_join_customer d) (find (fun t => t_id t =? id) (transactions d))).

Record stats : Type := {
  income : Z;
  expense : Z;
  pending_total : Z;
  balance : Z
}.

(** The three statements compare [jenis] and [status] with ["pemasukan"],
    ["pengeluaran"] and ["pending"]: the first [db.prepare] already fails. *)
Definition transactionOps_getStats : Eff db stats :=
  income <- prepare_refused "pemasukan" ;;
  expense <- prepare_refused "pengeluaran" ;;
  pending <- prepare_refused "pending" ;;
  ret {| income := income; expense := expense; pending_total := pending;
         balance := income - expense |}.

(** [db.prepare('UPDATE transactions SET status = "lunas",
     updated_at = CURRENT_TIMESTAMP WHERE id = ?').run(id)] *)
Definition sql_update_lunas (id now : Z) : Eff db unit :=
  prepare_refused "lunas".

(** [INSERT INTO transactions (...)]: customer_tipe is NOT NULL, customer_id
    and created_by are foreign keys. *)
Definition sql_insert_transaction (customer_id : Z) (customer_nama : string)
    (customer_tipe : option string) (kategori : string) (jumlah : Z)
    (jenis : jenis) (status : status) (deskripsi : option string)
    (created_by : option Z) (now : Z) : Eff db Z :=
  d <- get ;;
  match customer_tipe with
  | None => throw (not_null_failed "transactions.customer_tipe")
  | Some customer_tipe =>
      if customer_exists d customer_id && fk_ok (user_exists d) created_by then
        let id := next_rowid (seq_transactions d) (map t_id (transactions d)) in
        modify (set_transactions
                  (transactions d ++
                   [{| t_id := id; t_customer_id := customer_id;
                       t_customer_nama := customer_nama;
                       t_customer_tipe := customer_tipe;
                       t_kategori := kategori; t_jumlah := jumlah;
                       t_jenis := jenis; t_status := status;
                       t_deskripsi := deskripsi; t_created_by := created_by;
                       t_created_at := now; t_updated_at := now |}]) id) ;;
        ret id
      else throw fk_failed
  end.

Definition transactionOps_markAsLunas (id : Z) (userId : option Z) (now : Z)
  : Eff db bool :=
  t <- transactionOps_getById id ;;
  match t with
  | Some t =>
      (* Update original transaction *)
      sql_update_lunas id now ;;
      (* Create income record *)
      sql_insert_transaction (t_customer_id (row t)) (t_customer_nama (row t))
        (customer_tipe t) (t_kategori (row t)) (jumlah_of t)
        pemasukan lunas (Some "Pembayaran otomatis") userId now ;;
      when (truthy_id userId)
           (userOps_logActivity userId "PAYMENT"
              ("Pembayaran: " +++ formatIDR (jumlah_of t) +++ " dari "
               +++ t_customer_nama (row t)) "" now) ;;
      ret true
  | None => ret false
  end.

(** ** messageOps *)

Record message_data : Type := {
  data_customer_id : option Z;
  data_customer_nama : option string;
  data_phone : option string;
  data_message_type : string;
  data_status : log_status;
  data_message_preview : option string;
  data_error_message : option string;
  data_sent_by : option Z
}.

(** [INSERT INTO message_logs (...)]: phone is NOT NULL, customer_id and
    sent_by are foreign keys; [x || null] turns a falsy value into NULL. *)
Definition messageOps_create (data : message_data) (now : Z) : Eff db Z :=
  d <- get ;;
  match data_phone data with
  | None => throw (not_null_failed "message_logs.phone")
  | Some phone =>
      if fk_ok (customer_exists d) (or_null (data_customer_id data))
         && fk_ok (user_exists d) (or_null (data_sent_by data)) then
        let id := next_rowid (seq_message_logs d) (map m_id (message_logs d)) in
        modify (set_message_logs
                  (message_logs d ++
                   [{| m_id := id;
                       m_customer_id := or_null (data_customer_id data);
                       m_customer_nama := text_or_null (data_customer_nama data);
                       m_phone := phone;
                       m_message_type := data_message_type data;
                       m_status := data_status data;
                       m_message_preview := text_or_null (data_message_preview data);
                       m_error_message := text_or_null (data_error_message data);
                       m_sent_by := or_null (data_sent_by data);
                       m_sent_at := now |}]) id) ;;
        ret id
      else throw fk_failed
  end.

End Operations.

End Database.

(** * The state of the running process

    Everything the three modules keep at module level, together with the
    clock they read and the calls they have made to the WhatsApp client. *)

(** [clientStatus] in whatsapp.js *)
Inductive client_status : Type :=
| disconnected | initializing | qr | authenticated | ready | error_status.

Definition client_status_eqb (a b : client_status) : bool :=
  match a, b with
  | disconnected, disconnected | initializing, initializing | qr, qr
  | authenticated, authenticated | ready, ready
  | error_status, error_status => true
  | _, _ => false
  end.

(** [{ status: clientStatus, timestamp: new Date().toISOString() }] *)
Record status_info : Type := {
  status : client_status;
  timestamp : string
}.

(** The objects server.js passes to [broadcast], and the greeting frame. *)
Inductive sse_event : Type :=
| connected
| wa_status (data : status_info)
| wa_qr (data : option string)
| customer_updated (data : option Database.customer_row)
| transaction_updated (data : option Database.transaction_row)
| settings_updated (key value : string)
| data_restored.

Record world : Type := {
  w_db : Database.db;                    (* billing.db *)
  w_now : Z;                             (* Date.now(), milliseconds *)
  w_client : bool;                       (* whatsapp.js: client is not null *)
  w_clientStatus : client_status;        (* whatsapp.js: clientStatus *)
  w_sendMessage : list (string * string);(* calls of client.sendMessage so far *)
  w_clients : list nat;                  (* server.js: clients, in insertion order *)
  w_responses : nat;                     (* response objects created so far *)
  w_wire : list (nat * sse_event)        (* res.write calls, oldest first *)
}.

Definition set_db (d : Database.db) (w : world) : world :=
  {| w_db := d; w_now := w_now w; w_client := w_client w;
     w_clientStatus := w_clientStatus w; w_sendMessage := w_sendMessage w;
     w_clients := w_clients w; w_responses := w_responses w;
     w_wire := w_wire w |}.

Definition set_now (t : Z) (w : world) : world :=
  {| w_db := w_db w; w_now := t; w_client := w_client w;
     w_clientStatus := w_clientStatus w; w_sendMessage := w_sendMessage w;
     w_clients := w_clients w; w_responses := w_responses w;
     w_wire := w_wire w |}.

Definition set_gateway (c : bool) (s : client_status) (w : world) : world :=
  {| w_db := w_db w; w_now := w_now w; w_client := c;
     w_clientStatus := s; w_sendMessage := w_sendMessage w;
     w_clients := w_clients w; w_responses := w_responses w;
     w_wire := w_wire w |}.

Definition set_sendMessage (l : list (string * string)) (w : world) : world :=
  {| w_db := w_db w; w_now := w_now w; w_client := w_client w;
     w_clientStatus := w_clientStatus w; w_sendMessage := l;
     w_clients := w_clients w; w_responses := w_responses w;
     w_wire := w_wire w |}.

Definition set_clients (cs : list nat) (w : world) : world :=
  {| w_db := w_db w; w_now := w_now w; w_client := w_client w;
     w_clientStatus := w_clientStatus w; w_sendMessage := w_sendMessage w;
     w_clients := cs; w_responses := w_responses w;
     w_wire := w_wire w |}.

Definition set_responses (n : nat) (w : world) : world :=
  {| w_db := w_db w; w_now := w_now w; w_client := w_client w;
     w_clientStatus := w_clientStatus w; w_sendMessage := w_sendMessage w;
     w_clients := w_clients w; w_responses := n;
     w_wire := w_wire w |}.

Definition set_wire (l : list (nat * sse_event)) (w : world) : world :=
  {| w_db := w_db w; w_now := w_now w; w_client := w_client w;
     w_clientStatus := w_clientStatus w; w_sendMessage := w_sendMessage w;
     w_clients := w_clients w; w_responses := w_responses w;
     w_wire := l |}.

(** A database operation run by the process; CURRENT_TIMESTAMP is the
    process clock. *)
Definition sql {A : Type} (op : Z -> Eff Database.db A) : Eff world A :=
  fun w => zoom w_db set_db (op (w_now w)) w.

(** The WhatsApp transport: whether the [n]-th call of
    [client.sendMessage(chatId, message)] resolves ([None]) or rejects. *)
Class WhatsAppWeb : Type := {
  sendMessage_rejects : nat -> string -> string -> option js_error
}.

(** * whatsapp.js *)

Module Whatsapp.

(** ** Lexical environments

    [sendBillingMessage] reads an identifier in its catch clause; which
    bindings that clause sees is part of what the function does. *)

Inductive js_value : Type :=
| VObject
| VNull
| VNumber (n : Z)
| VString (s : string)
| VCustomer (c : Database.customer_row)
| VError (e : js_error).

Definition scope : Type := list (string * js_value).

(** Reading an identifier: an unresolvable reference throws. *)
Definition lookup {S : Type} (x : string) (sc : scope) : Eff S js_value :=
  match find (fun b => String.eqb (fst b) x) sc with
  | Some b => ret (snd b)
  | None => throw (ReferenceError (x +++ " is not defined"))
  end.

(** [v?.nama] *)
Definition optional_nama (v : js_value) : option string :=
  match v with
  | VCustomer c => Some (Database.c_nama c)
  | _ => None
  end.

(** The top-level bindings of whatsapp.js and of its CommonJS wrapper. *)
Definition module_scope : scope :=
  map (fun x => (x, VObject))
    ["Client"; "LocalAuth"; "qrcode"; "customerOps"; "messageOps";
     "client"; "clientStatus"; "statusCallback"; "qrCallback";
     "eventHandlers"; "generateQRCodeImage"; "broadcastStatus";
     "broadcastQR"; "setCallbacks"; "initClient"; "createClient";
     "startService"; "stopService"; "getStatus"; "formatMessage";
     "sendBillingMessage"; "broadcastBillingMessage"; "getMessageLogs";
     "getMessageStats"; "exports"; "require"; "module"; "__filename";
     "__dirname"; "console"; "Date"; "Promise"; "setTimeout"; "parseInt"].

Definition null_or_number (u : option Z) : js_value :=
  match u with
  | Some n => VNumber n
  | None => VNull
  end.

(** What the catch clause of [sendBillingMessage] can see: its own
    parameter, the function's parameters, the module.  The [const]
    declarations of the try block ([customer], [phone], [formattedPhone],
    [chatId]) are local to that block. *)
Definition catch_scope (error : js_error) (customerId : Z) (message : string)
    (userId : option Z) : scope :=
  ("error", VError error)
  :: [("customerId", VNumber customerId); ("message", VString message);
      ("userId", null_or_number userId)]
  ++ module_scope.

(** ** Phone numbers *)

Definition is_digit (a : ascii) : bool :=
  (48 <=? nat_of_ascii a)%nat && (nat_of_ascii a <=? 57)%nat.

(** [s.replace(/\D/g, '')] *)
Fixpoint strip_non_digits (s : string) : string :=
  match s with
  | EmptyString => EmptyString
  | String a rest =>
      if is_digit a then String a (strip_non_digits rest)
      else strip_non_digits rest
  end.

(** [phone.startsWith('0') ? '62' + phone.substring(1) : phone] *)
Definition international (phone : string) : string :=
  match phone with
  | String "0"%char rest => "62" +++ rest
  | _ => phone
  end.

Record send_result : Type := {
  sr_success : bool;
  sr_customer : option string;
  sr_phone : option string;
  sr_error : option string
}.

Record detail : Type := {
  detail_customer : string;
  detail_status : string;
  detail_error : option string
}.

(** [results] of [broadcastBillingMessage] *)
Record summary : Type := {
  total : nat;
  success : nat;
  failed : nat;
  details : list detail
}.

(** [{ success: true, message, summary }] or [{ success: false, error }] *)
Inductive broadcast_result : Type :=
| broadcast_completed (msg : string) (summary : summary)
| broadcast_failed (error : string).

Section Gateway.
Context {js : JsRuntime} {transport : WhatsAppWeb}.

(** [statusCallback] and [qrCallback], as left by [setCallbacks]. *)
Context (statusCallback : option (status_info -> Eff world unit)).
Context (qrCallback : option (option string -> Eff world unit)).

Definition getStatus : Eff world status_info :=
  w <- get ;;
  ret {| status := w_clientStatus w; timestamp := toISOString (w_now w) |}.

Definition broadcastStatus : Eff world unit :=
  match statusCallback with
  | Some callback => s <- getStatus ;; callback s
  | None => ret tt
  end.

Definition broadcastQR (qrData : option string) : Eff world unit :=
  match qrCallback with
  | Some callback => callback qrData
  | None => ret tt
  end.

Definition set_clientStatus (s : client_status) : Eff world unit :=
  modify (fun w => set_gateway (w_client w) s w).

(** *** eventHandlers *)

Definition onReady : Eff world unit :=
  set_clientStatus ready ;; broadcastStatus.

Definition onAuthenticated : Eff world unit :=
  set_clientStatus authenticated ;; broadcastStatus.

Definition onAuthenticationFailure : Eff world unit :=
  set_clientStatus disconnected ;; broadcastStatus.

(** The image is broadcast later, when the promise of
    [generateQRCodeImage] resolves: see [onQrImage]. *)
Definition onQr : Eff world unit :=
  set_clientStatus qr ;; broadcastStatus.

Definition onQrImage (imgData : option string) : Eff world unit :=
  broadcastQR imgData.

Definition onStateChange (state : string) : Eff world unit :=
  if String.eqb state "UNPAIRED" || String.eqb state "LOGGED_OUT"
  then set_clientStatus disconnected ;; broadcastStatus
  else ret tt.

(** [client.initialize()] rejected. *)
Definition onInitializeFailure : Eff world unit :=
  set_clientStatus error_status ;; broadcastStatus.

Definition startService : Eff world unit :=
  set_clientStatus initializing ;;
  broadcastStatus ;;
  modify (fun w => set_gateway true (w_clientStatus w) w).

Definition stopService : Eff world unit :=
  modify (fun w => set_gateway false (w_clientStatus w) w) ;;
  set_clientStatus disconnected ;;
  broadcastStatus.

(** ** Messages *)

(** [x || '-'] *)
Definition or_dash (x : option string) : string :=
  match x with
  | Some s => if String.eqb s "" then "-" else s
  | None => "-"
  end.

Definition formatMessage (template : string) (customer : Database.customer_row)
    (amount : Z) (now : Z) : string :=
  let period := localePeriod now in
  let today := localeToday now in
  replacePlaceholder "password" (or_dash (Database.c_password_pppoe customer))
   (replacePlaceholder "username" (or_dash (Database.c_username_pppoe customer))
    (replacePlaceholder "periode" period
     (replacePlaceholder "tanggal" today
      (replacePlaceholder "tipe"
         (match Database.c_tipe customer with
          | Database.internet => "Internet/PPPoE"
          | Database.gas => "LPG 3kg"
          end)
       (replacePlaceholder "jumlah" (toLocaleString amount)
        (replacePlaceholder "nama" (Database.c_nama customer) template)))))).

(** [await client.sendMessage(chatId, message)] *)
Definition client_sendMessage (chatId message : string) : Eff world unit :=
  w <- get ;;
  modify (set_sendMessage (w_sendMessage w ++ [(chatId, message)])) ;;
  match sendMessage_rejects (List.length (w_sendMessage w)) chatId message with
  | None => ret tt
  | Some e => throw e
  end.

(** The try block of [sendBillingMessage]. *)
Definition sendBillingMessage_try (customerId : Z) (message : string)
    (userId : option Z) : Eff world send_result :=
  w <- get ;;
  if negb (w_client w) || negb (client_status_eqb (w_clientStatus w) ready)
  then throw (Error "WhatsApp client not ready")
  else
    customer <- sql (fun _ => Database.customerOps_getById customerId) ;;
    match customer with
    | None => throw (Error "Customer not found")
    | Some customer =>
        let phone := strip_non_digits (Database.c_whatsapp customer) in
        let formattedPhone := international phone in
        let chatId := formattedPhone +++ "@c.us" in
        (* Send message *)
        client_sendMessage chatId message ;;
        (* Log success *)
        sql (Database.messageOps_create
               {| Database.data_customer_id := Some customerId;
                  Database.data_customer_nama := Some (Database.c_nama customer);
                  Database.data_phone := Some formattedPhone;
                  Database.data_message_type := "billing";
                  Database.data_status := Database.log_success;
                  Database.data_message_preview := Some (preview message);
                  Database.data_error_message := None;
                  Database.data_sent_by := userId |}) ;;
        ret {| sr_success := true;
               sr_customer := Some (Database.c_nama customer);
               sr_phone := Some formattedPhone;
               sr_error := None |}
    end.

(** Its catch clause. *)
Definition sendBillingMessage_catch (customerId : Z) (message : string)
    (userId : option Z) (error : js_error) : Eff world send_result :=
  (* Log failure *)
  customer <- lookup "customer" (catch_scope error customerId message userId) ;;
  sql (Database.messageOps_create
         {| Database.data_customer_id := Some customerId;
            Database.data_customer_nama := optional_nama customer;
            Database.data_phone := None;
            Database.data_message_type := "billing";
            Database.data_status := Database.log_failed;
            Database.data_message_preview := Some (preview message);
            Database.data_error_message := Some (error_message error);
            Database.data_sent_by := userId |}) ;;
  ret {| sr_success := false; sr_customer := None; sr_phone := None;
         sr_error := Some (error_message error) |}.

Definition sendBillingMessage (customerId : Z) (message : string)
    (userId : option Z) : Eff world send_result :=
  try_catch (sendBillingMessage_try customerId message userId)
            (sendBillingMessage_catch customerId message userId).

(** [await new Promise(resolve => setTimeout(resolve, 1500))] *)
Definition delay (ms : Z) : Eff world unit :=
  modify (fun w => set_now (w_now w + ms) w).

Definition count_result (sendResult : send_result) (customer : Database.debtor_row)
    (results : summary) : summary :=
  {| total := total results;
     success := if sr_success sendResult then S (success results) else success results;
     failed := if sr_success sendResult then failed results else S (failed results);
     details := details results ++
       [{| detail_customer := Database.c_nama (Database.debtor customer);
           detail_status := if sr_success sendResult then "success" else "failed";
           detail_error := sr_error sendResult |}] |}.

Definition count_total (results : summary) : summary :=
  {| total := S (total results); success := success results;
     failed := failed results; details := details results |}.

(** [for (const customer of debtors) { ... }] *)
Fixpoint for_debtors (template : string) (userId : option Z)
    (debtors : list Database.debtor_row) (results : summary) : Eff world summary :=
  match debtors with
  | [] => ret results
  | customer :: rest =>
      let results := count_total results in
      w <- get ;;
      (* Format message for this customer *)
      let message := formatMessage template (Database.debtor customer)
                       (Database.total_debt customer) (w_now w) in
      (* Send message *)
      sendResult <- sendBillingMessage (Database.c_id (Database.debtor customer))
                      message userId ;;
      let results := count_result sendResult customer results in
      (* Delay between messages to avoid rate limiting *)
      delay 1500 ;;
      for_debtors template userId rest results
  end.

Definition broadcastBillingMessage (template : string) (userId : option Z)
  : Eff world broadcast_result :=
  let results := {| total := 0; success := 0; failed := 0; details := [] |} in
  try_catch
    (debtors <- sql (fun _ => Database.customerOps_getWithPending) ;;
     results <- for_debtors template userId debtors results ;;
     ret (broadcast_completed
            ("Broadcast completed: " +++ show_nat (success results) +++ " sent, "
             +++ show_nat (failed results) +++ " failed")
            results))
    (fun error => ret (broadcast_failed (error_message error))).

End Gateway.

End Whatsapp.

(** * server.js *)

Module Server.

(** ** jsonwebtoken

    A token is modelled by what it carries: its payload and the key that
    signed it.  A string that is not a token at all is [None]. *)

Record jwt_payload : Type := {
  id : Z;
  username : string;
  role : Database.role;
  iat : Z;
  exp : Z
}.

Record token : Type := {
  payload : jwt_payload;
  signed_with : string
}.

(** [jwt.sign({ id, username, role }, secret, { expiresIn: '24h' })] *)
Definition jwt_sign (id : Z) (username : string) (role : Database.role)
    (secret : string) (now : Z) : token :=
  {| payload := {| id := id; username := username; role := role;
                   iat := now / 1000; exp := now / 1000 + 86400 |};
     signed_with := secret |}.

(** [jwt.verify(token, secret)] *)
Definition jwt_verify {S : Type} (t : option token) (secret : string) (now : Z)
  : Eff S jwt_payload :=
  match t with
  | None => throw (JsonWebTokenError "jwt malformed")
  | Some t =>
      if negb (String.eqb (signed_with t) secret)
      then throw (JsonWebTokenError "invalid signature")
      else if exp (payload t) <=? now / 1000
      then throw (TokenExpiredError "jwt expired")
      else ret (payload t)
  end.

(** [req.headers.authorization] *)
Inductive authorization : Type :=
| no_header
| not_bearer (raw : string)
| Bearer (t : option token).

(** ** Responses *)

Record user_json : Type := {
  json_id : Z;
  json_username : string;
  json_nama_lengkap : string;
  json_role : Database.role
}.

Inductive body : Type :=
| json_error (error : string)
| json_success
| json_message (msg : string)
| json_login (t : token) (user : user_json)
| json_user (user : user_json)
| json_data_user (data : Database.user_public).

Record response : Type := {
  http_status : Z;
  json : body
}.

Definition respond {S : Type} (code : Z) (b : body) : Eff S response :=
  ret {| http_status := code; json := b |}.

(** What a middleware does: answer, or call [next()] with [req.user] set. *)
Inductive middleware : Type :=
| answered (r : response)
| next (user : jwt_payload).

Section App.
Context {js : JsRuntime} {bcrypt : Bcrypt} {sqlite : Sqlite}.

(** [process.env.JWT_SECRET] *)
Context (env_JWT_SECRET : option string).

Definition JWT_SECRET : string :=
  match env_JWT_SECRET with
  | Some s => if String.eqb s "" then "pppoe_billing_secret_key_2024" else s
  | None => "pppoe_billing_secret_key_2024"
  end.

(** ** Real-time updates (SSE) *)

Definition res_write (res : nat) (frame : sse_event) : Eff world unit :=
  modify (fun w => set_wire (w_wire w ++ [(res, frame)]) w).

(** [clients.add(res)] *)
Definition clients_add (res : nat) : Eff world unit :=
  modify (fun w =>
    if existsb (Nat.eqb res) (w_clients w) then w
    else set_clients (w_clients w ++ [res]) w).

(** [clients.delete(res)] *)
Definition clients_delete (res : nat) : Eff world unit :=
  modify (fun w => set_clients (filter (fun c => negb (Nat.eqb c res)) (w_clients w)) w).

(** [clients.forEach(client => client.write(message))] *)
Definition broadcast (data : sse_event) : Eff world unit :=
  modify (fun w => set_wire (w_wire w ++ map (fun client => (client, data)) (w_clients w)) w).

(** [whatsapp.setCallbacks(...)] at module load *)
Definition statusCallback : option (status_info -> Eff world unit) :=
  Some (fun status => broadcast (wa_status status)).

Definition qrCallback : option (option string -> Eff world unit) :=
  Some (fun qrData => broadcast (wa_qr qrData)).

(** [app.get('/api/events', ...)]; the result is the response object of
    the request, the channel. *)
Definition get_api_events : Eff world nat :=
  w <- get ;;
  let res := w_responses w in
  modify (set_responses (S res)) ;;
  (* Send initial connection message *)
  res_write res connected ;;
  (* Add to clients set *)
  clients_add res ;;
  (* Send WhatsApp status *)
  waStatus <- Whatsapp.getStatus ;;
  res_write res (wa_status waStatus) ;;
  ret res.

(** [req.on('close', ...)] of the request that created [res] *)
Definition on_close (res : nat) : Eff world unit :=
  clients_delete res.

(** ** Authentication *)

Definition user_payload (user : Database.user_row) : user_json :=
  {| json_id := Database.u_id user; json_username := Database.u_username user;
     json_nama_lengkap := Database.u_nama_lengkap user;
     json_role := Database.u_role user |}.

Definition public_payload (user : Database.user_public) : user_json :=
  {| json_id := Database.p_id user; json_username := Database.p_username user;
     json_nama_lengkap := Database.p_nama_lengkap user;
     json_role := Database.p_role user |}.

Definition post_api_auth_login (username password : string) : Eff world response :=
  user <- sql (fun _ => Database.userOps_getByUsername username) ;;
  match user with
  | None => respond 401 (json_error "Username tidak ditemukan")
  | Some user =>
      if Database.u_aktif user =? 0
      then respond 401 (json_error "Akun tidak aktif")
      else if negb (Database.userOps_verifyPassword user password)
      then respond 401 (json_error "Password salah")
      else
        w <- get ;;
        (* Generate token *)
        let token := jwt_sign (Database.u_id user) (Database.u_username user)
                       (Database.u_role user) JWT_SECRET (w_now w) in
        sql (Database.userOps_logActivity (Some (Database.u_id user)) "LOGIN"
               "User login ke sistem" "") ;;
        respond 200 (json_login token (user_payload user))
  end.

Definition get_api_auth_verify (authHeader : authorization) : Eff world response :=
  match authHeader with
  | no_header | not_bearer _ => respond 401 (json_error "Token tidak ditemukan")
  | Bearer token =>
      try_catch
        (w <- get ;;
         decoded <- jwt_verify token JWT_SECRET (w_now w) ;;
         user <- sql (fun _ => Database.userOps_getById (id decoded)) ;;
         match user with
         | None => respond 401 (json_error "User tidak valid")
         | Some user =>
             if Database.p_aktif user =? 0
             then respond 401 (json_error "User tidak valid")
             else respond 200 (json_user (public_payload user))
         end)
        (fun error => respond 401 (json_error "Token expired"))
  end.

(** ** Middleware *)

Definition authenticateToken (authHeader : authorization) : Eff world middleware :=
  match authHeader with
  | no_header | not_bearer _ =>
      ret (answered {| http_status := 401; json := json_error "Token diperlukan" |})
  | Bearer token =>
      try_catch
        (w <- get ;;
         decoded <- jwt_verify token JWT_SECRET (w_now w) ;;
         ret (next decoded))
        (fun error =>
           ret (answered {| http_status := 401;
                            json := json_error "Token tidak valid" |}))
  end.

Definition requireAdmin (user : jwt_payload) : middleware :=
  match role user with
  | Database.admin => next user
  | Database.staff =>
      answered {| http_status := 403;
                  json := json_error
                    "Akses ditolak. Hanya admin yang dapat mengakses." |}
  end.

(** [app.METHOD(path, authenticateToken, handler)] *)
Definition authenticated_route (authHeader : authorization)
    (handler : jwt_payload -> Eff world response) : Eff world response :=
  m <- authenticateToken authHeader ;;
  match m with
  | answered r => ret r
  | next user => handler user
  end.

(** [app.METHOD(path, authenticateToken, requireAdmin, handler)] *)
Definition admin_route (authHeader : authorization)
    (handler : jwt_payload -> Eff world response) : Eff world response :=
  authenticated_route authHeader (fun user =>
    match requireAdmin user with
    | answered r => ret r
    | next user => handler user
    end).

(** The [catch (error)] of every route. *)
Definition internal_error (error : js_error) : Eff world response :=
  respond 500 (json_error (error_message error)).

(** ** Routes *)

Definition put_api_users_id (authHeader : authorization) (params_id : Z)
    (data : Database.user_update) : Eff world response :=
  admin_route authHeader (fun req_user =>
    try_catch
      (user <- sql (Database.userOps_update params_id data) ;;
       match user with
       | None => respond 404 (json_error "User tidak ditemukan")
       | Some user =>
           sql (Database.userOps_logActivity (Some (id req_user)) "UPDATE_USER"
                  ("Update user: " +++ Database.p_username user) "") ;;
           respond 200 (json_data_user user)
       end)
      internal_error).

Definition delete_api_customers_id (authHeader : authorization) (params_id : Z)
  : Eff world response :=
  authenticated_route authHeader (fun req_user =>
    try_catch
      (result <- sql (Database.customerOps_delete params_id (Some (id req_user))) ;;
       if negb result
       then respond 404 (json_error "Customer tidak ditemukan")
       else
         broadcast (customer_updated None) ;;
         respond 200 json_success)
      internal_error).

Definition post_api_transactions_id_mark_lunas (authHeader : authorization)
    (params_id : Z) : Eff world response :=
  authenticated_route authHeader (fun req_user =>
    try_catch
      (result <- sql (Database.transactionOps_markAsLunas params_id
                        (Some (id req_user))) ;;
       if negb result
       then respond 404 (json_error "Transaksi tidak ditemukan")
       else
         broadcast (transaction_updated None) ;;
         respond 200 (json_message "Transaksi ditandai lunas"))
      internal_error).

(** ** The event stream as a transition system

    What can happen to the fan-out, one event-loop turn at a time. *)
Inductive action : Type :=
| subscribe                               (* GET /api/events *)
| close (res : nat)                       (* 'close' on the request of [res] *)
| publish (data : sse_event)              (* a route calls broadcast(data) *)
| wa_ready | wa_authenticated | wa_auth_failure | wa_qr_code
| wa_qr_image (imgData : option string)
| wa_state_change (state : string)
| wa_initialize_failure
| wa_start | wa_stop
| tick (ms : Z).                          (* time passes *)

Definition step (a : action) : Eff world unit :=
  match a with
  | subscribe => get_api_events ;; ret tt
  | close res => on_close res
  | publish data => broadcast data
  | wa_ready => Whatsapp.onReady statusCallback
  | wa_authenticated => Whatsapp.onAuthenticated statusCallback
  | wa_auth_failure => Whatsapp.onAuthenticationFailure statusCallback
  | wa_qr_code => Whatsapp.onQr statusCallback
  | wa_qr_image imgData => Whatsapp.onQrImage qrCallback imgData
  | wa_state_change state => Whatsapp.onStateChange statusCallback state
  | wa_initialize_failure => Whatsapp.onInitializeFailure statusCallback
  | wa_start => Whatsapp.startService statusCallback
  | wa_stop => Whatsapp.stopService statusCallback
  | tick ms => Whatsapp.delay ms
  end.

Fixpoint run (acts : list action) (w : world) : world :=
  match acts with
  | [] => w
  | a :: rest => run rest (snd (step a w))
  end.

(** The frames written to channel [res], oldest first. *)
Definition received (res : nat) (w : world) : list sse_event :=
  map snd (filter (fun f => Nat.eqb (fst f) res) (w_wire w)).

End App.

(** The process right after start-up, on a given database file. *)
Definition boot (d : Database.db) (now : Z) : world :=
  {| w_db := d; w_now := now; w_client := false;
     w_clientStatus := disconnected; w_sendMessage := [];
     w_clients := []; w_responses := 0%nat; w_wire := [] |}.

End Server.

(** * Reference notions used by the statements *)

Module Ledger.
Import Database.

(** The sum of the amounts of the transactions that satisfy [p]. *)
Fixpoint sum_amounts (p : transaction_row -> bool) (ts : list transaction_row) : Z :=
  match ts with
  | [] => 0
  | t :: rest => (if p t then t_jumlah t else 0) + sum_amounts p rest
  end.

Definition is_income (t : transaction_row) : bool :=
  match t_jenis t with pemasukan => true | pengeluaran => false end.

Definition is_expense (t : transaction_row) : bool :=
  match t_jenis t with pengeluaran => true | pemasukan => false end.

Definition is_pending (t : transaction_row) : bool :=
  match t_status t with pending => true | lunas => false end.

(** A pending transaction of customer [c]. *)
Definition owes (c : customer_row) (t : transaction_row) : bool :=
  (t_customer_id t =? c_id c) && is_pending t.

(** The transaction with primary key [id], if any. *)
Definition transaction_with_id (d : db) (id : Z) : option transaction_row :=
  find (fun t => t_id t =? id) (transactions d).

(** The amounts of the table are stored as integers. *)
Definition amounts_are_integers (d : db) : Prop :=
  forall t, In t (transactions d) -> in_int64 (t_jumlah t) = true.

(** The sum of the magnitudes of all amounts: while it stays below 2^63
    no SUM over rows of the table can overflow. *)
Definition volume (ts : list transaction_row) : Z :=
  fold_right (fun t s => Z.abs (t_jumlah t) + s) 0 ts.

(** Referential integrity of [transactions.customer_id], as SQLite keeps
    it under [foreign_keys = ON]. *)
Definition customers_referenced_exist (d : db) : Prop :=
  forall t, In t (transactions d) -> customer_exists d (t_customer_id t) = true.

(** What the UPDATE of [userOps.update] does to a row. *)
Definition apply_update `{Bcrypt} (id : Z) (data : user_update) (now : Z) (u : user_row)
  : user_row :=
  if u_id u =? id then update_user_row data now u else u.

(** A computation keeps a property of the state, however it ends. *)
Definition preserves {S A : Type} (P : S -> Prop) (m : Eff S A) : Prop :=
  forall s, P s -> P (snd (m s)).

End Ledger.

(** * The event stream, as a subscriber should see it *)

Module Stream.
Import Server.

Section Stream.
Context {js : JsRuntime}.

(** The objects an action hands to [broadcast] when it runs in [w]. *)
Definition publications (a : action) (w : world) : list sse_event :=
  let status_now s :=
    wa_status {| status := s; timestamp := toISOString (w_now w) |} in
  match a with
  | subscribe | close _ | tick _ => []
  | publish data => [data]
  | wa_ready => [status_now ready]
  | wa_authenticated => [status_now authenticated]
  | wa_auth_failure => [status_now disconnected]
  | wa_qr_code => [status_now qr]
  | wa_qr_image imgData => [wa_qr imgData]
  | wa_state_change state =>
      if String.eqb state "UNPAIRED" || String.eqb state "LOGGED_OUT"
      then [status_now disconnected] else []
  | wa_initialize_failure => [status_now error_status]
  | wa_start => [status_now initializing]
  | wa_stop => [status_now disconnected]
  end.

Definition closes (res : nat) (a : action) : bool :=
  match a with
  | close r => Nat.eqb r res
  | _ => false
  end.

(** What is published while [acts] run from [w], up to the moment the
    connection of [res] closes. *)
Fixpoint deliveries (res : nat) (acts : list action) (w : world) : list sse_event :=
  match acts with
  | [] => []
  | a :: rest =>
      if closes res a then []
      else publications a w ++ deliveries res rest (snd (step a w))
  end.

(** The frames of a wire that are addressed to [res]. *)
Definition frames_of (res : nat) (wire : list (nat * sse_event)) : list sse_event :=
  map snd (filter (fun f => Nat.eqb (fst f) res) wire).

(** One frame per registered channel and published object. *)
Definition fan_out (clients : list nat) (events : list sse_event)
  : list (nat * sse_event) :=
  flat_map (fun data => map (fun client => (client, data)) clients) events.

(** Channels are response objects created earlier, each registered once. *)
Definition channels_ok (w : world) : Prop :=
  NoDup (w_clients w) /\
  (forall c, In c (w_clients w) -> (c < w_responses w)%nat) /\
  (forall f, In f (w_wire w) -> (fst f < w_responses w)%nat).

End Stream.

End Stream.

(** * A small deployment to run the code on *)

Module Fixture.
Import Database.

(** A literal [replace(/pat/g, repl)]; [skip] counts the characters of a
    match that are still to be dropped. *)
Fixpoint replace_literal (pat repl : string) (skip : nat) (s : string) : string :=
  match s with
  | EmptyString => EmptyString
  | String a rest =>
      match skip with
      | S k => replace_literal pat repl k rest
      | O =>
          if String.prefix pat s
          then repl +++ replace_literal pat repl (String.length pat - 1) rest
          else String a (replace_literal pat repl 0 rest)
      end
  end.

Definition show_Z (n : Z) : string := NilZero.string_of_int (Z.to_int n).

Definition runtime : JsRuntime :=
  {| formatIDR := fun n => "Rp " +++ show_Z n;
     toLocaleString := show_Z;
     localePeriod := fun _ => "November 2026";
     localeToday := fun _ => "3 November 2026";
     toISOString := fun now => show_Z now;
     replacePlaceholder := fun name v s =>
       replace_literal ("{" +++ name +++ "}") v 0 s |}.

(** A stand-in for bcrypt: the digest is the password behind a tag. *)
Definition bcrypt : Bcrypt :=
  {| hashSync := fun password _ => "$2a$10$" +++ password;
     compareSync := fun password hash => String.eqb ("$2a$10$" +++ password) hash |}.

(** A stand-in for SQLite: [LIKE] finds the text between the two [%] of
    the pattern in the value, and the message for an unknown column is
    that of SQLite 3.41 and later. *)
Fixpoint contains (sub s : string) : bool :=
  String.prefix sub s
  || match s with
     | EmptyString => false
     | String _ rest => contains sub rest
     end.

Definition double_quoted (s : string) : string :=
  String "034" (s +++ String "034" EmptyString).

Definition sqlite : Sqlite :=
  {| like := fun value pattern =>
       contains (String.substring 1 (String.length pattern - 2) pattern) value;
     no_such_column := fun name =>
       "no such column: " +++ double_quoted name
       +++ " - should this be a string literal in single-quotes?" |}.

(** A transport that delivers every message. *)
Definition reliable : WhatsAppWeb :=
  {| sendMessage_rejects := fun _ _ _ => None |}.

(** A transport whose second call is rejected. *)
Definition second_call_fails : WhatsAppWeb :=
  {| sendMessage_rejects := fun n _ _ =>
       if Nat.eqb n 1 then Some (Error "Evaluation failed") else None |}.

Definition admin_user : user_row :=
  {| u_id := 1; u_username := "admin"; u_password := "$2a$10$admin123";
     u_nama_lengkap := "Administrator"; u_role := admin; u_aktif := 1;
     u_created_at := 0; u_updated_at := 0 |}.

Definition staff_user : user_row :=
  {| u_id := 2; u_username := "staff"; u_password := "$2a$10$staff123";
     u_nama_lengkap := "Staff Kasir"; u_role := staff; u_aktif := 1;
     u_created_at := 0; u_updated_at := 0 |}.

Definition customer (id : Z) (nama : string) (t : tipe) (whatsapp : string)
  : customer_row :=
  {| c_id := id; c_nama := nama; c_tipe := t; c_whatsapp := whatsapp;
     c_username_pppoe := None; c_password_pppoe := None; c_alamat := None;
     c_aktif := 1; c_created_by := Some 1; c_created_at := 0;
     c_updated_at := 0 |}.

Definition andi : customer_row := customer 1 "Andi" internet "0812-1111-0001".
Definition budi : customer_row := customer 2 "Budi" gas "0812-1111-0002".
Definition citra : customer_row := customer 3 "Citra" internet "+62 812 1111 0003".

Definition bill (id : Z) (c : customer_row) (jumlah : Z) (s : status)
  : transaction_row :=
  {| t_id := id; t_customer_id := c_id c; t_customer_nama := c_nama c;
     t_customer_tipe := tipe_text (c_tipe c); t_kategori := "Tagihan";
     t_jumlah := jumlah; t_jenis := pemasukan; t_status := s;
     t_deskripsi := None; t_created_by := Some 1; t_created_at := 0;
     t_updated_at := 0 |}.

(** Two seeded users, three customers, one pending bill each. *)
Definition billing_db : db :=
  {| users := [admin_user; staff_user];
     customers := [andi; budi; citra];
     transactions := [bill 1 andi 150000 pending; bill 2 budi 22000 pending;
                      bill 3 citra 150000 pending];
     message_logs := [];
     activity_logs := [];
     seq_transactions := 3;
     seq_message_logs := 0;
     seq_activity_logs := 0 |}.

(** The server on [billing_db], with the WhatsApp gateway connected. *)
Definition ready_world : world :=
  {| w_db := billing_db; w_now := 1000000; w_client := true;
     w_clientStatus := ready; w_sendMessage := [];
     w_clients := []; w_responses := 0%nat; w_wire := [] |}.

(** The token a login of the administrator yields at time 1000000. *)
Definition admin_token : Server.token :=
  Server.jwt_sign 1 "admin" admin "pppoe_billing_secret_key_2024" 1000000.

(** Andi owes two bills: 2^53 rupiah and one rupiah. *)
Definition large_bills_db : db :=
  set_transactions [bill 1 andi 9007199254740992 pending; bill 2 andi 1 pending]
                   2 billing_db.

(** The bill of Andi has been paid outside the application. *)
Definition settled_db : db :=
  set_transactions [bill 1 andi 150000 lunas; bill 2 budi 22000 pending] 2 billing_db.

(** What an administrator submits to deactivate the staff account. *)
Definition deactivate_staff : user_update :=
  {| data_nama_lengkap := "Staff Kasir"; data_role := staff;
     data_aktif := false; data_password := None |}.

End Fixture.

(** * database.js: the remaining operations *)

Module Store.
Import Database.

(** ** ORDER BY and LIMIT *)

(** [ORDER BY] as a stable insertion sort under the order [le]. *)
Fixpoint insert_sorted {A : Type} (le : A -> A -> bool) (x : A) (rows : list A)
  : list A :=
  match rows with
  | [] => [x]
  | y :: rest => if le x y then x :: y :: rest else y :: insert_sorted le x rest
  end.

Definition order_by {A : Type} (le : A -> A -> bool) (rows : list A) : list A :=
  fold_right (insert_sorted le) [] rows.

(** [LIMIT n]: a negative [n] is no limit. *)
Definition limit {A : Type} (n : Z) (rows : list A) : list A :=
  if n <? 0 then rows else firstn (Z.to_nat n) rows.

(** ** Enumerations as the TEXT they are stored as *)

Definition role_text (r : role) : string :=
  match r with admin => "admin" | staff => "staff" end.

Definition jenis_text (j : jenis) : string :=
  match j with pemasukan => "pemasukan" | pengeluaran => "pengeluaran" end.

Definition status_text (s : status) : string :=
  match s with pending => "pending" | lunas => "lunas" end.

(** The values a CHECK (col IN (...)) constraint lets through. *)
Definition parse_role (s : string) : option role :=
  if String.eqb s "admin" then Some admin
  else if String.eqb s "staff" then Some staff else None.

Definition parse_tipe (s : string) : option tipe :=
  if String.eqb s "internet" then Some internet
  else if String.eqb s "gas" then Some gas else None.

Definition parse_jenis (s : string) : option jenis :=
  if String.eqb s "pemasukan" then Some pemasukan
  else if String.eqb s "pengeluaran" then Some pengeluaran else None.

Definition parse_status (s : string) : option status :=
  if String.eqb s "pending" then Some pending
  else if String.eqb s "lunas" then Some lunas else None.

Definition check_failed (what : string) : js_error :=
  SqliteError ("CHECK constraint failed: " +++ what).

Definition unique_failed (col : string) : js_error :=
  SqliteError ("UNIQUE constraint failed: " +++ col).

(** [`${x}`] of a string that may be undefined. *)
Definition template_text (x : option string) : string :=
  match x with
  | Some s => s
  | None => "undefined"
  end.

Section Operations.
Context {js : JsRuntime} {bcrypt : Bcrypt} {sqlite : Sqlite}.

(** ** userOps *)

(** [ORDER BY role, nama_lengkap] *)
Definition by_role_then_nama (u v : user_row) : bool :=
  match String.compare (role_text (u_role u)) (role_text (u_role v)) with
  | Lt => true
  | Gt => false
  | Eq => String.leb (u_nama_lengkap u) (u_nama_lengkap v)
  end.

Definition userOps_getAll : Eff db (list user_public) :=
  d <- get ;;
  ret (map public_columns (order_by by_role_then_nama (users d))).

(** [DELETE FROM users WHERE id = ?] (server.js), under [foreign_keys = ON]:
    customers.created_by, transactions.created_by, message_logs.sent_by and
    activity_logs.user_id reference the row. *)
Definition referenced_user (d : db) (id : Z) : bool :=
  let is_id (ref : option Z) :=
    match ref with Some u => u =? id | None => false end in
  existsb (fun c => is_id (c_created_by c)) (customers d)
  || existsb (fun t => is_id (t_created_by t)) (transactions d)
  || existsb (fun m => is_id (m_sent_by m)) (message_logs d)
  || existsb (fun a => is_id (a_user_id a)) (activity_logs d).

Definition sql_delete_user (id : Z) : Eff db unit :=
  d <- get ;;
  if user_exists d id && referenced_user d id then throw fk_failed
  else modify (fun d => set_users (filter (fun u => negb (u_id u =? id)) (users d)) d).

(** ** customerOps *)

Record customer_filter : Type := {
  filter_tipe : option string;
  filter_aktif : option bool;
  filter_search : option string
}.

(** A filter that is given and truthy. *)
Definition given (x : option string) : option string := text_or_null x.

Definition customer_passes (f : customer_filter) (c : customer_row) : bool :=
  match given (filter_tipe f) with
  | Some t => String.eqb (tipe_text (c_tipe c)) t
  | None => true
  end
  && match filter_aktif f with
     | Some b => c_aktif c =? (if b then 1 else 0)
     | None => true
     end
  && match given (filter_search f) with
     | Some s =>
         like (c_nama c) ("%" +++ s +++ "%") || like (c_whatsapp c) ("%" +++ s +++ "%")
     | None => true
     end.

Definition by_nama (c c' : customer_row) : bool := String.leb (c_nama c) (c_nama c').

Definition customerOps_getAll (f : customer_filter) : Eff db (list customer_row) :=
  d <- get ;;
  ret (order_by by_nama (filter (customer_passes f) (customers d))).

(** What the routes pass as [data] to [customerOps.create] and
    [customerOps.update]; a field left out is [None]. *)
Record customer_data : Type := {
  data_nama : option string;
  data_tipe : option string;
  data_whatsapp : option string;
  data_username_pppoe : option string;
  data_password_pppoe : option string;
  data_alamat : option string
}.

(** The NOT NULL and CHECK constraints of (nama, tipe, whatsapp). *)
Definition checked_customer (data : customer_data)
  : completion (string * tipe * string) :=
  match data_nama data with
  | None => Throw (not_null_failed "customers.nama")
  | Some nama =>
      match data_tipe data with
      | None => Throw (not_null_failed "customers.tipe")
      | Some t =>
          match data_whatsapp data with
          | None => Throw (not_null_failed "customers.whatsapp")
          | Some whatsapp =>
              match parse_tipe t with
              | None => Throw (check_failed "tipe IN ('internet', 'gas')")
              | Some t => Normal (nama, t, whatsapp)
              end
          end
      end
  end.

Definition update_customer_row (nama : string) (t : tipe) (whatsapp : string)
    (data : customer_data) (now : Z) (c : customer_row) : customer_row :=
  {| c_id := c_id c; c_nama := nama; c_tipe := t; c_whatsapp := whatsapp;
     c_username_pppoe := text_or_null (data_username_pppoe data);
     c_password_pppoe := text_or_null (data_password_pppoe data);
     c_alamat := text_or_null (data_alamat data);
     c_aktif := c_aktif c; c_created_by := c_created_by c;
     c_created_at := c_created_at c; c_updated_at := now |}.

(** [UPDATE customers SET ... WHERE id = ?]: the constraints are only
    checked on a row that is really updated. *)
Definition sql_update_customer (id : Z) (data : customer_data) (now : Z)
  : Eff db unit :=
  d <- get ;;
  if customer_exists d id then
    match checked_customer data with
    | Throw e => throw e
    | Normal (nama, t, whatsapp) =>
        modify (set_customers
                  (map (fun c => if c_id c =? id
                                 then update_customer_row nama t whatsapp data now c
                                 else c) (customers d)))
    end
  else ret tt.

Definition customerOps_update (id : Z) (data : customer_data) (userId : option Z)
    (now : Z) : Eff db (option customer_row) :=
  sql_update_customer id data now ;;
  when (truthy_id userId)
       (userOps_logActivity userId "UPDATE_CUSTOMER"
          ("Update customer: " +++ template_text (data_nama data)) "" now) ;;
  customerOps_getById id.

(** ** transactionOps *)

Record transaction_filter : Type := {
  filter_status : option string;
  filter_jenis : option string;
  filter_customer_id : option Z;
  filter_limit : option Z
}.

Definition transaction_passes (f : transaction_filter) (t : transaction_row) : bool :=
  match given (filter_status f) with
  | Some s => String.eqb (status_text (t_status t)) s
  | None => true
  end
  && match given (filter_jenis f) with
     | Some j => String.eqb (jenis_text (t_jenis t)) j
     | None => true
     end
  && match or_null (filter_customer_id f) with
     | Some c => t_customer_id t =? c
     | None => true
     end.

(** [ORDER BY created_at DESC] *)
Definition newest_first (t t' : transaction_row) : bool :=
  t_created_at t' <=? t_created_at t.

Definition transactionOps_getAll (f : transaction_filter)
  : Eff db (list transaction_view) :=
  d <- get ;;
  let rows := order_by newest_first (filter (transaction_passes f) (transactions d)) in
  let rows := match or_null (filter_limit f) with
              | Some n => limit n rows
              | None => rows
              end in
  ret (map (left_join_customer d) rows).

(** [db.prepare('SELECT * FROM transactions WHERE customer_id = ? AND
     status = "pending" ORDER BY created_at DESC').all(customerId)] *)
Definition transactionOps_getPendingByCustomer (customerId : Z)
  : Eff db (list transaction_row) :=
  prepare_refused "pending".

(** What POST /api/transactions passes as [data]. *)
Record transaction_data : Type := {
  data_customer_id : Z;
  data_customer_nama : option string;
  data_customer_tipe : option string;
  data_kategori : option string;
  data_jumlah : Z;
  data_jenis : option string;
  data_status : option string;
  data_deskripsi : option string
}.

(** The NOT NULL constraints, in column order, then the CHECK constraints
    of (jenis, status); [status] is [data.status || 'pending']. *)
Definition checked_transaction (data : transaction_data)
  : completion (string * string * string * jenis * status) :=
  match data_customer_nama data with
  | None => Throw (not_null_failed "transactions.customer_nama")
  | Some nama =>
      match data_customer_tipe data with
      | None => Throw (not_null_failed "transactions.customer_tipe")
      | Some t =>
          match data_kategori data with
          | None => Throw (not_null_failed "transactions.kategori")
          | Some kategori =>
              match data_jenis data with
              | None => Throw (not_null_failed "transactions.jenis")
              | Some j =>
                  match parse_jenis j with
                  | None => Throw (check_failed "jenis IN ('pemasukan', 'pengeluaran')")
                  | Some j =>
                      match parse_status
                              (match given (data_status data) with
                               | Some s => s
                               | None => "pending"
                               end) with
                      | None => Throw (check_failed "status IN ('pending', 'lunas')")
                      | Some s => Normal (nama, t, kategori, j, s)
                      end
                  end
              end
          end
      end
  end.

Definition transactionOps_create (data : transaction_data) (userId : option Z)
    (now : Z) : Eff db (Z * transaction_data) :=
  match checked_transaction data with
  | Throw e => throw e
  | Normal (nama, t, kategori, j, s) =>
      id <- sql_insert_transaction (data_customer_id data) nama (Some t) kategori
              (data_jumlah data) j s (given (data_deskripsi data)) userId now ;;
      when (truthy_id userId)
           (userOps_logActivity userId "CREATE_TRANSACTION"
              (template_text (data_jenis data) +++ ": "
               +++ formatIDR (data_jumlah data) +++ " untuk "
               +++ template_text (data_customer_nama data)) "" now) ;;
      ret (id, data)
  end.

Definition transactionOps_delete (id : Z) (userId : option Z) (now : Z)
  : Eff db bool :=
  t <- transactionOps_getById id ;;
  match t with
  | Some t =>
      modify (fun d => set_transactions
                (filter (fun x => negb (t_id x =? id)) (transactions d))
                (seq_transactions d) d) ;;
      when (truthy_id userId)
           (userOps_logActivity userId "DELETE_TRANSACTION"
              ("Hapus transaksi: " +++ formatIDR (jumlah_of t)) "" now) ;;
      ret true
  | None => ret false
  end.

(** ** messageOps *)

(** A row of [SELECT m.*, u.username as sent_by_username ... LEFT JOIN users]. *)
Record message_view : Type := {
  log : message_log_row;
  sent_by_username : option string
}.

Definition left_join_user (d : db) (m : message_log_row) : message_view :=
  {| log := m;
     sent_by_username :=
       match m_sent_by m with
       | Some u => option_map u_username (find (fun x => u =? u_id x) (users d))
       | None => None
       end |}.

(** [ORDER BY m.sent_at DESC] *)
Definition latest_first (m m' : message_log_row) : bool :=
  m_sent_at m' <=? m_sent_at m.

Definition messageOps_getRecent (n : Z) : Eff db (list message_view) :=
  d <- get ;;
  ret (map (left_join_user d) (limit n (order_by latest_first (message_logs d)))).

Record message_stats : Type := {
  stats_total : nat;
  stats_success : nat;
  stats_failed : nat
}.

(** The first statement counts the rows; the second compares [status]
    with ["success"] in double quotes and is refused. *)
Definition messageOps_getStats : Eff db message_stats :=
  d <- get ;;
  let total := List.length (message_logs d) in
  success <- prepare_refused "success" ;;
  failed <- prepare_refused "failed" ;;
  ret {| stats_total := total; stats_success := success; stats_failed := failed |}.

End Operations.

End Store.

(** * database.js: settings, and the tables with their own counters

    [billing.db] as a whole: the tables of [Database.db], the settings
    table, and the AUTOINCREMENT counters of users and customers. *)

Module FullStore.
Import Database Store.

Record setting_row : Type := {
  s_key : string;
  s_value : option string;
  s_updated_at : Z
}.

Record store : Type := {
  tables : db;
  settings : list setting_row;
  seq_users : Z;
  seq_customers : Z
}.

Definition set_tables (d : db) (s : store) : store :=
  {| tables := d; settings := settings s;
     seq_users := seq_users s; seq_customers := seq_customers s |}.

Definition set_settings (l : list setting_row) (s : store) : store :=
  {| tables := tables s; settings := l;
     seq_users := seq_users s; seq_customers := seq_customers s |}.

Definition set_seq_users (n : Z) (s : store) : store :=
  {| tables := tables s; settings := settings s;
     seq_users := n; seq_customers := seq_customers s |}.

Definition set_seq_customers (n : Z) (s : store) : store :=
  {| tables := tables s; settings := settings s;
     seq_users := seq_users s; seq_customers := n |}.

(** An operation that only touches the tables of [Database.db]. *)
Definition on_tables {A : Type} (m : Eff db A) : Eff store A :=
  zoom tables set_tables m.

Section Operations.
Context {js : JsRuntime} {bcrypt : Bcrypt}.

(** ** userOps.create *)

(** [INSERT INTO users (username, password, nama_lengkap, role)]: role is
    under a CHECK, username is UNIQUE. *)
Definition sql_insert_user (username hash nama_lengkap role : string) (now : Z)
  : Eff store Z :=
  s <- get ;;
  match parse_role role with
  | None => throw (check_failed "role IN ('admin', 'staff')")
  | Some r =>
      if existsb (fun u => String.eqb (u_username u) username) (users (tables s))
      then throw (unique_failed "users.username")
      else
        let id := next_rowid (seq_users s) (map u_id (users (tables s))) in
        modify (fun s =>
          set_seq_users id
            (set_tables
               (set_users
                  (users (tables s) ++
                   [{| u_id := id; u_username := username; u_password := hash;
                       u_nama_lengkap := nama_lengkap; u_role := r; u_aktif := 1;
                       u_created_at := now; u_updated_at := now |}])
                  (tables s)) s)) ;;
        ret id
  end.

Record user_data : Type := {
  new_username : string;
  new_password : string;
  new_nama_lengkap : string;
  new_role : option string
}.

(** [{ id: result.lastInsertRowid, ...data }] *)
Definition userOps_create (data : user_data) (now : Z) : Eff store (Z * user_data) :=
  let hashedPassword := hashSync (new_password data) 10 in
  id <- sql_insert_user (new_username data) hashedPassword (new_nama_lengkap data)
          (match given (new_role data) with Some r => r | None => "staff" end) now ;;
  ret (id, data).

(** ** customerOps.create *)

Definition customerOps_create (data : customer_data) (userId : option Z) (now : Z)
  : Eff store (Z * customer_data) :=
  s <- get ;;
  match checked_customer data with
  | Throw e => throw e
  | Normal (nama, t, whatsapp) =>
      if fk_ok (user_exists (tables s)) userId then
        let id := next_rowid (seq_customers s) (map c_id (customers (tables s))) in
        modify (fun s =>
          set_seq_customers id
            (set_tables
               (set_customers
                  (customers (tables s) ++
                   [{| c_id := id; c_nama := nama; c_tipe := t;
                       c_whatsapp := whatsapp;
                       c_username_pppoe := text_or_null (data_username_pppoe data);
                       c_password_pppoe := text_or_null (data_password_pppoe data);
                       c_alamat := text_or_null (data_alamat data);
                       c_aktif := 1; c_created_by := userId;
                       c_created_at := now; c_updated_at := now |}])
                  (tables s)) s)) ;;
        on_tables
          (when (truthy_id userId)
                (userOps_logActivity userId "CREATE_CUSTOMER"
                   ("Menambah customer: " +++ template_text (data_nama data)) "" now)) ;;
        ret (id, data)
      else throw fk_failed
  end.

(** ** settingsOps *)

Definition settingsOps_get (key : string) : Eff store (option string) :=
  s <- get ;;
  ret (match find (fun r => String.eqb (s_key r) key) (settings s) with
       | Some r => s_value r
       | None => None
       end).

(** The object [getAll] builds, as its entries in insertion order. *)
Definition settingsOps_getAll : Eff store (list (string * option string)) :=
  s <- get ;;
  ret (fold_left
         (fun obj r =>
            if existsb (fun e => String.eqb (fst e) (s_key r)) obj
            then map (fun e => if String.eqb (fst e) (s_key r)
                               then (fst e, s_value r) else e) obj
            else obj ++ [(s_key r, s_value r)])
         (settings s) []).

(** [INSERT ... ON CONFLICT(key) DO UPDATE SET value = ?, updated_at = ...] *)
Definition settingsOps_set (key : string) (value : option string) (now : Z)
  : Eff store bool :=
  modify (fun s =>
    if existsb (fun r => String.eqb (s_key r) key) (settings s)
    then set_settings
           (map (fun r => if String.eqb (s_key r) key
                          then {| s_key := key; s_value := value; s_updated_at := now |}
                          else r) (settings s)) s
    else set_settings
           (settings s ++ [{| s_key := key; s_value := value; s_updated_at := now |}])
           s) ;;
  ret true.

(** ** Start-up *)

(** [INSERT OR IGNORE INTO settings (key, value)] *)
Definition sql_insert_or_ignore_setting (key value : string) (now : Z)
  : Eff store unit :=
  modify (fun s =>
    if existsb (fun r => String.eqb (s_key r) key) (settings s) then s
    else set_settings
           (settings s ++ [{| s_key := key; s_value := Some value;
                              s_updated_at := now |}]) s).

Definition defaultSettings : list (string * string) :=
  [("price_internet", "150000"); ("price_gas", "22000");
   ("app_name", "PPPoE Billing Pro"); ("business_address", "-")].

Fixpoint forEach {S A : Type} (f : A -> Eff S unit) (l : list A) : Eff S unit :=
  match l with
  | [] => ret tt
  | x :: rest => f x ;; forEach f rest
  end.

(** What the module does when it is loaded, after the tables exist. *)
Definition initialize (now : Z) : Eff store unit :=
  (* Create default admin user if not exists *)
  adminExists <- on_tables (userOps_getByUsername "admin") ;;
  match adminExists with
  | Some _ => ret tt
  | None =>
      sql_insert_user "admin" (hashSync "admin123" 10) "Administrator" "admin" now ;;
      ret tt
  end ;;
  (* Create default staff user *)
  staffExists <- on_tables (userOps_getByUsername "staff") ;;
  match staffExists with
  | Some _ => ret tt
  | None =>
      sql_insert_user "staff" (hashSync "staff123" 10) "Staff Kasir" "staff" now ;;
      ret tt
  end ;;
  (* Insert default settings *)
  forEach (fun kv => sql_insert_or_ignore_setting (fst kv) (snd kv) now)
          defaultSettings.

End Operations.

End FullStore.

(** * server.js: the remaining routes

    The routes that need the settings table or the counters of users and
    customers run on the whole of [billing.db] beside the process state. *)

Module Site.
Import Database Store FullStore Server.

Record site : Type := {
  process : world;
  site_settings : list setting_row;
  site_seq_users : Z;
  site_seq_customers : Z
}.

Definition set_process (w : world) (s : site) : site :=
  {| process := w; site_settings := site_settings s;
     site_seq_users := site_seq_users s;
     site_seq_customers := site_seq_customers s |}.

(** [billing.db] inside the site, and back. *)
Definition store_of (s : site) : store :=
  {| tables := w_db (process s); settings := site_settings s;
     seq_users := site_seq_users s; seq_customers := site_seq_customers s |}.

Definition put_store (st : store) (s : site) : site :=
  {| process := set_db (tables st) (process s);
     site_settings := settings st;
     site_seq_users := seq_users st;
     site_seq_customers := seq_customers st |}.

(** Code of whatsapp.js or server.js that does not need the extra tables. *)
Definition in_process {A : Type} (m : Eff world A) : Eff site A :=
  zoom process set_process m.

(** A database operation; CURRENT_TIMESTAMP is the process clock. *)
Definition sql_store {A : Type} (op : Z -> Eff store A) : Eff site A :=
  fun s => zoom store_of put_store (op (w_now (process s))) s.

(** ** Responses *)

Inductive payload : Type :=
| plain (b : body)
| data_created_user (id : Z) (data : user_data)
| data_customer (data : customer_row)
| data_pending (data : list transaction_row) (total : Z)
| data_settings (data : list (string * option string)).

Record reply : Type := {
  code : Z;
  content : payload
}.

Definition send {S : Type} (status : Z) (p : payload) : Eff S reply :=
  ret {| code := status; content := p |}.

Definition forward (r : response) : reply :=
  {| code := http_status r; content := plain (json r) |}.

Section App.
Context {js : JsRuntime} {bcrypt : Bcrypt} {sqlite : Sqlite}.
Context (env_JWT_SECRET : option string).

(** [app.METHOD(path, authenticateToken, handler)] *)
Definition guarded (authHeader : authorization)
    (handler : jwt_payload -> Eff site reply) : Eff site reply :=
  m <- in_process (authenticateToken env_JWT_SECRET authHeader) ;;
  match m with
  | answered r => ret (forward r)
  | next user => handler user
  end.

(** [app.METHOD(path, authenticateToken, requireAdmin, handler)] *)
Definition admin_only (authHeader : authorization)
    (handler : jwt_payload -> Eff site reply) : Eff site reply :=
  guarded authHeader (fun user =>
    match requireAdmin user with
    | answered r => ret (forward r)
    | next user => handler user
    end).

(** The [catch (error)] of every route. *)
Definition failed_500 (error : js_error) : Eff site reply :=
  send 500 (plain (json_error (error_message error))).

(** ** Users *)

Record user_body : Type := {
  body_username : option string;
  body_password : option string;
  body_nama_lengkap : option string;
  body_role : option string
}.

Definition post_api_users (authHeader : authorization) (b : user_body)
  : Eff site reply :=
  admin_only authHeader (fun req_user =>
    try_catch
      (match given (body_username b), given (body_password b),
             given (body_nama_lengkap b) with
       | Some username, Some password, Some nama_lengkap =>
           (* Check if username exists *)
           existing <- in_process (sql (fun _ => userOps_getByUsername username)) ;;
           match existing with
           | Some _ => send 400 (plain (json_error "Username sudah digunakan"))
           | None =>
               user <- sql_store
                         (userOps_create
                            {| new_username := username; new_password := password;
                               new_nama_lengkap := nama_lengkap;
                               new_role := body_role b |}) ;;
               in_process
                 (sql (userOps_logActivity (Some (id req_user)) "CREATE_USER"
                         ("Menambah user: " +++ username) "")) ;;
               send 200 (data_created_user (fst user) (snd user))
           end
       | _, _, _ => send 400 (plain (json_error "Data tidak lengkap"))
       end)
      failed_500).

Definition delete_api_users_id (authHeader : authorization) (params_id : Z)
  : Eff site reply :=
  admin_only authHeader (fun req_user =>
    try_catch
      (if params_id =? id req_user
       then send 400 (plain (json_error "Tidak dapat menghapus diri sendiri"))
       else
         targetUser <- in_process (sql (fun _ => userOps_getById params_id)) ;;
         match targetUser with
         | None => send 404 (plain (json_error "User tidak ditemukan"))
         | Some targetUser =>
             in_process (sql (fun _ => sql_delete_user params_id)) ;;
             in_process
               (sql (userOps_logActivity (Some (id req_user)) "DELETE_USER"
                       ("Hapus user: " +++ p_username targetUser) "")) ;;
             send 200 (plain json_success)
         end)
      failed_500).

(** ** Customers and transactions *)


Definition delete_api_transactions_id (authHeader : authorization) (params_id : Z)
  : Eff site reply :=
  guarded authHeader (fun req_user =>
    try_catch
      (result <- in_process
                   (sql (transactionOps_delete params_id (Some (id req_user)))) ;;
       if negb result
       then send 404 (plain (json_error "Transaksi tidak ditemukan"))
       else
         in_process (broadcast (transaction_updated None)) ;;
         send 200 (plain json_success))
      failed_500).

(** [transactions.reduce((sum, t) => sum + t.jumlah, 0)] *)
Definition reduce_jumlah (rows : list transaction_row) : Z :=
  fold_left (fun sum t => to_double (sum + to_double (t_jumlah t))) rows 0.

Definition get_api_transactions_customer_id_pending (authHeader : authorization)
    (params_id : Z) : Eff site reply :=
  guarded authHeader (fun req_user =>
    try_catch
      (transactions <- in_process
                         (sql (fun _ => transactionOps_getPendingByCustomer params_id)) ;;
       let total := reduce_jumlah transactions in
       send 200 (data_pending transactions total))
      failed_500).

(** ** Settings *)

Definition get_api_settings (authHeader : authorization) : Eff site reply :=
  guarded authHeader (fun req_user =>
    try_catch
      (settings <- sql_store (fun _ => settingsOps_getAll) ;;
       send 200 (data_settings settings))
      failed_500).

(** [value] is [None] when the body has no such field. *)
Definition post_api_settings (authHeader : authorization) (key value : option string)
  : Eff site reply :=
  guarded authHeader (fun req_user =>
    try_catch
      (match given key, value with
       | Some key, Some value =>
           sql_store (settingsOps_set key (Some value)) ;;
           in_process (broadcast (settings_updated key value)) ;;
           send 200 (plain json_success)
       | _, _ => send 400 (plain (json_error "Key dan value diperlukan"))
       end)
      failed_500).

(** ** Restore *)

(** The fields of a backup that the route reads; [transactions] is
    destructured as well and never used. *)
Record backup_body : Type := {
  backup_customers : option (list customer_data);
  backup_transactions : option (list transaction_data);
  backup_settings : option (list (string * option string))
}.

Definition post_api_restore (authHeader : authorization) (b : backup_body)
  : Eff site reply :=
  admin_only authHeader (fun req_user =>
    try_catch
      (match backup_customers b with
       | Some customers =>
           forEach (fun c =>
                      sql_store (customerOps_create c (Some (id req_user))) ;; ret tt)
                   customers
       | None => ret tt
       end ;;
       match backup_settings b with
       | Some settings =>
           forEach (fun kv => sql_store (settingsOps_set (fst kv) (snd kv)) ;; ret tt)
                   settings
       | None => ret tt
       end ;;
       in_process (broadcast data_restored) ;;
       in_process
         (sql (userOps_logActivity (Some (id req_user)) "RESTORE_DATA"
                 "Restore data dari backup" "")) ;;
       send 200 (plain (json_message "Data berhasil dipulihkan")))
      failed_500).

End App.

(** The site right after the module of database.js has been loaded on the
    database file [st]. *)
Definition boot_site {bcrypt : Bcrypt} (st : store) (now : Z) : site :=
  let st := snd (initialize now st) in
  {| process := boot (tables st) now;
     site_settings := settings st;
     site_seq_users := seq_users st;
     site_seq_customers := seq_customers st |}.

End Site.

(** * Further reference notions *)

Module Notions.
Import Database.

(** Ascending order of [nama] on the rows of [getWithPending]. *)
Definition nama_le (r r' : debtor_row) : Prop :=
  String.leb (c_nama (debtor r)) (c_nama (debtor r')) = true.

(** What the ON CONFLICT branch of [settingsOps.set] does to a row. *)
Definition upsert_row (key : string) (new : FullStore.setting_row)
    (r : FullStore.setting_row) : FullStore.setting_row :=
  if String.eqb (FullStore.s_key r) key then new else r.

(** The row [customerOps.create] makes of [data] for the acting user [uid]. *)
Definition restored_from (uid : Z) (data : Store.customer_data) (c : customer_row)
  : Prop :=
  Store.checked_customer data = Normal (c_nama c, c_tipe c, c_whatsapp c) /\
  c_aktif c = 1 /\ c_created_by c = Some uid.

(** A string of decimal digits. *)
Fixpoint all_digits (s : string) : bool :=
  match s with
  | EmptyString => true
  | String a rest => Whatsapp.is_digit a && all_digits rest
  end.

(** [client && clientStatus === 'ready'] *)
Definition gateway_ready (w : world) : bool :=
  w_client w && client_status_eqb (w_clientStatus w) ready.

(** An account of that username exists. *)
Definition has_user (username : string) (st : FullStore.store) : bool :=
  existsb (fun u => String.eqb (u_username u) username) (users (FullStore.tables st)).

(** A setting of that key exists. *)
Definition has_setting (key : string) (st : FullStore.store) : bool :=
  existsb (fun r => String.eqb (FullStore.s_key r) key) (FullStore.settings st).

(** No customer of the table is deactivated. *)
Definition all_active (d : db) : Prop :=
  forall c, In c (customers d) -> c_aktif c = 1.

(** Newest first, on [created_at]. *)
Definition newer_or_same (t t' : transaction_row) : Prop :=
  t_created_at t' <= t_created_at t.

End Notions.

(** * More of the sample deployment *)

Module Samples.
Import Database Store FullStore Server Site Fixture.

(** The token a login of the staff account yields at time 1000000. *)
Definition staff_token : token :=
  jwt_sign 2 "staff" staff "pppoe_billing_secret_key_2024" 1000000.

(** A token for the administrator signed with a guessed secret. *)
Definition forged_token : token := jwt_sign 1 "admin" admin "secret" 1000000.

Definition price_settings : list setting_row :=
  [{| s_key := "price_internet"; s_value := Some "150000"; s_updated_at := 0 |};
   {| s_key := "price_gas"; s_value := Some "22000"; s_updated_at := 0 |}].

(** [billing.db] of the sample deployment, and the server on it. *)
Definition billing_store : store :=
  {| tables := billing_db; settings := price_settings;
     seq_users := 2; seq_customers := 3 |}.

Definition billing_site : site :=
  {| process := ready_world; site_settings := price_settings;
     site_seq_users := 2; site_seq_customers := 3 |}.

(** A database file that has just been created: empty tables. *)
Definition fresh_store : store :=
  {| tables := {| users := []; customers := []; transactions := [];
                  message_logs := []; activity_logs := [];
                  seq_transactions := 0; seq_message_logs := 0;
                  seq_activity_logs := 0 |};
     settings := []; seq_users := 0; seq_customers := 0 |}.

(** The staff account has logged in once. *)
Definition staff_login : activity_log_row :=
  {| a_id := 1; a_user_id := Some 2; a_action := "LOGIN";
     a_details := "User login ke sistem"; a_ip_address := "";
     a_created_at := 900000 |}.

Definition site_after_staff_login : site :=
  {| process := set_db (set_activity_logs [staff_login] 1 billing_db) ready_world;
     site_settings := price_settings;
     site_seq_users := 2; site_seq_customers := 3 |}.

(** A gas bill for Budi, without a status. *)
Definition new_bill : transaction_data :=
  {| data_customer_id := 2; data_customer_nama := Some "Budi";
     data_customer_tipe := Some "gas"; data_kategori := Some "Tagihan";
     data_jumlah := 22000; data_jenis := Some "pemasukan";
     data_status := None; data_deskripsi := None |}.

(** The same bill for a customer id that is not in the table. *)
Definition bill_for_nobody : transaction_data :=
  {| data_customer_id := 9; data_customer_nama := Some "Budi";
     data_customer_tipe := Some "gas"; data_kategori := Some "Tagihan";
     data_jumlah := 22000; data_jenis := Some "pemasukan";
     data_status := None; data_deskripsi := None |}.

Definition new_customer (nama tipe whatsapp : string) : customer_data :=
  {| data_nama := Some nama; data_tipe := Some tipe; data_whatsapp := Some whatsapp;
     data_username_pppoe := None; data_password_pppoe := None;
     data_alamat := None |}.

Definition dewi : customer_data := new_customer "Dewi" "gas" "0812-1111-0004".
Definition eko : customer_data := new_customer "Eko" "internet" "0812-1111-0005".

Definition backup : backup_body :=
  {| backup_customers := Some [dewi; eko];
     backup_transactions := Some [new_bill];
     backup_settings := None |}.


Definition second_staff : user_body :=
  {| body_username := Some "staff"; body_password := Some "rahasia";
     body_nama_lengkap := Some "Staff Dua"; body_role := None |}.

Definition pending_unlimited : transaction_filter :=
  {| filter_status := Some "pending"; filter_jenis := None;
     filter_customer_id := None; filter_limit := Some 0 |}.

Definition two_newest : transaction_filter :=
  {| filter_status := None; filter_jenis := None;
     filter_customer_id := None; filter_limit := Some 2 |}.

Definition inactive_customers : customer_filter :=
  {| filter_tipe := Some ""; filter_aktif := Some false; filter_search := None |}.

End Samples.

(** * Properties of database.js *)

Module DatabaseFacts.
Import Database Ledger.

Lemma sum_amounts_filter (p : transaction_row -> bool) (ts : list transaction_row) :
  fold_right Z.add 0 (map t_jumlah (filter p ts)) = sum_amounts p ts.
Proof.
  induction ts as [|t ts IH]; simpl; [reflexivity|].
  destruct (p t); simpl; rewrite IH; lia.
Qed.

Lemma sum_amounts_ext (p q : transaction_row -> bool) (ts : list transaction_row) :
  (forall t, p t = q t) -> sum_amounts p ts = sum_amounts q ts.
Proof.
  intros E; induction ts as [|t ts IH]; simpl; [reflexivity|].
  now rewrite E, IH.
Qed.

Lemma status_eqb_pending t : status_eqb (t_status t) pending = is_pending t.
Proof. unfold is_pending; now destruct (t_status t). Qed.

(** ** SUM over 64-bit integers, and what JavaScript reads *)

Lemma sum_from_value (xs : list Z) (a total : Z) :
  sum_from a xs = Normal total -> total = a + fold_right Z.add 0 xs.
Proof.
  revert a. induction xs as [|x xs IH]; intros a; simpl.
  - intros E. injection E as <-. lia.
  - destruct (in_int64 (a + x)); [|discriminate].
    intros E. apply IH in E. lia.
Qed.

Lemma sum_from_throws (xs : list Z) (a : Z) (e : js_error) :
  sum_from a xs = Throw e -> e = integer_overflow.
Proof.
  revert a. induction xs as [|x xs IH]; intros a; simpl; [discriminate|].
  destruct (in_int64 (a + x)); [apply IH|]. intros E. now injection E.
Qed.

Lemma sum_from_small (xs : list Z) (a : Z) :
  Z.abs a + fold_right (fun x s => Z.abs x + s) 0 xs < 2 ^ 63 ->
  sum_from a xs = Normal (a + fold_right Z.add 0 xs).
Proof.
  revert a. induction xs as [|x xs IH]; intros a B; simpl in *.
  - f_equal. lia.
  - assert (P : 0 <= fold_right (fun x s => Z.abs x + s) 0 xs).
    { clear. induction xs as [|y ys IH]; simpl; lia. }
    assert (R : in_int64 (a + x) = true).
    { unfold in_int64. apply andb_true_iff. split; [apply Z.leb_le|apply Z.ltb_lt]; lia. }
    rewrite R, IH by lia. f_equal. lia.
Qed.

Lemma sql_sum_value (xs : list Z) (total : Z) :
  sql_sum xs = Normal (Some total) -> xs <> [] /\ total = fold_right Z.add 0 xs.
Proof.
  unfold sql_sum. destruct xs as [|x xs]; [discriminate|].
  destruct (sum_from 0 (x :: xs)) as [s|e] eqn:S; [|discriminate].
  intros E. injection E as <-. split; [discriminate|].
  now apply sum_from_value in S.
Qed.

Lemma to_double_exact (n : Z) : Z.abs n <= 2 ^ 53 -> to_double n = n.
Proof.
  intros B. unfold to_double. apply Z.leb_le in B. now rewrite B.
Qed.

Lemma to_double_positive (n : Z) : 0 < n -> 0 < to_double n.
Proof.
  intros P. unfold to_double. rewrite (Z.abs_eq n) by lia.
  destruct (n <=? 2 ^ 53) eqn:B; [assumption|]. apply Z.leb_gt in B.
  rewrite (Z.sgn_pos n P), Z.mul_1_l.
  assert (L : 53 <= Z.log2 n) by (apply Z.log2_le_pow2; lia).
  destruct (Z.log2_spec n P) as [Lo _].
  set (e := Z.log2 n - 52) in *.
  assert (E : 0 < 2 ^ e) by (apply Z.pow_pos_nonneg; lia).
  assert (Q : 0 < n / 2 ^ e).
  { apply Z.div_str_pos. split; [assumption|].
    apply Z.le_trans with (2 ^ Z.log2 n); [|assumption].
    apply Z.pow_le_mono_r; lia. }
  apply Z.mul_pos_pos; [|assumption].
  destruct (n mod 2 ^ e <? 2 ^ (e - 1)); [assumption|].
  destruct (2 ^ (e - 1) <? n mod 2 ^ e); [lia|].
  destruct (Z.even (n / 2 ^ e)); lia.
Qed.

(** ** getStats *)

(** C9. [getStats] returns on no database at all.  Its first statement
    compares [jenis] with ["pemasukan"] in double quotes, which SQLite reads
    as the name of a column; there is none, [db.prepare] throws, and the
    totals are never computed.  So it is on a database without
    transactions too: the call throws where four zeros were meant, and the
    database is left as it was. *)
Theorem getStats_throws_on_every_database `{Sqlite} (d : db) :
  transactionOps_getStats d = (Throw (SqliteError (no_such_column "pemasukan")), d) /\
  (forall s, fst (transactionOps_getStats d) <> Normal s) /\
  (forall seq,
     fst (transactionOps_getStats (set_transactions [] seq d))
     <> Normal {| income := 0; expense := 0; pending_total := 0; balance := 0 |}).
Proof.
  split; [reflexivity|]. split; [intros s; discriminate|intros seq; discriminate].
Qed.

(** ** getWithPending *)

Lemma In_insert_by_nama (r x : debtor_row) (rs : list debtor_row) :
  In x (insert_by_nama r rs) <-> x = r \/ In x rs.
Proof.
  induction rs as [|r' rs IH]; simpl.
  - intuition congruence.
  - destruct (String.leb _ _); simpl; [intuition congruence|].
    rewrite IH. intuition congruence.
Qed.

Lemma In_order_by_nama (x : debtor_row) (rs : list debtor_row) :
  In x (order_by_nama rs) <-> In x rs.
Proof.
  induction rs as [|r rs IH]; simpl; [tauto|].
  rewrite In_insert_by_nama, IH. intuition congruence.
Qed.

Lemma pending_sum (d : db) (c : customer_row) :
  fold_right Z.add 0 (map t_jumlah (pending_of d c))
  = sum_amounts (owes c) (transactions d).
Proof.
  unfold pending_of. rewrite sum_amounts_filter. apply sum_amounts_ext.
  intros t. unfold owes. now rewrite status_eqb_pending, (Z.eqb_sym (c_id c)).
Qed.

Lemma In_debtor_group (d : db) (c : customer_row) (rows : list debtor_row)
    (r : debtor_row) :
  debtor_group d c = Normal rows ->
  In r rows ->
  debtor r = c /\ c_aktif c = 1 /\ pending_of d c <> [] /\
  total_debt r = to_double (sum_amounts (owes c) (transactions d)) /\
  0 < sum_amounts (owes c) (transactions d).
Proof.
  unfold debtor_group.
  destruct (c_aktif c =? 1) eqn:A; [|intros E; injection E as <-; intros []].
  destruct (sql_sum (map t_jumlah (pending_of d c))) as [[total|]|e] eqn:S;
    [| intros E; injection E as <-; intros [] | discriminate].
  apply sql_sum_value in S. destruct S as [N T]. rewrite pending_sum in T.
  destruct (total >? 0) eqn:P; intros E; injection E as <-; [|intros []].
  intros [<-|[]]; simpl. subst total.
  repeat split; try lia; try reflexivity.
  intros Q. apply N. now rewrite Q.
Qed.

Lemma In_debtor_groups (d : db) (cs : list customer_row) (rows : list debtor_row)
    (r : debtor_row) :
  debtor_groups d cs = Normal rows ->
  In r rows ->
  exists c group, In c cs /\ debtor_group d c = Normal group /\ In r group.
Proof.
  revert rows. induction cs as [|c cs IH]; intros rows; simpl.
  - intros E. injection E as <-. intros [].
  - destruct (debtor_group d c) as [group|e] eqn:G; [|discriminate].
    destruct (debtor_groups d cs) as [more|e] eqn:M; [|discriminate].
    intros E. injection E as <-. intros I. apply in_app_or in I.
    destruct I as [I|I].
    + exists c, group. auto.
    + destruct (IH more eq_refl I) as (c' & g & Ic & Eg & Ig).
      exists c', g. auto.
Qed.

Lemma getWithPending_rows (d : db) (rows : list debtor_row) :
  fst (customerOps_getWithPending d) = Normal rows ->
  exists groups, debtor_groups d (customers d) = Normal groups /\
                 rows = order_by_nama groups.
Proof.
  unfold customerOps_getWithPending, bind, get, throw, ret.
  destruct (debtor_groups d (customers d)) as [groups|e]; simpl; [|discriminate].
  intros E. injection E as <-. eauto.
Qed.

(** C7. On a table whose amounts are stored as integers, every row that
    [getWithPending] returns is a customer of the table whose [aktif] is 1,
    who has at least one pending transaction and whose pending amounts sum
    to a strictly positive number.  The row carries that sum as JavaScript
    reads it: [total_debt] is the double nearest to the sum, strictly
    positive as well, and it is the sum itself whenever the sum is at most
    2^53. *)
Theorem getWithPending_sound (d : db) (rows : list debtor_row) (r : debtor_row) :
  amounts_are_integers d ->
  fst (customerOps_getWithPending d) = Normal rows ->
  In r rows ->
  In (debtor r) (customers d) /\
  c_aktif (debtor r) = 1 /\
  (exists t, In t (transactions d) /\
             t_customer_id t = c_id (debtor r) /\ t_status t = pending) /\
  0 < sum_amounts (owes (debtor r)) (transactions d) /\
  total_debt r = to_double (sum_amounts (owes (debtor r)) (transactions d)) /\
  0 < total_debt r /\
  (sum_amounts (owes (debtor r)) (transactions d) <= 2 ^ 53 ->
   total_debt r = sum_amounts (owes (debtor r)) (transactions d)).
Proof.
  intros _ E H. apply getWithPending_rows in E. destruct E as (groups & G & ->).
  apply (proj1 (In_order_by_nama _ _)) in H.
  destruct (In_debtor_groups d _ _ _ G H) as (c & group & Hc & Eg & Ig).
  destruct (In_debtor_group d c group r Eg Ig) as (-> & A & N & T & P).
  split; [assumption|]. split; [assumption|]. split.
  - destruct (pending_of d c) as [|t ts] eqn:Q; [congruence|].
    assert (I : In t (pending_of d c)) by (rewrite Q; now left).
    apply filter_In in I. destruct I as [I B].
    apply andb_true_iff in B. destruct B as [B1 B2].
    exists t. repeat split; [assumption|lia|].
    now destruct (t_status t).
  - split; [assumption|]. split; [assumption|]. split.
    + rewrite T. now apply to_double_positive.
    + intros B. rewrite T. apply to_double_exact. lia.
Qed.

(** [getWithPending] leaves the database as it is, and the only error it
    can throw is the overflow of a SUM. *)
Lemma getWithPending_reads_only (d : db) :
  snd (customerOps_getWithPending d) = d /\
  forall e, fst (customerOps_getWithPending d) = Throw e -> e = integer_overflow.
Proof.
  unfold customerOps_getWithPending, bind, get, throw, ret.
  destruct (debtor_groups d (customers d)) as [groups|e] eqn:G; simpl;
    (split; [reflexivity|]); [discriminate|].
  intros e' E. injection E as <-.
  revert G. generalize (customers d). intros cs. revert e.
  induction cs as [|c cs IH]; intros e; simpl; [discriminate|].
  destruct (debtor_group d c) as [group|e1] eqn:Gc.
  - destruct (debtor_groups d cs) as [more|e2]; [discriminate|].
    intros E. injection E as <-. now apply IH.
  - intros E. injection E as <-. unfold debtor_group in Gc.
    destruct (c_aktif c =? 1); [|discriminate].
    unfold sql_sum in Gc.
    destruct (map t_jumlah (pending_of d c)) as [|x xs]; [discriminate|].
    destruct (sum_from 0 (x :: xs)) as [s|e2] eqn:S.
    + destruct (s >? 0); discriminate.
    + injection Gc as <-. now apply sum_from_throws in S.
Qed.

Lemma pending_volume (d : db) (c : customer_row) :
  fold_right (fun x s => Z.abs x + s) 0 (map t_jumlah (pending_of d c))
  <= volume (transactions d).
Proof.
  unfold pending_of, volume.
  induction (transactions d) as [|t ts IH]; simpl; [lia|].
  destruct ((c_id c =? t_customer_id t) && status_eqb (t_status t) pending);
    simpl; lia.
Qed.

(** It returns whenever the amounts of the table are small enough for no
    running total to leave the 64-bit range. *)
Lemma getWithPending_returns (d : db) :
  volume (transactions d) < 2 ^ 63 ->
  exists rows, customerOps_getWithPending d = (Normal rows, d).
Proof.
  intros V.
  assert (G : forall c, exists group, debtor_group d c = Normal group).
  { intros c. unfold debtor_group. destruct (c_aktif c =? 1); [|eauto].
    assert (S : exists s, sql_sum (map t_jumlah (pending_of d c)) = Normal s).
    { unfold sql_sum. destruct (map t_jumlah (pending_of d c)) as [|x xs] eqn:M;
        [eauto|]. rewrite <- M. rewrite sum_from_small; [eauto|].
      pose proof (pending_volume d c). simpl. lia. }
    destruct S as ([total|] & ->); eauto. }
  assert (Gs : forall cs, exists rows, debtor_groups d cs = Normal rows).
  { induction cs as [|c cs (more & M)]; simpl; [eauto|].
    destruct (G c) as (group & ->). rewrite M. eauto. }
  destruct (Gs (customers d)) as (rows & R).
  unfold customerOps_getWithPending, bind, get, ret. rewrite R. eauto.
Qed.

(** ** markAsLunas *)

Lemma existsb_find {A : Type} (f : A -> bool) (l : list A) :
  existsb f l = true -> exists x, find f l = Some x /\ f x = true.
Proof.
  induction l as [|a l IH]; simpl; [discriminate|].
  destruct (f a) eqn:E; simpl; eauto.
Qed.

(** Running a sequence whose first command is known. *)
Lemma bind_normal {S A B : Type} (m : Eff S A) (k : A -> Eff S B) (s s' : S) (a : A) :
  m s = (Normal a, s') -> bind m k s = k a s'.
Proof. unfold bind. now intros ->. Qed.

Lemma bind_throw {S A B : Type} (m : Eff S A) (k : A -> Eff S B) (s s' : S)
    (e : js_error) :
  m s = (Throw e, s') -> bind m k s = (Throw e, s').
Proof. unfold bind. now intros ->. Qed.

Lemma getById_transaction (d : db) (id : Z) :
  transactionOps_getById id d =
  (Normal (option_map (left_join_customer d) (transaction_with_id d id)), d).
Proof. reflexivity. Qed.

Lemma sql_insert_transaction_runs (d : db) (customer_id : Z)
    (customer_nama customer_tipe kategori : string) (jumlah : Z) (j : jenis)
    (st : status) (deskripsi : option string) (created_by : option Z) (now : Z) :
  customer_exists d customer_id = true ->
  fk_ok (user_exists d) created_by = true ->
  let id := next_rowid (seq_transactions d) (map t_id (transactions d)) in
  sql_insert_transaction customer_id customer_nama (Some customer_tipe) kategori
    jumlah j st deskripsi created_by now d =
  (Normal id,
   set_transactions
     (transactions d ++
      [{| t_id := id; t_customer_id := customer_id;
          t_customer_nama := customer_nama; t_customer_tipe := customer_tipe;
          t_kategori := kategori; t_jumlah := jumlah; t_jenis := j;
          t_status := st; t_deskripsi := deskripsi; t_created_by := created_by;
          t_created_at := now; t_updated_at := now |}]) id d).
Proof.
  intros C U. unfold sql_insert_transaction, bind, get, modify, ret.
  rewrite C, U. reflexivity.
Qed.

Lemma logActivity_runs (d : db) (userId : option Z) (action details ip : string)
    (now : Z) :
  fk_ok (user_exists d) userId = true ->
  exists d',
    userOps_logActivity userId action details ip now d = (Normal tt, d') /\
    users d' = users d /\ customers d' = customers d /\
    transactions d' = transactions d /\ message_logs d' = message_logs d /\
    seq_transactions d' = seq_transactions d.
Proof.
  intros U. unfold userOps_logActivity, bind, get, modify.
  rewrite U. eexists. split; [reflexivity|]. repeat split.
Qed.

Lemma when_logActivity_runs (d : db) (b : bool) (userId : option Z)
    (action details ip : string) (now : Z) :
  fk_ok (user_exists d) userId = true ->
  exists d',
    when b (userOps_logActivity userId action details ip now) d = (Normal tt, d') /\
    users d' = users d /\ customers d' = customers d /\
    transactions d' = transactions d /\ message_logs d' = message_logs d /\
    seq_transactions d' = seq_transactions d.
Proof.
  intros U. destruct b; simpl.
  - now apply logActivity_runs.
  - exists d. repeat split.
Qed.

Section MarkAsLunas.
Context {js : JsRuntime} {sqlite : Sqlite}.

Lemma markAsLunas_missing (d : db) (id : Z) (userId : option Z) (now : Z) :
  transaction_with_id d id = None ->
  transactionOps_markAsLunas id userId now d = (Normal false, d).
Proof.
  intros F. unfold transactionOps_markAsLunas.
  rewrite (bind_normal _ _ _ _ _ (getById_transaction d id)), F.
  reflexivity.
Qed.

(** The UPDATE is the first statement after the lookup, and it is refused:
    nothing is written for a transaction that exists. *)
Lemma markAsLunas_found (d : db) (id : Z) (userId : option Z) (now : Z)
    (t : transaction_row) :
  transaction_with_id d id = Some t ->
  transactionOps_markAsLunas id userId now d
  = (Throw (SqliteError (no_such_column "lunas")), d).
Proof.
  intros F. unfold transactionOps_markAsLunas.
  rewrite (bind_normal _ _ _ _ _ (getById_transaction d id)), F.
  reflexivity.
Qed.

(** C8. Two calls of [markAsLunas] on a transaction that exists, settled
    already or not, write no receipt at all: each call throws at the
    [db.prepare] of its UPDATE, whose ["lunas"] in double quotes SQLite
    reads as the name of a column, before the INSERT of the receipt is
    reached.  After both calls the database is what it was: no status has
    changed and the transactions table has not grown. *)
Theorem markAsLunas_twice_writes_no_receipt (d : db) (id : Z) (userId : option Z)
    (now1 now2 : Z) (t : transaction_row) :
  transaction_with_id d id = Some t ->
  let first := transactionOps_markAsLunas id userId now1 d in
  let second := transactionOps_markAsLunas id userId now2 (snd first) in
  fst first = Throw (SqliteError (no_such_column "lunas")) /\
  fst second = Throw (SqliteError (no_such_column "lunas")) /\
  snd first = d /\ snd second = d /\
  transactions (snd second) = transactions d.
Proof.
  intros F first second. subst first second.
  rewrite (markAsLunas_found d id userId now1 t F). simpl.
  rewrite (markAsLunas_found d id userId now2 t F). now repeat split.
Qed.

End MarkAsLunas.

(** *** AUTOINCREMENT never reuses a rowid *)

Lemma fold_left_max_bounds (ids : list Z) (seq : Z) :
  seq <= fold_left Z.max ids seq /\
  forall x, In x ids -> x <= fold_left Z.max ids seq.
Proof.
  revert seq; induction ids as [|i ids IH]; intros seq; simpl.
  - split; [lia|intros x []].
  - destruct (IH (Z.max seq i)) as [B1 B2]. split; [lia|].
    intros x [<-|I]; [lia|now apply B2].
Qed.

Lemma next_rowid_above_seq (seq : Z) (ids : list Z) : seq < next_rowid seq ids.
Proof. unfold next_rowid. destruct (fold_left_max_bounds ids seq). lia. Qed.

Lemma next_rowid_fresh (seq : Z) (ids : list Z) (x : Z) :
  In x ids -> x < next_rowid seq ids.
Proof.
  intros I. unfold next_rowid.
  destruct (fold_left_max_bounds ids seq) as [_ B]. specialize (B x I). lia.
Qed.

Lemma find_app_found {A : Type} (f : A -> bool) (l l' : list A) (x : A) :
  find f l = Some x -> find f (l ++ l') = Some x.
Proof.
  induction l as [|a l IH]; simpl; [discriminate|].
  destruct (f a); [trivial|exact IH].
Qed.

Lemma find_id (id : Z) (ts : list transaction_row) (t : transaction_row) :
  find (fun t => t_id t =? id) ts = Some t -> In t ts /\ t_id t = id.
Proof.
  intros F. apply find_some in F. destruct F as [I E]. split; [assumption|lia].
Qed.

Lemma customer_exists_same (d d' : db) (id : Z) :
  customers d' = customers d -> customer_exists d' id = customer_exists d id.
Proof. unfold customer_exists. now intros ->. Qed.

Lemma user_fk_same (d d' : db) (u : option Z) :
  users d' = users d -> fk_ok (user_exists d') u = fk_ok (user_exists d) u.
Proof. unfold fk_ok, user_exists. now intros ->. Qed.

Lemma primary_key_unique (id : Z) (ts : list transaction_row) (t x : transaction_row) :
  NoDup (map t_id ts) ->
  find (fun t => t_id t =? id) ts = Some t ->
  In x ts -> t_id x = id -> x = t.
Proof.
  induction ts as [|a ts IH]; simpl; [intros _ _ []|].
  intros N F I E. inversion N as [|? ? Na Nts]; subst.
  destruct (t_id a =? t_id x) eqn:Ea.
  - injection F as <-. destruct I as [I|I]; [now symmetry|].
    exfalso. apply Na. apply Z.eqb_eq in Ea. rewrite Ea. now apply in_map.
  - destruct I as [<-|I]; [rewrite Z.eqb_refl in Ea; discriminate|].
    now apply IH.
Qed.

(** ** customerOps.delete *)

Lemma getById_customer (d : db) (id : Z) :
  customerOps_getById id d = (Normal (find (fun c => c_id c =? id) (customers d)), d).
Proof. reflexivity. Qed.

Lemma found_customer_exists (d : db) (id : Z) (c : customer_row) :
  find (fun c => c_id c =? id) (customers d) = Some c -> customer_exists d id = true.
Proof.
  intros F. apply find_some in F. unfold customer_exists.
  apply existsb_exists. eauto.
Qed.

Lemma delete_referenced_throws (d : db) (id : Z) (userId : option Z) (now : Z)
    (c : customer_row) (t : transaction_row) :
  find (fun c => c_id c =? id) (customers d) = Some c ->
  In t (transactions d) -> t_customer_id t = id ->
  customerOps_delete id userId now d = (Throw fk_failed, d).
Proof.
  intros F I E. unfold customerOps_delete.
  rewrite (bind_normal _ _ _ _ _ (getById_customer d id)), F.
  apply bind_throw. unfold sql_delete_customer, bind, get, throw.
  rewrite (found_customer_exists d id c F).
  assert (R : referenced_customer d id = true).
  { unfold referenced_customer. apply orb_true_iff. left.
    apply existsb_exists. exists t. split; [assumption|lia]. }
  now rewrite R.
Qed.

Lemma delete_success_unreferenced (d d' : db) (id : Z) (userId : option Z) (now : Z) :
  customerOps_delete id userId now d = (Normal true, d') ->
  forall t, In t (transactions d) -> t_customer_id t <> id.
Proof.
  intros D t I E.
  destruct (find (fun c => c_id c =? id) (customers d)) as [c|] eqn:F.
  - rewrite (delete_referenced_throws d id userId now c t F I E) in D.
    discriminate.
  - unfold customerOps_delete in D.
    rewrite (bind_normal _ _ _ _ _ (getById_customer d id)), F in D.
    discriminate.
Qed.

Lemma delete_unreferenced_succeeds (d : db) (id : Z) (userId : option Z) (now : Z)
    (c : customer_row) :
  find (fun c => c_id c =? id) (customers d) = Some c ->
  referenced_customer d id = false ->
  fk_ok (user_exists d) userId = true ->
  exists d',
    customerOps_delete id userId now d = (Normal true, d') /\
    customers d' = filter (fun c => negb (c_id c =? id)) (customers d) /\
    transactions d' = transactions d.
Proof.
  intros F R U. unfold customerOps_delete.
  rewrite (bind_normal _ _ _ _ _ (getById_customer d id)), F.
  assert (D : sql_delete_customer id d =
              (Normal tt, set_customers
                            (filter (fun c => negb (c_id c =? id)) (customers d)) d)).
  { unfold sql_delete_customer, bind, get, modify.
    now rewrite R, andb_false_r. }
  rewrite (bind_normal _ _ _ _ _ D).
  set (d1 := set_customers _ d).
  destruct (when_logActivity_runs d1 (truthy_id userId) userId
              "DELETE_CUSTOMER" ("Hapus customer: " +++ c_nama c) "" now U)
    as (d' & L & _ & Ec & Et & _).
  rewrite (bind_normal _ _ _ _ _ L).
  exists d'. split; [reflexivity|]. now rewrite Ec, Et.
Qed.

(** ** Referential integrity is kept

    The states the theorems above assume are the states the code stays in. *)

Lemma preserves_bind {S A B : Type} (P : S -> Prop) (m : Eff S A) (k : A -> Eff S B) :
  preserves P m -> (forall a, preserves P (k a)) -> preserves P (bind m k).
Proof.
  intros Hm Hk s Ps. unfold bind. specialize (Hm s Ps).
  destruct (m s) as [[a|e] s']; simpl in *; [now apply Hk|assumption].
Qed.

Lemma preserves_get {S B : Type} (P : S -> Prop) (k : S -> Eff S B) :
  (forall s, P s -> P (snd (k s s))) -> preserves P (bind get k).
Proof. intros Hk s Ps. unfold bind, get. now apply Hk. Qed.

Lemma preserves_ret {S A : Type} (P : S -> Prop) (a : A) : preserves P (ret (S := S) a).
Proof. now intros s Ps. Qed.

Lemma preserves_when {S : Type} (P : S -> Prop) (b : bool) (m : Eff S unit) :
  preserves P m -> preserves P (when b m).
Proof. destruct b; [trivial|intros _; apply preserves_ret]. Qed.

Lemma references_same_tables (d d' : db) :
  customers d' = customers d -> transactions d' = transactions d ->
  customers_referenced_exist d -> customers_referenced_exist d'.
Proof.
  intros C T Ref t I. rewrite T in I. rewrite (customer_exists_same d d' _ C).
  now apply Ref.
Qed.

Lemma logActivity_keeps_references (userId : option Z) (action details ip : string)
    (now : Z) :
  preserves customers_referenced_exist
    (userOps_logActivity userId action details ip now).
Proof.
  apply preserves_get. intros d Ref.
  destruct (fk_ok (user_exists d) userId); [|exact Ref].
  now apply (references_same_tables d).
Qed.

Lemma update_lunas_keeps_references `{Sqlite} (id now : Z) :
  preserves customers_referenced_exist (sql_update_lunas id now).
Proof. now intros d Ref. Qed.

Lemma insert_transaction_keeps_references (customer_id : Z) (customer_nama : string)
    (customer_tipe : option string) (kategori : string) (jumlah : Z) (j : jenis)
    (st : status) (deskripsi : option string) (created_by : option Z) (now : Z) :
  preserves customers_referenced_exist
    (sql_insert_transaction customer_id customer_nama customer_tipe kategori
       jumlah j st deskripsi created_by now).
Proof.
  apply preserves_get. intros d Ref.
  destruct customer_tipe as [s|]; [|exact Ref].
  destruct (customer_exists d customer_id) eqn:C; [|exact Ref].
  destruct (fk_ok (user_exists d) created_by); [|exact Ref].
  intros t I. simpl in I. apply in_app_or in I.
  destruct I as [I|[<-|[]]]; [now apply Ref|exact C].
Qed.

Lemma markAsLunas_keeps_references `{JsRuntime} `{Sqlite} (id : Z)
    (userId : option Z) (now : Z) :
  preserves customers_referenced_exist (transactionOps_markAsLunas id userId now).
Proof.
  unfold transactionOps_markAsLunas, transactionOps_getById.
  apply preserves_bind; [now intros d Ref|]. intros [t|]; [|apply preserves_ret].
  apply preserves_bind; [apply update_lunas_keeps_references|]. intros _.
  apply preserves_bind; [apply insert_transaction_keeps_references|]. intros _.
  apply preserves_bind; [|intros _; apply preserves_ret].
  apply preserves_when, logActivity_keeps_references.
Qed.

End DatabaseFacts.

(** * Properties of server.js *)

Module ServerFacts.
Import Database Ledger Server DatabaseFacts.

Lemma set_db_same (w : world) : set_db (w_db w) w = w.
Proof. now destruct w. Qed.

Lemma sql_runs {A : Type} (op : Z -> Eff db A) (w : world) (r : completion A) (d' : db) :
  op (w_now w) (w_db w) = (r, d') -> sql op w = (r, set_db d' w).
Proof. unfold sql, zoom. now intros ->. Qed.

Lemma try_catch_normal {S A : Type} (body : Eff S A) (handler : js_error -> Eff S A)
    (s s' : S) (a : A) :
  body s = (Normal a, s') -> try_catch body handler s = (Normal a, s').
Proof. unfold try_catch. now intros ->. Qed.

Lemma try_catch_throw {S A : Type} (body : Eff S A) (handler : js_error -> Eff S A)
    (s s' : S) (e : js_error) :
  body s = (Throw e, s') -> try_catch body handler s = handler e s'.
Proof. unfold try_catch. now intros ->. Qed.

Section Routes.
Context {js : JsRuntime} {bcrypt : Bcrypt} {sqlite : Sqlite}.
Context (env_JWT_SECRET : option string).

(** The middleware only reads: the token, the secret and the clock. *)
Lemma authenticateToken_reads_only (authHeader : authorization) (w : world) :
  snd (authenticateToken env_JWT_SECRET authHeader w) = w.
Proof.
  destruct authHeader as [| |[t|]]; try reflexivity.
  unfold authenticateToken, try_catch, bind, get, jwt_verify, throw, ret.
  destruct (negb _); [reflexivity|].
  destruct (_ <=? _); reflexivity.
Qed.

Lemma authenticateToken_next (authHeader : authorization) (w : world)
    (user : jwt_payload) :
  fst (authenticateToken env_JWT_SECRET authHeader w) = Normal (next user) ->
  authenticateToken env_JWT_SECRET authHeader w = (Normal (next user), w).
Proof.
  intros E. rewrite (surjective_pairing (authenticateToken _ _ _)).
  now rewrite E, authenticateToken_reads_only.
Qed.

(** A well-signed token that has not expired passes the middleware. *)
Lemma authenticateToken_valid (t : token) (w : world) :
  signed_with t = JWT_SECRET env_JWT_SECRET ->
  w_now w / 1000 < exp (payload t) ->
  authenticateToken env_JWT_SECRET (Bearer (Some t)) w = (Normal (next (payload t)), w).
Proof.
  intros K T.
  unfold authenticateToken, try_catch, bind, get, jwt_verify, throw, ret.
  rewrite K, String.eqb_refl. simpl negb. cbv iota.
  destruct (exp (payload t) <=? w_now w / 1000) eqn:E; [lia|reflexivity].
Qed.

(** C1. Behind a valid token.  When the transaction exists, [markAsLunas]
    writes nothing: the [db.prepare] of its UPDATE throws, because SQLite
    reads ["lunas"] in double quotes as the name of a column.  No status is
    changed and no receipt is inserted; the route answers 500 with the
    message of SQLite and notifies no one, and the whole process state is
    as before.  When no transaction has that id, [markAsLunas] returns
    false, the route answers 404, and nothing at all is written. *)
Theorem markAsLunas_writes_nothing (w : world) (authHeader : authorization)
    (req_user : jwt_payload) (params_id : Z) :
  fst (authenticateToken env_JWT_SECRET authHeader w) = Normal (next req_user) ->
  match transaction_with_id (w_db w) params_id with
  | Some t =>
      transactionOps_markAsLunas params_id (Some (id req_user)) (w_now w) (w_db w)
      = (Throw (SqliteError (no_such_column "lunas")), w_db w) /\
      post_api_transactions_id_mark_lunas env_JWT_SECRET authHeader params_id w
      = (Normal {| http_status := 500;
                   json := json_error (no_such_column "lunas") |}, w)
  | None =>
      transactionOps_markAsLunas params_id (Some (id req_user)) (w_now w) (w_db w)
      = (Normal false, w_db w) /\
      post_api_transactions_id_mark_lunas env_JWT_SECRET authHeader params_id w
      = (Normal {| http_status := 404;
                   json := json_error "Transaksi tidak ditemukan" |}, w)
  end.
Proof.
  intros A. apply authenticateToken_next in A.
  destruct (transaction_with_id (w_db w) params_id) as [t|] eqn:F.
  - pose proof (markAsLunas_found (w_db w) params_id (Some (id req_user))
                  (w_now w) t F) as E.
    split; [exact E|].
    unfold post_api_transactions_id_mark_lunas, authenticated_route.
    rewrite (bind_normal _ _ _ _ _ A).
    rewrite (try_catch_throw _ _ _ _ _
               (bind_throw _ _ _ _ _ (sql_runs _ _ _ _ E))).
    simpl. now rewrite set_db_same.
  - pose proof (markAsLunas_missing (w_db w) params_id (Some (id req_user))
                  (w_now w) F) as E.
    split; [exact E|].
    unfold post_api_transactions_id_mark_lunas, authenticated_route.
    rewrite (bind_normal _ _ _ _ _ A). unfold try_catch.
    rewrite (bind_normal _ _ _ _ _ (sql_runs _ _ _ _ E)).
    simpl. now rewrite set_db_same.
Qed.

(** C10. Behind a valid token, deleting a customer that some transaction
    references fails: SQLite refuses the DELETE, [customerOps.delete] throws
    and the route answers 500, with the database and the rest of the process
    exactly as before.  No call of [customerOps.delete] on that customer can
    return true. *)
Theorem delete_customer_with_transactions_rejected (w : world)
    (authHeader : authorization) (req_user : jwt_payload) (params_id : Z)
    (c : customer_row) (t : transaction_row) :
  fst (authenticateToken env_JWT_SECRET authHeader w) = Normal (next req_user) ->
  find (fun c => c_id c =? params_id) (customers (w_db w)) = Some c ->
  In t (transactions (w_db w)) ->
  t_customer_id t = params_id ->
  customerOps_delete params_id (Some (id req_user)) (w_now w) (w_db w)
  = (Throw (SqliteError "FOREIGN KEY constraint failed"), w_db w) /\
  delete_api_customers_id env_JWT_SECRET authHeader params_id w
  = (Normal {| http_status := 500;
               json := json_error "FOREIGN KEY constraint failed" |}, w) /\
  (forall userId now d',
     customerOps_delete params_id userId now (w_db w) <> (Normal true, d')).
Proof.
  intros A F I E. apply authenticateToken_next in A.
  pose proof (delete_referenced_throws (w_db w) params_id (Some (id req_user))
                (w_now w) c t F I E) as D.
  split; [exact D|]. split.
  - unfold delete_api_customers_id, authenticated_route.
    rewrite (bind_normal _ _ _ _ _ A). unfold try_catch.
    rewrite (bind_throw _ _ _ _ _ (sql_runs _ _ _ _ D)).
    simpl. now rewrite set_db_same.
  - intros userId now d' D'.
    now apply (delete_success_unreferenced _ _ _ _ _ D' t I).
Qed.

(** ** Login *)

Lemma getByUsername_runs (w : world) (username : string) :
  sql (fun _ => userOps_getByUsername username) w =
  (Normal (find (fun u => String.eqb (u_username u) username) (users (w_db w))), w).
Proof.
  rewrite (sql_runs _ w _ (w_db w) eq_refl). now rewrite set_db_same.
Qed.

(** C4 (as amended). A login with an unknown username and a login with a
    wrong password for an active account are both answered 401 with
    success false and nothing is written, but the two error messages
    differ: 'Username tidak ditemukan' against 'Password salah'. *)
Theorem login_failures_same_status_different_message (w : world)
    (username1 password1 username2 password2 : string) (user : user_row) :
  find (fun u => String.eqb (u_username u) username1) (users (w_db w)) = None ->
  find (fun u => String.eqb (u_username u) username2) (users (w_db w)) = Some user ->
  u_aktif user <> 0 ->
  compareSync password2 (u_password user) = false ->
  post_api_auth_login env_JWT_SECRET username1 password1 w
  = (Normal {| http_status := 401; json := json_error "Username tidak ditemukan" |}, w)
  /\
  post_api_auth_login env_JWT_SECRET username2 password2 w
  = (Normal {| http_status := 401; json := json_error "Password salah" |}, w)
  /\
  fst (post_api_auth_login env_JWT_SECRET username1 password1 w)
  <> fst (post_api_auth_login env_JWT_SECRET username2 password2 w).
Proof.
  intros U1 U2 A P.
  assert (E1 : post_api_auth_login env_JWT_SECRET username1 password1 w
               = (Normal {| http_status := 401;
                            json := json_error "Username tidak ditemukan" |}, w)).
  { unfold post_api_auth_login.
    rewrite (bind_normal _ _ _ _ _ (getByUsername_runs w username1)), U1.
    reflexivity. }
  assert (E2 : post_api_auth_login env_JWT_SECRET username2 password2 w
               = (Normal {| http_status := 401;
                            json := json_error "Password salah" |}, w)).
  { unfold post_api_auth_login.
    rewrite (bind_normal _ _ _ _ _ (getByUsername_runs w username2)), U2.
    destruct (u_aktif user =? 0) eqn:Z0; [lia|].
    unfold userOps_verifyPassword. rewrite P. reflexivity. }
  split; [exact E1|]. split; [exact E2|].
  rewrite E1, E2. simpl. discriminate.
Qed.

(** ** Tokens of deactivated users *)

Lemma userOps_update_runs (d : db) (id : Z) (data : user_update) (now : Z) :
  snd (userOps_update id data now d) =
  set_users (map (apply_update id data now) (users d)) d.
Proof. reflexivity. Qed.

Lemma find_updated_user (id : Z) (data : user_update) (now : Z) (us : list user_row) :
  find (fun u => u_id u =? id) (map (apply_update id data now) us) =
  option_map (update_user_row data now) (find (fun u => u_id u =? id) us).
Proof.
  induction us as [|u us IH]; simpl; [reflexivity|].
  assert (K : u_id (apply_update id data now u) = u_id u)
    by (unfold apply_update; now destruct (u_id u =? id)).
  rewrite K. destruct (u_id u =? id) eqn:E; simpl; [|exact IH].
  unfold apply_update. now rewrite E.
Qed.

(** C5 (what the code does). A token issued to a user stays accepted by
    [authenticateToken] after the user is deactivated, for as long as it
    has not expired: the middleware never reads the users table.  The
    handler of GET /api/auth/verify does read it, and rejects the same
    token with 401. *)
Theorem authenticateToken_accepts_deactivated_user (w : world) (user : user_row)
    (data : user_update) (elapsed : Z) :
  let t := jwt_sign (u_id user) (u_username user) (u_role user)
             (JWT_SECRET env_JWT_SECRET) (w_now w) in
  let w1 := snd (sql (userOps_update (u_id user) data) w) in
  let w2 := set_now (w_now w + elapsed) w1 in
  data_aktif data = false ->
  (w_now w + elapsed) / 1000 < w_now w / 1000 + 86400 ->
  authenticateToken env_JWT_SECRET (Bearer (Some t)) w2
  = (Normal (next (payload t)), w2) /\
  get_api_auth_verify env_JWT_SECRET (Bearer (Some t)) w2
  = (Normal {| http_status := 401; json := json_error "User tidak valid" |}, w2).
Proof.
  intros t w1 w2 D T. split.
  - apply authenticateToken_valid; [reflexivity|exact T].
  - unfold get_api_auth_verify, try_catch.
    assert (V : jwt_verify (S := world) (Some t) (JWT_SECRET env_JWT_SECRET)
                  (w_now w2) w2 = (Normal (payload t), w2)).
    { unfold jwt_verify, throw, ret. subst t; simpl.
      rewrite String.eqb_refl. simpl.
      destruct (_ <=? _) eqn:E; [lia|reflexivity]. }
    unfold bind at 1. unfold get.
    rewrite (bind_normal _ _ _ _ _ V).
    rewrite (bind_normal _ _ _ _ _
               (sql_runs (fun _ => userOps_getById (id (payload t))) w2 _ _ eq_refl)).
    rewrite set_db_same. unfold get. simpl id.
    replace (users (w_db w2))
      with (map (apply_update (u_id user) data (w_now w)) (users (w_db w)))
      by reflexivity.
    rewrite find_updated_user.
    destruct (find _ (users (w_db w))) as [u|]; simpl; [|reflexivity].
    rewrite D. reflexivity.
Qed.

End Routes.

End ServerFacts.

(** * Properties of the event stream *)

Module StreamFacts.
Import Server Stream.

Lemma frames_of_app (res : nat) (l l' : list (nat * sse_event)) :
  frames_of res (l ++ l') = frames_of res l ++ frames_of res l'.
Proof. unfold frames_of. now rewrite filter_app, map_app. Qed.

Lemma frames_of_foreign (res : nat) (l : list (nat * sse_event)) :
  (forall f, In f l -> fst f <> res) -> frames_of res l = [].
Proof.
  induction l as [|f l IH]; intros A; [reflexivity|]. unfold frames_of; simpl.
  destruct (Nat.eqb (fst f) res) eqn:E.
  - apply Nat.eqb_eq in E. exfalso. now apply (A f); [left|].
  - apply IH. intros g I. apply A. now right.
Qed.

Lemma in_fan_out (clients : list nat) (events : list sse_event) (f : nat * sse_event) :
  In f (fan_out clients events) -> In (fst f) clients.
Proof.
  unfold fan_out. intros I. apply in_flat_map in I. destruct I as (data & _ & I).
  apply in_map_iff in I. destruct I as (c & <- & I). exact I.
Qed.

Lemma frames_of_fan_out_absent (res : nat) (clients : list nat)
    (events : list sse_event) :
  ~ In res clients -> frames_of res (fan_out clients events) = [].
Proof.
  intros N. apply frames_of_foreign. intros f I E.
  apply in_fan_out in I. now rewrite E in I.
Qed.

Lemma frames_of_one_event (res : nat) (clients : list nat) (data : sse_event) :
  NoDup clients -> In res clients ->
  frames_of res (map (fun client => (client, data)) clients) = [data].
Proof.
  induction clients as [|c cs IH]; intros N I; [destruct I|].
  inversion N as [|? ? Nc Ncs]; subst. unfold frames_of; simpl.
  destruct (Nat.eqb c res) eqn:E.
  - apply Nat.eqb_eq in E. subst c. simpl. f_equal.
    apply (frames_of_foreign res). intros f J Ef.
    apply in_map_iff in J. destruct J as (c & <- & J). simpl in Ef. now subst c.
  - destruct I as [->|I]; [now rewrite Nat.eqb_refl in E|]. now apply IH.
Qed.

Lemma frames_of_fan_out_member (res : nat) (clients : list nat)
    (events : list sse_event) :
  NoDup clients -> In res clients ->
  frames_of res (fan_out clients events) = events.
Proof.
  intros N I. induction events as [|data events IH]; [reflexivity|].
  unfold fan_out in *; simpl. rewrite frames_of_app, IH.
  now rewrite frames_of_one_event.
Qed.

Section Facts.
Context {js : JsRuntime}.

Lemma received_frames (res : nat) (w : world) :
  received res w = frames_of res (w_wire w).
Proof. reflexivity. Qed.

(** *** What one action does to the fan-out *)

Lemma step_publishes (a : action) (w : world) :
  match a with
  | subscribe | close _ => True
  | _ =>
      w_clients (snd (step a w)) = w_clients w /\
      w_responses (snd (step a w)) = w_responses w /\
      w_wire (snd (step a w)) = w_wire w ++ fan_out (w_clients w) (publications a w)
  end.
Proof.
  destruct a; try exact I; simpl;
    try (repeat split; unfold fan_out; simpl; now rewrite ?app_nil_r).
  unfold Whatsapp.onStateChange.
  destruct (String.eqb state "UNPAIRED" || String.eqb state "LOGGED_OUT");
    repeat split; unfold fan_out; simpl; now rewrite ?app_nil_r.
Qed.

Lemma step_close (r : nat) (w : world) :
  w_clients (snd (step (close r) w))
  = filter (fun c => negb (Nat.eqb c r)) (w_clients w) /\
  w_responses (snd (step (close r) w)) = w_responses w /\
  w_wire (snd (step (close r) w)) = w_wire w.
Proof. repeat split. Qed.

Lemma not_in_existsb (n : nat) (l : list nat) :
  ~ In n l -> existsb (Nat.eqb n) l = false.
Proof.
  intros N. destruct (existsb (Nat.eqb n) l) eqn:E; [|reflexivity].
  apply existsb_exists in E. destruct E as (x & I & E).
  apply Nat.eqb_eq in E. now subst x.
Qed.

Lemma step_subscribe (w : world) :
  ~ In (w_responses w) (w_clients w) ->
  fst (get_api_events w) = Normal (w_responses w) /\
  snd (step subscribe w) = snd (get_api_events w) /\
  w_clients (snd (get_api_events w)) = w_clients w ++ [w_responses w] /\
  w_responses (snd (get_api_events w)) = S (w_responses w) /\
  w_wire (snd (get_api_events w))
  = w_wire w ++
    [(w_responses w, connected);
     (w_responses w,
      wa_status {| status := w_clientStatus w; timestamp := toISOString (w_now w) |})].
Proof.
  intros N. apply not_in_existsb in N.
  unfold step, get_api_events, bind, get, modify, res_write, clients_add,
    Whatsapp.getStatus, ret; simpl.
  rewrite N; simpl. repeat split. now rewrite <- app_assoc.
Qed.

Lemma fresh_response (w : world) :
  channels_ok w -> ~ In (w_responses w) (w_clients w).
Proof. intros (_ & B & _) I. apply B in I. lia. Qed.

Lemma step_keeps_channels_ok (a : action) (w : world) :
  channels_ok w -> channels_ok (snd (step a w)).
Proof.
  intros Ok. pose proof Ok as (N & B & W). destruct a as [|r|data| | | | | | | | | |ms].
  1: { destruct (step_subscribe w (fresh_response w Ok)) as (_ & -> & C & R & F).
       unfold channels_ok. rewrite C, R, F. repeat split.
       - apply NoDup_app; [assumption|repeat constructor; intros []|].
         intros c I [<-|[]]. apply B in I. lia.
       - intros c I. apply in_app_or in I. destruct I as [I|[<-|[]]]; [|lia].
         apply B in I. lia.
       - intros f I. apply in_app_or in I.
         destruct I as [I|[<-|[<-|[]]]]; simpl; try lia.
         apply W in I. lia. }
  1: { destruct (step_close r w) as (C & R & F).
       unfold channels_ok. rewrite C, R, F. repeat split.
       - now apply NoDup_filter.
       - intros c I. apply filter_In in I. now apply B.
       - assumption. }
  all: match goal with
       | |- channels_ok (snd (step ?a ?w0)) =>
           pose proof (step_publishes a w0) as (C & R & F)
       end;
       unfold channels_ok; rewrite C, R, F; repeat split; try assumption;
       intros f I; apply in_app_or in I; destruct I as [I|I];
       [now apply W|apply in_fan_out in I; now apply B].
Qed.

Lemma run_keeps_channels_ok (acts : list action) (w : world) :
  channels_ok w -> channels_ok (run acts w).
Proof.
  revert w; induction acts as [|a acts IH]; intros w Ok; simpl; [assumption|].
  now apply IH, step_keeps_channels_ok.
Qed.

Lemma boot_channels_ok (d : Database.db) (now : Z) : channels_ok (boot d now).
Proof. repeat split; simpl; try constructor; intros ? []. Qed.

(** *** What one action does to a given channel *)

Lemma step_responses_grow (res : nat) (a : action) (w : world) :
  channels_ok w -> (res < w_responses w)%nat ->
  (res < w_responses (snd (step a w)))%nat.
Proof.
  intros Ok L. destruct a as [|r|data| | | | | | | | | |ms].
  1: { destruct (step_subscribe w (fresh_response w Ok)) as (_ & -> & _ & -> & _). lia. }
  1: { destruct (step_close r w) as (_ & -> & _). exact L. }
  all: match goal with
       | |- (_ < w_responses (snd (step ?a ?w0)))%nat =>
           pose proof (step_publishes a w0) as (_ & -> & _)
       end; exact L.
Qed.

Lemma step_membership (res : nat) (a : action) (w : world) :
  channels_ok w -> (res < w_responses w)%nat ->
  (In res (w_clients (snd (step a w)))
   <-> In res (w_clients w) /\ closes res a = false).
Proof.
  intros Ok L. destruct a as [|r|data| | | | | | | | | |ms].
  1: { destruct (step_subscribe w (fresh_response w Ok)) as (_ & -> & -> & _).
       simpl. rewrite in_app_iff. simpl. intuition lia. }
  1: { destruct (step_close r w) as (-> & _). simpl.
       rewrite filter_In, negb_true_iff, !Nat.eqb_neq. intuition congruence. }
  all: match goal with
       | |- In _ (w_clients (snd (step ?a ?w0))) <-> _ =>
           pose proof (step_publishes a w0) as (-> & _)
       end; simpl; tauto.
Qed.

Lemma step_received (res : nat) (a : action) (w : world) :
  channels_ok w -> (res < w_responses w)%nat ->
  (In res (w_clients w) ->
   received res (snd (step a w)) = received res w ++ publications a w) /\
  (~ In res (w_clients w) ->
   received res (snd (step a w)) = received res w).
Proof.
  intros Ok L. pose proof Ok as (N & _). rewrite !received_frames.
  destruct a as [|r|data| | | | | | | | | |ms].
  1: { destruct (step_subscribe w (fresh_response w Ok)) as (_ & -> & _ & _ & ->).
       rewrite frames_of_app.
       rewrite (frames_of_foreign res [_; _]), app_nil_r;
         [split; intros _; simpl; now rewrite ?app_nil_r|].
       intros f [<-|[<-|[]]]; simpl; lia. }
  1: { destruct (step_close r w) as (_ & _ & ->). simpl.
       split; intros _; now rewrite ?app_nil_r. }
  all: match goal with
       | |- (_ -> frames_of _ (w_wire (snd (step ?a ?w0))) = _) /\ _ =>
           pose proof (step_publishes a w0) as (_ & _ & ->)
       end; rewrite frames_of_app; split; intros I;
       [now rewrite frames_of_fan_out_member
       |now rewrite frames_of_fan_out_absent, app_nil_r].
Qed.

(** *** Whole runs *)

Lemma received_run_unsubscribed (res : nat) (acts : list action) (w : world) :
  channels_ok w -> (res < w_responses w)%nat -> ~ In res (w_clients w) ->
  received res (run acts w) = received res w.
Proof.
  revert w; induction acts as [|a acts IH]; intros w Ok L N; simpl; [reflexivity|].
  rewrite IH.
  - now apply (step_received res a w Ok L).
  - now apply step_keeps_channels_ok.
  - now apply step_responses_grow.
  - intros I. apply (step_membership res a w Ok L) in I. tauto.
Qed.

Lemma received_run_subscribed (res : nat) (acts : list action) (w : world) :
  channels_ok w -> In res (w_clients w) ->
  received res (run acts w) = received res w ++ deliveries res acts w.
Proof.
  revert w; induction acts as [|a acts IH]; intros w Ok I; simpl;
    [now rewrite app_nil_r|].
  assert (L : (res < w_responses w)%nat) by now apply Ok.
  pose proof (step_keeps_channels_ok a w Ok) as Ok'.
  pose proof (step_responses_grow res a w Ok L) as L'.
  destruct (step_received res a w Ok L) as [R _]. specialize (R I).
  destruct (closes res a) eqn:C.
  - rewrite received_run_unsubscribed; try assumption.
    + rewrite R, app_nil_r. destruct a; try discriminate. simpl.
      now rewrite app_nil_r.
    + intros J. apply (step_membership res a w Ok L) in J.
      destruct J as [_ J]. congruence.
  - rewrite IH; try assumption.
    + now rewrite R, app_assoc.
    + apply (step_membership res a w Ok L). now split.
Qed.

(** C6. Start the server, let anything happen ([before]), open an event
    stream, let anything happen again ([later]).  The frames written to the
    new channel are: the 'connected' greeting, then the gateway status as it
    was at connection time, then exactly what is published by the actions
    of [later] until the connection closes.  Before the connection nothing
    was addressed to the channel, so nothing published by [before] reaches
    it. *)
Theorem subscriber_sees_greeting_status_then_later_events (d : Database.db)
    (boot_time : Z) (before later : list action) :
  let w1 := run before (boot d boot_time) in
  let res := w_responses w1 in
  let w2 := snd (get_api_events w1) in
  fst (get_api_events w1) = Normal res /\
  run (before ++ subscribe :: later) (boot d boot_time) = run later w2 /\
  received res w1 = [] /\
  received res (run later w2)
  = connected
    :: wa_status {| status := w_clientStatus w1; timestamp := toISOString (w_now w1) |}
    :: deliveries res later w2.
Proof.
  intros w1 res w2.
  assert (Ok1 : channels_ok w1) by apply run_keeps_channels_ok, boot_channels_ok.
  destruct (step_subscribe w1 (fresh_response w1 Ok1)) as (E & S & C & R & F).
  assert (Ok2 : channels_ok w2).
  { subst w2. rewrite <- S. now apply step_keeps_channels_ok. }
  assert (Q : received res w1 = []).
  { rewrite received_frames. apply frames_of_foreign. intros f I.
    apply Ok1 in I. subst res. lia. }
  split; [exact E|]. split; [|split; [exact Q|]].
  - assert (A : forall l l' w, run (l ++ l') w = run l' (run l w)).
    { induction l as [|a l IH]; intros l' w; simpl; [reflexivity|apply IH]. }
    rewrite A. change (run later (snd (step subscribe w1)) = run later w2).
    now rewrite S.
  - rewrite received_run_subscribed; try assumption.
    + rewrite received_frames. subst w2. rewrite F, frames_of_app.
      fold (frames_of res (w_wire w1)). rewrite <- received_frames, Q.
      unfold frames_of; simpl. subst res. now rewrite Nat.eqb_refl.
    + subst w2. rewrite C. apply in_or_app. right. now left.
Qed.

End Facts.

End StreamFacts.

(** * Properties of whatsapp.js *)

Module WhatsappFacts.
Import Database Whatsapp.

(** No binding named [customer] is visible from the catch clause. *)
Lemma catch_cannot_see_customer (error : js_error) (customerId : Z)
    (message : string) (userId : option Z) (w : world) :
  lookup "customer" (catch_scope error customerId message userId) w
  = (Throw (ReferenceError "customer is not defined"), w).
Proof. reflexivity. Qed.

Section Facts.
Context {js : JsRuntime} {transport : WhatsAppWeb}.

(** The catch clause throws before it logs or returns anything. *)
Lemma sendBillingMessage_catch_throws (customerId : Z) (message : string)
    (userId : option Z) (error : js_error) (w : world) :
  sendBillingMessage_catch customerId message userId error w
  = (Throw (ReferenceError "customer is not defined"), w).
Proof.
  unfold sendBillingMessage_catch.
  apply DatabaseFacts.bind_throw, catch_cannot_see_customer.
Qed.

(** The try block: a normal end has logged one success; a throw has
    logged nothing. *)
Lemma sendBillingMessage_try_outcomes (customerId : Z) (message : string)
    (userId : option Z) (w : world) :
  match sendBillingMessage_try customerId message userId w with
  | (Normal r, w') =>
      sr_success r = true /\
      exists m, message_logs (w_db w') = message_logs (w_db w) ++ [m] /\
                m_status m = log_success
  | (Throw e, w') => message_logs (w_db w') = message_logs (w_db w)
  end.
Proof.
  unfold sendBillingMessage_try, bind, get, throw, ret, sql, zoom,
    customerOps_getById, client_sendMessage, modify, messageOps_create,
    bind, get, throw, ret, modify.
  destruct (negb (w_client w) || _); [reflexivity|]. simpl.
  destruct (find _ (customers (w_db w))) as [c|]; [|reflexivity]. simpl.
  destruct (sendMessage_rejects _ _ _); [reflexivity|]. simpl.
  destruct (fk_ok _ _ && fk_ok _ _); simpl; [|reflexivity].
  split; [reflexivity|]. eexists. split; reflexivity.
Qed.

(** What the loop of a broadcast can get back from a send. *)
Lemma send_succeeds_or_throws (customerId : Z) (message : string)
    (userId : option Z) (w : world) :
  match sendBillingMessage customerId message userId w with
  | (Normal r, _) => sr_success r = true
  | (Throw e, _) => e = ReferenceError "customer is not defined"
  end.
Proof.
  unfold sendBillingMessage, try_catch.
  pose proof (sendBillingMessage_try_outcomes customerId message userId w) as T.
  destruct (sendBillingMessage_try customerId message userId w) as [[r|e] w'].
  - apply T.
  - now rewrite sendBillingMessage_catch_throws.
Qed.

(** C3 (what the code does). Every call of [sendBillingMessage] ends in one
    of two ways.  Either the message was sent: the result has success true
    and exactly one row, of status 'success', was appended to message_logs.
    Or something failed (gateway not ready, customer not found, transport
    error, rejected log row): then the call throws ReferenceError 'customer
    is not defined' from its catch clause, no row is appended to
    message_logs, and no failure result is ever returned. *)
Theorem sendBillingMessage_failure_thrown_and_unlogged (customerId : Z)
    (message : string) (userId : option Z) (w : world) :
  match sendBillingMessage customerId message userId w with
  | (Normal r, w') =>
      sr_success r = true /\
      exists m, message_logs (w_db w') = message_logs (w_db w) ++ [m] /\
                m_status m = log_success
  | (Throw e, w') =>
      e = ReferenceError "customer is not defined" /\
      message_logs (w_db w') = message_logs (w_db w)
  end.
Proof.
  unfold sendBillingMessage, try_catch.
  pose proof (sendBillingMessage_try_outcomes customerId message userId w) as T.
  destruct (sendBillingMessage_try customerId message userId w) as [[r|e] w'].
  - exact T.
  - rewrite sendBillingMessage_catch_throws. now split.
Qed.

(** The loop of [broadcastBillingMessage]: it either counts every debtor as
    a success, or is left by the exception of a send. *)
Lemma for_debtors_outcomes (template : string) (userId : option Z)
    (debtors : list debtor_row) (results : summary) (w : world) :
  match for_debtors template userId debtors results w with
  | (Normal s, _) =>
      total s = (total results + List.length debtors)%nat /\
      success s = (success results + List.length debtors)%nat /\
      failed s = failed results
  | (Throw e, _) => e = ReferenceError "customer is not defined"
  end.
Proof.
  revert results w. induction debtors as [|customer rest IH]; intros results w.
  - simpl. repeat split; lia.
  - simpl. unfold bind at 1. unfold get.
    set (msg := formatMessage _ _ _ _).
    pose proof (send_succeeds_or_throws (c_id (debtor customer)) msg userId w) as S.
    unfold bind at 1.
    destruct (sendBillingMessage (c_id (debtor customer)) msg userId w)
      as [[r|e] w1]; [|exact S].
    unfold bind at 1. unfold delay, modify.
    specialize (IH (count_result r customer (count_total results))
                   (set_now (w_now w1 + 1500) w1)).
    destruct (for_debtors template userId rest _ _) as [[s|e] w2]; [|exact IH].
    destruct IH as (I1 & I2 & I3). unfold count_result, count_total in *.
    rewrite S in *. simpl in *. repeat split; lia.
Qed.

(** Whatever the debtors and the transport, [broadcastBillingMessage]
    never returns a summary that counts a failed send: one failure and
    the whole broadcast is reported failed. *)
Lemma broadcast_never_counts_a_failure (template : string) (userId : option Z)
    (w : world) :
  match broadcastBillingMessage template userId w with
  | (Normal (broadcast_completed _ s), _) => failed s = 0%nat /\ success s = total s
  | (Normal (broadcast_failed error), _) =>
      error = "customer is not defined" \/ error = "integer overflow"
  | (Throw _, _) => False
  end.
Proof.
  unfold broadcastBillingMessage, try_catch.
  destruct (DatabaseFacts.getWithPending_reads_only (w_db w)) as [G1 G2].
  destruct (customerOps_getWithPending (w_db w)) as [[rows|e] d'] eqn:G;
    simpl in G1, G2; subst d'.
  - rewrite (DatabaseFacts.bind_normal _ _ _ _ _
               (ServerFacts.sql_runs (fun _ => customerOps_getWithPending) w _ _ G)).
    unfold bind at 1.
    pose proof (for_debtors_outcomes template userId rows
                  {| total := 0; success := 0; failed := 0; details := [] |}
                  (set_db (w_db w) w)) as F.
    destruct (for_debtors template userId rows _ _) as [[s|e] w1].
    + simpl in *. lia.
    + subst e. now left.
  - rewrite (DatabaseFacts.bind_throw _ _ _ _ _
               (ServerFacts.sql_runs (fun _ => customerOps_getWithPending) w _ _ G)).
    rewrite (G2 e eq_refl). now right.
Qed.

End Facts.

(** C2 (what the code does). Three debtors, a gateway that is ready, and a
    transport that rejects the second message: the broadcast does not return
    the summary total 3, success 2, failed 1.  It returns success false with
    the error 'customer is not defined'; the transport was called twice, so
    the third debtor was never tried, and message_logs holds the one row of
    the first send. *)
Theorem broadcast_stops_at_failed_send (js : JsRuntime) (template : string) :
  let run := broadcastBillingMessage (transport := Fixture.second_call_fails)
               template (Some 1) Fixture.ready_world in
  (exists rows,
     fst (customerOps_getWithPending Fixture.billing_db) = Normal rows /\
     map (fun r => c_nama (debtor r)) rows = ["Andi"; "Budi"; "Citra"]) /\
  fst run = Normal (broadcast_failed "customer is not defined") /\
  List.length (w_sendMessage (snd run)) = 2%nat /\
  map m_status (message_logs (w_db (snd run))) = [log_success].
Proof.
  intros run. split; [eexists; split; reflexivity|].
  subst run. repeat split; reflexivity.
Qed.

End WhatsappFacts.

(** * The theorems at work on the sample deployment *)

Module Examples.
Import Database Ledger Server Fixture.

Lemma billing_db_references : customers_referenced_exist billing_db.
Proof. intros t [<-|[<-|[<-|[]]]]; reflexivity. Defined.

Lemma billing_db_keys : NoDup (map t_id (transactions billing_db)).
Proof. repeat constructor; simpl; intuition discriminate. Defined.

Lemma billing_db_amounts : amounts_are_integers billing_db.
Proof. intros t [<-|[<-|[<-|[]]]]; reflexivity. Defined.

(** ** Runs of the code on the sample deployment *)

Example stats_of_billing_db :
  fst (transactionOps_getStats (sqlite := sqlite) billing_db)
  = Throw (SqliteError
             ("no such column: " +++ double_quoted "pemasukan"
              +++ " - should this be a string literal in single-quotes?")).
Proof. reflexivity. Qed.

Example debtors_of_billing_db :
  fst (customerOps_getWithPending billing_db)
  = Normal [{| debtor := andi; total_debt := 150000 |};
            {| debtor := budi; total_debt := 22000 |};
            {| debtor := citra; total_debt := 150000 |}].
Proof. reflexivity. Qed.

Example phone_numbers :
  map (fun c => Whatsapp.international (Whatsapp.strip_non_digits (c_whatsapp c)))
      [andi; budi; citra]
  = ["6281211110001"; "6281211110002"; "6281211110003"].
Proof. reflexivity. Qed.

(** With a transport that delivers everything the broadcast completes. *)
Example broadcast_all_delivered :
  exists msg details,
    fst (Whatsapp.broadcastBillingMessage (js := runtime) (transport := reliable)
           "Halo {nama}, tagihan {jumlah}" (Some 1) ready_world)
    = Normal (Whatsapp.broadcast_completed msg
                {| Whatsapp.total := 3; Whatsapp.success := 3;
                   Whatsapp.failed := 0; Whatsapp.details := details |}).
Proof. do 2 eexists. vm_compute. reflexivity. Qed.

(** The gateway is not ready right after start-up: the send throws, from
    its catch clause, and message_logs stays empty. *)
Example send_before_gateway_ready :
  Whatsapp.sendBillingMessage (transport := reliable) 1 "Tagihan" (Some 1)
    (boot billing_db 0)
  = (Throw (ReferenceError "customer is not defined"), boot billing_db 0).
Proof. reflexivity. Qed.

(** The messages a broadcast renders from a template. *)
Example rendered_message :
  Whatsapp.formatMessage (js := runtime) "Halo {nama}, tagihan {tipe} Rp {jumlah}"
    andi 150000 0
  = "Halo Andi, tagihan Internet/PPPoE Rp 150000".
Proof. reflexivity. Qed.

(** POST /api/transactions/1/mark-lunas by the administrator: bill 1
    exists and stays pending. *)
Lemma markAsLunas_writes_nothing_witness :
  fst (authenticateToken None (Bearer (Some admin_token)) ready_world)
  = Normal (next (payload admin_token)) /\
  transactionOps_markAsLunas (js := runtime) (sqlite := sqlite) 1 (Some 1) 1000000
    billing_db
  = (Throw (SqliteError (no_such_column (Sqlite := sqlite) "lunas")), billing_db) /\
  post_api_transactions_id_mark_lunas (js := runtime) (sqlite := sqlite) None
    (Bearer (Some admin_token)) 1 ready_world
  = (Normal {| http_status := 500; json := json_error (no_such_column (Sqlite := sqlite) "lunas") |},
     ready_world) /\
  map t_status (transactions (w_db ready_world)) = [pending; pending; pending].
Proof.
  split; [reflexivity|].
  destruct (ServerFacts.markAsLunas_writes_nothing (js := runtime) (sqlite := sqlite)
              None ready_world (Bearer (Some admin_token)) (payload admin_token) 1
              eq_refl) as (E & P).
  split; [exact E|]. split; [exact P|reflexivity].
Defined.

(** DELETE /api/customers/1: Andi has a bill. *)
Lemma delete_customer_with_transactions_rejected_witness :
  In (bill 1 andi 150000 pending) (transactions billing_db) /\
  delete_api_customers_id None (Bearer (Some admin_token)) 1 ready_world
  = (Normal {| http_status := 500;
               json := json_error "FOREIGN KEY constraint failed" |}, ready_world).
Proof.
  split; [now left|].
  apply (ServerFacts.delete_customer_with_transactions_rejected None ready_world
           (Bearer (Some admin_token)) (payload admin_token) 1 andi
           (bill 1 andi 150000 pending) eq_refl eq_refl (or_introl eq_refl) eq_refl).
Defined.

(** Andi among the debtors of the sample database. *)
Lemma getWithPending_sound_witness :
  let r := {| debtor := andi; total_debt := 150000 |} in
  c_aktif (debtor r) = 1 /\
  sum_amounts (owes andi) (transactions billing_db) = 150000 /\
  total_debt r = sum_amounts (owes andi) (transactions billing_db) /\
  0 < total_debt r.
Proof.
  intros r.
  destruct (DatabaseFacts.getWithPending_sound billing_db
              [r; {| debtor := budi; total_debt := 22000 |};
               {| debtor := citra; total_debt := 150000 |}] r
              billing_db_amounts eq_refl (or_introl eq_refl))
    as (_ & A & _ & _ & _ & P & T).
  split; [exact A|]. split; [reflexivity|]. split; [|exact P].
  apply T. vm_compute. discriminate.
Defined.

(** C7 (as stated) fails: Andi owes 2^53 rupiah and one rupiah more; the
    row that [getWithPending] returns for Andi does not carry the sum of the
    two, 9007199254740993, but the double nearest to it. *)
Lemma getWithPending_rounds_a_large_sum :
  amounts_are_integers large_bills_db /\
  fst (customerOps_getWithPending large_bills_db)
  = Normal [{| debtor := andi; total_debt := 9007199254740992 |}] /\
  sum_amounts (owes andi) (transactions large_bills_db) = 9007199254740993.
Proof.
  split; [intros t [<-|[<-|[]]]; reflexivity|]. split; reflexivity.
Qed.

(** Marking a bill that is lunas already, twice. *)
Lemma markAsLunas_twice_writes_no_receipt_witness :
  let e := SqliteError (no_such_column (Sqlite := sqlite) "lunas") in
  transactionOps_markAsLunas (js := runtime) (sqlite := sqlite) 1 (Some 1) 10 settled_db
  = (Throw e, settled_db) /\
  transactionOps_markAsLunas (js := runtime) (sqlite := sqlite) 1 (Some 1) 20 settled_db
  = (Throw e, settled_db) /\
  List.length (transactions settled_db) = 2%nat.
Proof.
  intros e.
  destruct (DatabaseFacts.markAsLunas_twice_writes_no_receipt (js := runtime)
              (sqlite := sqlite) settled_db 1 (Some 1) 10 20
              (bill 1 andi 150000 lunas) eq_refl)
    as (E1 & E2 & S1 & S2 & _).
  split; [|split; [|reflexivity]].
  - rewrite (surjective_pairing (transactionOps_markAsLunas _ _ _ _)).
    now rewrite E1, S1.
  - assert (D : snd (transactionOps_markAsLunas (js := runtime) (sqlite := sqlite)
                       1 (Some 1) 10 settled_db) = settled_db) by exact S1.
    rewrite D in E2, S2.
    rewrite (surjective_pairing (transactionOps_markAsLunas _ _ _ _)).
    now rewrite E2, S2.
Defined.

(** C4 (as stated) fails: on the sample deployment, a login with an unknown
    username and a login of 'admin' with a wrong password are not answered
    alike. *)
Lemma login_failure_causes_are_distinguishable :
  fst (post_api_auth_login (bcrypt := bcrypt) None "ghost" "admin123" ready_world)
  <> fst (post_api_auth_login (bcrypt := bcrypt) None "admin" "wrong" ready_world).
Proof. vm_compute. discriminate. Qed.

(** An unknown username against a wrong password of 'admin'. *)
Lemma login_failures_same_status_different_message_witness :
  post_api_auth_login (bcrypt := bcrypt) None "ghost" "admin123" ready_world
  = (Normal {| http_status := 401; json := json_error "Username tidak ditemukan" |},
     ready_world) /\
  post_api_auth_login (bcrypt := bcrypt) None "admin" "wrong" ready_world
  = (Normal {| http_status := 401; json := json_error "Password salah" |},
     ready_world).
Proof.
  destruct (ServerFacts.login_failures_same_status_different_message
              (bcrypt := bcrypt) None ready_world "ghost" "admin123" "admin" "wrong"
              admin_user eq_refl eq_refl ltac:(discriminate) eq_refl)
    as (E1 & E2 & _).
  split; [exact E1|exact E2].
Defined.

(** The staff account is deactivated one hour after its token was issued. *)
Lemma authenticateToken_accepts_deactivated_user_witness :
  let t := jwt_sign 2 "staff" staff "pppoe_billing_secret_key_2024" 1000000 in
  let w1 := snd (sql (userOps_update (bcrypt := bcrypt) 2 deactivate_staff) ready_world) in
  let w2 := set_now (1000000 + 3600000) w1 in
  map u_aktif (users (w_db w2)) = [1; 0] /\
  authenticateToken None (Bearer (Some t)) w2 = (Normal (next (payload t)), w2).
Proof.
  intros t w1 w2. split; [reflexivity|].
  apply (ServerFacts.authenticateToken_accepts_deactivated_user (bcrypt := bcrypt)
           None ready_world staff_user deactivate_staff 3600000 eq_refl).
  vm_compute. reflexivity.
Defined.

End Examples.

(** * More about the debtors and the totals *)

Module DebtorFacts.
Import Database Ledger Store Notions DatabaseFacts.

Lemma debtor_groups_member (d : db) (cs : list customer_row) (rows : list debtor_row)
    (c : customer_row) :
  debtor_groups d cs = Normal rows ->
  In c cs ->
  exists group, debtor_group d c = Normal group /\ forall r, In r group -> In r rows.
Proof.
  revert rows. induction cs as [|c' cs IH]; intros rows; simpl; [intros _ []|].
  destruct (debtor_group d c') as [group|e] eqn:G; [|discriminate].
  destruct (debtor_groups d cs) as [more|e] eqn:M; [|discriminate].
  intros E. injection E as <-. intros [->|I].
  - exists group. split; [assumption|]. intros r Ir. apply in_or_app. now left.
  - destruct (IH more eq_refl I) as (g & Eg & Ig). exists g.
    split; [assumption|]. intros r Ir. apply in_or_app. right. now apply Ig.
Qed.

(** [getWithPending] misses no debtor: whenever it returns, every customer
    of the table with [aktif = 1] whose pending amounts sum to more than
    zero is among the rows, with that sum as JavaScript reads it. *)
Theorem getWithPending_complete (d : db) (rows : list debtor_row) (c : customer_row) :
  fst (customerOps_getWithPending d) = Normal rows ->
  In c (customers d) ->
  c_aktif c = 1 ->
  0 < sum_amounts (owes c) (transactions d) ->
  In {| debtor := c;
        total_debt := to_double (sum_amounts (owes c) (transactions d)) |} rows.
Proof.
  intros E I A P. apply getWithPending_rows in E. destruct E as (groups & G & ->).
  apply In_order_by_nama.
  destruct (debtor_groups_member d _ _ c G I) as (group & Eg & Ig). apply Ig.
  unfold debtor_group in Eg. rewrite A in Eg. simpl in Eg.
  destruct (sql_sum (map t_jumlah (pending_of d c))) as [[total|]|e] eqn:S;
    [| |discriminate].
  - apply sql_sum_value in S. destruct S as [_ T]. rewrite pending_sum in T.
    subst total.
    destruct (sum_amounts (owes c) (transactions d) >? 0) eqn:B; [|lia].
    injection Eg as <-. now left.
  - exfalso. unfold sql_sum in S.
    destruct (map t_jumlah (pending_of d c)) as [|x xs] eqn:M.
    + pose proof (pending_sum d c) as Q. rewrite M in Q. simpl in Q. lia.
    + destruct (sum_from 0 (x :: xs)); discriminate.
Qed.

(** ** The order of the rows *)

Lemma insert_by_nama_head (a r : debtor_row) (rs : list debtor_row) :
  HdRel nama_le a rs -> nama_le a r -> HdRel nama_le a (insert_by_nama r rs).
Proof.
  intros H L. destruct rs as [|r' rs]; simpl; [now constructor|].
  destruct (String.leb _ _); constructor; [assumption|now inversion H].
Qed.

Lemma insert_by_nama_sorted (r : debtor_row) (rs : list debtor_row) :
  Sorted nama_le rs -> Sorted nama_le (insert_by_nama r rs).
Proof.
  induction rs as [|r' rs IH]; intros S; simpl.
  - repeat constructor.
  - destruct (String.leb (c_nama (debtor r)) (c_nama (debtor r'))) eqn:L.
    + constructor; [assumption|]. now constructor.
    + inversion S as [|? ? S' H']; subst. constructor; [now apply IH|].
      apply insert_by_nama_head; [assumption|]. unfold nama_le.
      destruct (String.leb_total (c_nama (debtor r)) (c_nama (debtor r')));
        [congruence|assumption].
Qed.

Lemma order_by_nama_sorted (rs : list debtor_row) : Sorted nama_le (order_by_nama rs).
Proof.
  induction rs as [|r rs IH]; simpl; [constructor|].
  now apply insert_by_nama_sorted.
Qed.

Lemma insert_by_nama_perm (r : debtor_row) (rs : list debtor_row) :
  Permutation (insert_by_nama r rs) (r :: rs).
Proof.
  induction rs as [|r' rs IH]; simpl; [reflexivity|].
  destruct (String.leb _ _); [reflexivity|].
  rewrite IH. apply perm_swap.
Qed.

Lemma order_by_nama_perm (rs : list debtor_row) : Permutation (order_by_nama rs) rs.
Proof.
  induction rs as [|r rs IH]; simpl; [reflexivity|].
  now rewrite insert_by_nama_perm, IH.
Qed.

Lemma debtor_groups_keys (d : db) (cs : list customer_row) (rows : list debtor_row) :
  debtor_groups d cs = Normal rows ->
  NoDup (map c_id cs) ->
  NoDup (map (fun r => c_id (debtor r)) rows) /\
  forall r, In r rows -> In (c_id (debtor r)) (map c_id cs).
Proof.
  revert rows. induction cs as [|c cs IH]; intros rows; simpl.
  - intros E _. injection E as <-. split; [constructor|intros r []].
  - destruct (debtor_group d c) as [group|e] eqn:G; [|discriminate].
    destruct (debtor_groups d cs) as [more|e] eqn:M; [|discriminate].
    intros E N. injection E as <-.
    inversion N as [|? ? Nc Ncs]; subst. destruct (IH more eq_refl Ncs) as [IH1 IH2].
    assert (K : group = [] \/
                exists total, group = [{| debtor := c; total_debt := total |}]).
    { unfold debtor_group in G. destruct (c_aktif c =? 1);
        [|injection G as <-; now left].
      destruct (sql_sum _) as [[total|]|e]; [| |discriminate];
        injection G as <-; [|now left].
      destruct (total >? 0); [right; eauto|now left]. }
    destruct K as [->|(total & ->)]; simpl.
    + split; [assumption|]. intros r I. right. now apply IH2.
    + split.
      * constructor; [|assumption]. intros I. apply in_map_iff in I.
        destruct I as (r & E & I). apply IH2 in I. simpl in E. now rewrite E in I.
      * intros r [<-|I]; [now left|right; now apply IH2].
Qed.

(** The rows of [getWithPending] come in ascending order of [nama], and
    no customer comes twice when the ids of the table are distinct. *)
Theorem getWithPending_ordered (d : db) (rows : list debtor_row) :
  fst (customerOps_getWithPending d) = Normal rows ->
  NoDup (map c_id (customers d)) ->
  Sorted nama_le rows /\ NoDup (map (fun r => c_id (debtor r)) rows).
Proof.
  intros E N. apply getWithPending_rows in E. destruct E as (groups & G & ->).
  split; [apply order_by_nama_sorted|].
  eapply Permutation_NoDup.
  - apply Permutation_map. symmetry. apply order_by_nama_perm.
  - now apply (debtor_groups_keys d (customers d)).
Qed.

End DebtorFacts.

(** * ORDER BY, in general *)

Module OrderFacts.
Import Store.

Lemma insert_sorted_perm {A : Type} (le : A -> A -> bool) (x : A) (l : list A) :
  Permutation (insert_sorted le x l) (x :: l).
Proof.
  induction l as [|y l IH]; simpl; [reflexivity|].
  destruct (le x y); [reflexivity|]. rewrite IH. apply perm_swap.
Qed.

Lemma order_by_perm {A : Type} (le : A -> A -> bool) (l : list A) :
  Permutation (order_by le l) l.
Proof.
  induction l as [|x l IH]; simpl; [reflexivity|].
  now rewrite insert_sorted_perm, IH.
Qed.

Lemma insert_sorted_head {A : Type} (le : A -> A -> bool) (a x : A) (l : list A) :
  HdRel (fun u v => le u v = true) a l -> le a x = true ->
  HdRel (fun u v => le u v = true) a (insert_sorted le x l).
Proof.
  intros H L. destruct l as [|y l]; simpl; [now constructor|].
  destruct (le x y); constructor; [assumption|now inversion H].
Qed.

Lemma order_by_sorted {A : Type} (le : A -> A -> bool) (l : list A) :
  (forall u v, le u v = true \/ le v u = true) ->
  Sorted (fun u v => le u v = true) (order_by le l).
Proof.
  intros total. induction l as [|x l IH]; simpl; [constructor|].
  induction IH as [|y l' S IH' H]; simpl; [repeat constructor|].
  destruct (le x y) eqn:L.
  - constructor; [now constructor|now constructor].
  - constructor; [assumption|]. apply insert_sorted_head; [assumption|].
    destruct (total x y); [congruence|assumption].
Qed.

Lemma In_order_by {A : Type} (le : A -> A -> bool) (l : list A) (x : A) :
  In x (order_by le l) <-> In x l.
Proof.
  split; apply Permutation_in; [|symmetry]; apply order_by_perm.
Qed.

End OrderFacts.

(** * More about transactions *)

Module TransactionFacts.
Import Database Ledger Store DatabaseFacts.

Lemma sum_amounts_app (p : transaction_row -> bool) (l l' : list transaction_row) :
  sum_amounts p (l ++ l') = sum_amounts p l + sum_amounts p l'.
Proof. induction l as [|t l IH]; simpl; [reflexivity|]. rewrite IH. lia. Qed.

(** ** create and delete *)

Lemma getById_found (d : db) (id : Z) (t : transaction_row) :
  transaction_with_id d id = Some t ->
  transactionOps_getById id d = (Normal (Some (left_join_customer d t)), d).
Proof. intros F. rewrite getById_transaction. now rewrite F. Qed.

Lemma create_runs `{JsRuntime} (d : db) (data : transaction_data) (userId : option Z)
    (now : Z) (nama tp k : string) (j : jenis) (s : status) :
  checked_transaction data = Normal (nama, tp, k, j, s) ->
  customer_exists d (data_customer_id data) = true ->
  fk_ok (user_exists d) userId = true ->
  let id := next_rowid (seq_transactions d) (map t_id (transactions d)) in
  exists d',
    transactionOps_create data userId now d = (Normal (id, data), d') /\
    transactions d' =
      transactions d ++
      [{| t_id := id; t_customer_id := data_customer_id data;
          t_customer_nama := nama; t_customer_tipe := tp; t_kategori := k;
          t_jumlah := data_jumlah data; t_jenis := j; t_status := s;
          t_deskripsi := given (data_deskripsi data); t_created_by := userId;
          t_created_at := now; t_updated_at := now |}] /\
    seq_transactions d' = id /\
    users d' = users d /\ customers d' = customers d.
Proof.
  intros K C U id. unfold transactionOps_create. rewrite K.
  rewrite (bind_normal _ _ _ _ _
             (sql_insert_transaction_runs d _ _ _ _ _ _ _ _ _ now C U)).
  set (d1 := set_transactions _ _ d).
  destruct (when_logActivity_runs d1 (truthy_id userId) userId "CREATE_TRANSACTION"
              (template_text (data_jenis data) +++ ": "
               +++ formatIDR (data_jumlah data) +++ " untuk "
               +++ template_text (data_customer_nama data)) "" now U)
    as (d' & L & Eu & Ec & Et & _ & Es).
  rewrite (bind_normal _ _ _ _ _ L).
  exists d'. split; [reflexivity|]. now rewrite Et, Es, Eu, Ec.
Qed.

Lemma delete_runs `{JsRuntime} (d : db) (id : Z) (userId : option Z) (now : Z)
    (t : transaction_row) :
  transaction_with_id d id = Some t ->
  fk_ok (user_exists d) userId = true ->
  exists d',
    transactionOps_delete id userId now d = (Normal true, d') /\
    transactions d' = filter (fun x => negb (t_id x =? id)) (transactions d) /\
    seq_transactions d' = seq_transactions d /\
    users d' = users d /\ customers d' = customers d.
Proof.
  intros F U. unfold transactionOps_delete.
  rewrite (bind_normal _ _ _ _ _ (getById_found d id t F)).
  unfold bind at 1. unfold modify at 1.
  set (d1 := set_transactions _ _ d).
  destruct (when_logActivity_runs d1 (truthy_id userId) userId "DELETE_TRANSACTION"
              ("Hapus transaksi: " +++ formatIDR (jumlah_of (left_join_customer d t)))
              "" now U)
    as (d' & L & Eu & Ec & Et & _ & Es).
  rewrite (bind_normal _ _ _ _ _ L).
  exists d'. split; [reflexivity|]. now rewrite Et, Es, Eu, Ec.
Qed.


(** A transaction created without a status is pending: it is appended
    under an id larger than every id of the table, and the pending total
    grows by its amount. *)
Theorem create_defaults_to_pending `{JsRuntime} (d : db) (data : transaction_data)
    (userId : option Z) (now : Z) (v : string * string * string * jenis * status) :
  checked_transaction data = Normal v ->
  given (data_status data) = None ->
  customer_exists d (data_customer_id data) = true ->
  fk_ok (user_exists d) userId = true ->
  exists id d' r,
    transactionOps_create data userId now d = (Normal (id, data), d') /\
    transactions d' = transactions d ++ [r] /\
    t_id r = id /\ t_status r = pending /\
    t_jumlah r = data_jumlah data /\ t_customer_id r = data_customer_id data /\
    (forall x, In x (transactions d) -> t_id x < id) /\
    sum_amounts is_pending (transactions d')
    = sum_amounts is_pending (transactions d) + data_jumlah data.
Proof.
  intros K G C U. destruct v as [[[[nama tp] k] j] s].
  assert (S : s = pending).
  { unfold checked_transaction in K. rewrite G in K.
    destruct (data_customer_nama data); [|discriminate].
    destruct (data_customer_tipe data); [|discriminate].
    destruct (data_kategori data); [|discriminate].
    destruct (data_jenis data) as [x|]; [|discriminate].
    destruct (parse_jenis x); [|discriminate].
    simpl in K. congruence. }
  subst s. destruct (create_runs d data userId now _ _ _ _ _ K C U)
    as (d' & E & T & _).
  do 3 eexists. split; [exact E|]. split; [exact T|]. simpl.
  repeat split.
  - intros x I. apply next_rowid_fresh. now apply in_map.
  - rewrite T, sum_amounts_app. simpl. unfold is_pending; simpl. lia.
Qed.

Lemma find_app_missing {A : Type} (f : A -> bool) (l l' : list A) :
  (forall x, In x l -> f x = false) -> find f (l ++ l') = find f l'.
Proof.
  induction l as [|a l IH]; intros N; simpl; [reflexivity|].
  rewrite (N a) by now left. apply IH. intros x I. apply N. now right.
Qed.

Lemma filter_all {A : Type} (f : A -> bool) (l : list A) :
  (forall x, In x l -> f x = true) -> filter f l = l.
Proof.
  induction l as [|a l IH]; intros N; simpl; [reflexivity|].
  rewrite (N a) by now left. f_equal. apply IH. intros x I. apply N. now right.
Qed.

(** Ids of transactions are never used again: create a transaction, delete
    it (the table is then back to what it was), create another one: the
    second id is larger than the first. *)
Theorem deleted_id_never_reused `{JsRuntime} (d : db) (data data' : transaction_data)
    (userId : option Z) (now1 now2 now3 : Z)
    (v v' : string * string * string * jenis * status) :
  checked_transaction data = Normal v ->
  checked_transaction data' = Normal v' ->
  customer_exists d (data_customer_id data) = true ->
  customer_exists d (data_customer_id data') = true ->
  fk_ok (user_exists d) userId = true ->
  exists id1 d1 d2 id2 d3,
    transactionOps_create data userId now1 d = (Normal (id1, data), d1) /\
    transactionOps_delete id1 userId now2 d1 = (Normal true, d2) /\
    transactions d2 = transactions d /\
    transactionOps_create data' userId now3 d2 = (Normal (id2, data'), d3) /\
    id1 < id2.
Proof.
  intros K K' C C' U.
  destruct v as [[[[nama tp] k] j] s]. destruct v' as [[[[nama' tp'] k'] j'] s'].
  destruct (create_runs d data userId now1 _ _ _ _ _ K C U)
    as (d1 & E1 & T1 & S1 & U1 & C1).
  set (id1 := next_rowid (seq_transactions d) (map t_id (transactions d))) in *.
  assert (Fresh : forall x, In x (transactions d) -> (t_id x =? id1) = false).
  { intros x I. apply Z.eqb_neq.
    pose proof (next_rowid_fresh (seq_transactions d) _ _ (in_map t_id _ _ I)).
    fold id1 in H0. lia. }
  assert (F1 : exists r, transaction_with_id d1 id1 = Some r).
  { unfold transaction_with_id. rewrite T1, (find_app_missing _ _ _ Fresh).
    simpl. rewrite Z.eqb_refl. eauto. }
  destruct F1 as (r & F1).
  assert (U1' : fk_ok (user_exists d1) userId = true) by now rewrite (user_fk_same d d1).
  destruct (delete_runs d1 id1 userId now2 r F1 U1')
    as (d2 & E2 & T2 & S2 & U2 & C2).
  assert (T2' : transactions d2 = transactions d).
  { rewrite T2, T1, filter_app. simpl. rewrite Z.eqb_refl. simpl.
    rewrite app_nil_r. apply filter_all. intros x I. now rewrite (Fresh x I). }
  assert (C2' : customer_exists d2 (data_customer_id data') = true).
  { rewrite (customer_exists_same d d2); [assumption|congruence]. }
  assert (U2' : fk_ok (user_exists d2) userId = true).
  { rewrite (user_fk_same d d2); [assumption|congruence]. }
  destruct (create_runs d2 data' userId now3 _ _ _ _ _ K' C2' U2')
    as (d3 & E3 & _).
  exists id1, d1, d2. do 2 eexists.
  split; [exact E1|]. split; [exact E2|]. split; [exact T2'|].
  split; [exact E3|].
  rewrite S2, S1. apply next_rowid_above_seq.
Qed.

(** Deleting a transaction id that is not in the table returns false and
    writes nothing. *)
Lemma delete_missing `{JsRuntime} (d : db) (id : Z) (userId : option Z) (now : Z) :
  transaction_with_id d id = None ->
  transactionOps_delete id userId now d = (Normal false, d).
Proof.
  intros F. unfold transactionOps_delete.
  rewrite (bind_normal _ _ _ _ _ (getById_transaction d id)), F. reflexivity.
Qed.

End TransactionFacts.

(** * More about logging in and tokens *)

Module AuthFacts.
Import Database Ledger Server DatabaseFacts ServerFacts.

Section Auth.
Context {js : JsRuntime} {bcrypt : Bcrypt}.
Context (env_JWT_SECRET : option string).

Lemma getById_user_runs (w : world) (uid : Z) :
  sql (fun _ => userOps_getById uid) w =
  (Normal (option_map public_columns (find (fun u => u_id u =? uid) (users (w_db w)))), w).
Proof.
  rewrite (sql_runs _ w _ (w_db w) eq_refl). now rewrite set_db_same.
Qed.

Lemma found_user_exists (d : db) (username : string) (user : user_row) :
  find (fun u => String.eqb (u_username u) username) (users d) = Some user ->
  In user (users d) /\ user_exists d (u_id user) = true.
Proof.
  intros F. apply find_some in F. destruct F as [I _]. split; [assumption|].
  unfold user_exists. apply existsb_exists. exists user.
  split; [assumption|apply Z.eqb_refl].
Qed.

Lemma find_by_unique_id (us : list user_row) (user : user_row) :
  NoDup (map u_id us) -> In user us ->
  find (fun u => u_id u =? u_id user) us = Some user.
Proof.
  induction us as [|a us IH]; intros N I; [destruct I|]. simpl.
  inversion N as [|? ? Na Nus]; subst.
  destruct I as [->|I]; [now rewrite Z.eqb_refl|].
  destruct (u_id a =? u_id user) eqn:E; [|now apply IH].
  exfalso. apply Na. apply Z.eqb_eq in E. rewrite E. now apply in_map.
Qed.

Lemma jwt_verify_valid (t : token) (w : world) :
  signed_with t = JWT_SECRET env_JWT_SECRET ->
  w_now w / 1000 < exp (payload t) ->
  jwt_verify (S := world) (Some t) (JWT_SECRET env_JWT_SECRET) (w_now w) w
  = (Normal (payload t), w).
Proof.
  intros K T. unfold jwt_verify, throw, ret. rewrite K, String.eqb_refl. simpl.
  destruct (exp (payload t) <=? w_now w / 1000) eqn:E; [lia|reflexivity].
Qed.

Lemma jwt_verify_invalid (t : token) (w : world) :
  signed_with t <> JWT_SECRET env_JWT_SECRET \/ exp (payload t) <= w_now w / 1000 ->
  exists e,
    jwt_verify (S := world) (Some t) (JWT_SECRET env_JWT_SECRET) (w_now w) w
    = (Throw e, w).
Proof.
  intros B. unfold jwt_verify, throw, ret.
  destruct (String.eqb (signed_with t) (JWT_SECRET env_JWT_SECRET)) eqn:K; simpl;
    [|eauto].
  destruct (exp (payload t) <=? w_now w / 1000) eqn:E; [eauto|].
  apply String.eqb_eq in K. destruct B; [contradiction|lia].
Qed.

(** What a successful login writes and answers. *)
Lemma login_accepts (w : world) (username password : string) (user : user_row) :
  find (fun u => String.eqb (u_username u) username) (users (w_db w)) = Some user ->
  u_aktif user <> 0 ->
  compareSync password (u_password user) = true ->
  let a := {| a_id := next_rowid (seq_activity_logs (w_db w))
                        (map a_id (activity_logs (w_db w)));
              a_user_id := Some (u_id user); a_action := "LOGIN";
              a_details := "User login ke sistem"; a_ip_address := "";
              a_created_at := w_now w |} in
  post_api_auth_login env_JWT_SECRET username password w
  = (Normal {| http_status := 200;
               json := json_login
                         (jwt_sign (u_id user) (u_username user) (u_role user)
                            (JWT_SECRET env_JWT_SECRET) (w_now w))
                         (user_payload user) |},
     set_db (set_activity_logs (activity_logs (w_db w) ++ [a]) (a_id a) (w_db w)) w).
Proof.
  intros F A P a. destruct (found_user_exists _ _ _ F) as [I X].
  set (d' := set_activity_logs (activity_logs (w_db w) ++ [a]) (a_id a) (w_db w)).
  assert (L : sql (userOps_logActivity (Some (u_id user)) "LOGIN"
                     "User login ke sistem" "") w = (Normal tt, set_db d' w)).
  { apply sql_runs. unfold userOps_logActivity, bind, get, modify. simpl.
    now rewrite X. }
  unfold post_api_auth_login.
  rewrite (bind_normal _ _ _ _ _ (getByUsername_runs w username)), F.
  destruct (u_aktif user =? 0) eqn:Z0; [lia|].
  unfold userOps_verifyPassword. rewrite P.
  change (negb true) with false. cbv iota.
  unfold bind at 1. unfold get. cbv beta iota zeta.
  rewrite (bind_normal _ _ _ _ _ L). reflexivity.
Qed.

(** A login with the right password of an active account answers 200 with
    a token for that account, valid for 24 hours, and appends one LOGIN
    row to the activity log.  The token, presented at once, passes
    [authenticateToken] and GET /api/auth/verify answers with the account. *)
Theorem login_issues_a_working_token (w : world) (username password : string)
    (user : user_row) :
  NoDup (map u_id (users (w_db w))) ->
  find (fun u => String.eqb (u_username u) username) (users (w_db w)) = Some user ->
  u_aktif user <> 0 ->
  compareSync password (u_password user) = true ->
  exists t w' a,
    post_api_auth_login env_JWT_SECRET username password w
    = (Normal {| http_status := 200; json := json_login t (user_payload user) |}, w') /\
    payload t = {| id := u_id user; username := u_username user; role := u_role user;
                   iat := w_now w / 1000; exp := w_now w / 1000 + 86400 |} /\
    activity_logs (w_db w') = activity_logs (w_db w) ++ [a] /\
    a_user_id a = Some (u_id user) /\ a_action a = "LOGIN" /\
    authenticateToken env_JWT_SECRET (Bearer (Some t)) w' = (Normal (next (payload t)), w') /\
    get_api_auth_verify env_JWT_SECRET (Bearer (Some t)) w'
    = (Normal {| http_status := 200; json := json_user (user_payload user) |}, w').
Proof.
  intros N F A P. destruct (found_user_exists _ _ _ F) as [I X].
  set (t := jwt_sign (u_id user) (u_username user) (u_role user)
              (JWT_SECRET env_JWT_SECRET) (w_now w)).
  set (a := {| a_id := next_rowid (seq_activity_logs (w_db w))
                         (map a_id (activity_logs (w_db w)));
               a_user_id := Some (u_id user); a_action := "LOGIN";
               a_details := "User login ke sistem"; a_ip_address := "";
               a_created_at := w_now w |}).
  set (d' := set_activity_logs (activity_logs (w_db w) ++ [a]) (a_id a) (w_db w)).
  exists t, (set_db d' w), a.
  assert (V : w_now (set_db d' w) / 1000 < exp (payload t)) by (simpl; lia).
  split; [|split; [reflexivity|split; [reflexivity|split; [reflexivity|
           split; [reflexivity|split]]]]].
  - now apply login_accepts.
  - now apply authenticateToken_valid.
  - unfold get_api_auth_verify, try_catch. unfold bind at 1. unfold get.
    rewrite (bind_normal _ _ _ _ _ (jwt_verify_valid t _ eq_refl V)).
    rewrite (bind_normal _ _ _ _ _ (getById_user_runs _ _)).
    replace (users (w_db (set_db d' w))) with (users (w_db w)) by reflexivity.
    change (id (payload t)) with (u_id user).
    rewrite (find_by_unique_id _ _ N I). simpl.
    destruct (u_aktif user =? 0) eqn:Z0; [lia|]. reflexivity.
Qed.

(** A deactivated account cannot log in, whatever the password, right or
    wrong: 401 'Akun tidak aktif', and nothing is written. *)
Theorem login_refuses_a_deactivated_account (w : world) (username password : string)
    (user : user_row) :
  find (fun u => String.eqb (u_username u) username) (users (w_db w)) = Some user ->
  u_aktif user = 0 ->
  post_api_auth_login env_JWT_SECRET username password w
  = (Normal {| http_status := 401; json := json_error "Akun tidak aktif" |}, w).
Proof.
  intros F A. unfold post_api_auth_login.
  rewrite (bind_normal _ _ _ _ _ (getByUsername_runs w username)), F, A.
  reflexivity.
Qed.

(** [authenticateToken] lets a token through exactly when it was signed
    with the server's secret and its 24 hours have not elapsed.  Any other
    token is answered 401 'Token tidak valid' by the middleware and 401
    'Token expired' by GET /api/auth/verify (also when only the signature
    is wrong), and nothing is written. *)
Theorem token_accepted_exactly_when_valid (w : world) (t : token) :
  (fst (authenticateToken env_JWT_SECRET (Bearer (Some t)) w) = Normal (next (payload t))
   <-> signed_with t = JWT_SECRET env_JWT_SECRET /\ w_now w / 1000 < exp (payload t))
  /\
  (signed_with t <> JWT_SECRET env_JWT_SECRET \/ exp (payload t) <= w_now w / 1000 ->
   authenticateToken env_JWT_SECRET (Bearer (Some t)) w
   = (Normal (answered {| http_status := 401; json := json_error "Token tidak valid" |}), w)
   /\
   get_api_auth_verify env_JWT_SECRET (Bearer (Some t)) w
   = (Normal {| http_status := 401; json := json_error "Token expired" |}, w)).
Proof.
  assert (R : signed_with t <> JWT_SECRET env_JWT_SECRET \/ exp (payload t) <= w_now w / 1000 ->
              authenticateToken env_JWT_SECRET (Bearer (Some t)) w
              = (Normal (answered {| http_status := 401;
                                     json := json_error "Token tidak valid" |}), w)
              /\
              get_api_auth_verify env_JWT_SECRET (Bearer (Some t)) w
              = (Normal {| http_status := 401; json := json_error "Token expired" |}, w)).
  { intros B. destruct (jwt_verify_invalid t w B) as (e & V).
    unfold authenticateToken, get_api_auth_verify, try_catch.
    unfold bind at 1 3. unfold get.
    rewrite !(bind_throw _ _ _ _ _ V). now split. }
  split; [split|exact R].
  - intros A.
    destruct (String.eqb_spec (signed_with t) (JWT_SECRET env_JWT_SECRET)) as [K|K].
    + split; [assumption|].
      destruct (Z_lt_le_dec (w_now w / 1000) (exp (payload t))) as [T|T]; [assumption|].
      destruct (R (or_intror T)) as [E _]. rewrite E in A. discriminate.
    + destruct (R (or_introl K)) as [E _]. rewrite E in A. discriminate.
  - intros [K T]. now rewrite authenticateToken_valid.
Qed.

End Auth.

End AuthFacts.

(** * The remaining routes *)

Module SiteFacts.
Import Database Ledger Store FullStore Server Site Notions DatabaseFacts ServerFacts
  AuthFacts.

Lemma set_process_same (s : site) : set_process (process s) s = s.
Proof. now destruct s. Qed.

Lemma put_store_same (s : site) : put_store (store_of s) s = s.
Proof. destruct s as [w ? ? ?]. unfold put_store, store_of; simpl. now rewrite set_db_same. Qed.

Lemma in_process_runs {A : Type} (m : Eff world A) (s : site) (r : completion A)
    (w' : world) :
  m (process s) = (r, w') -> in_process m s = (r, set_process w' s).
Proof. unfold in_process, zoom. now intros ->. Qed.

Lemma in_process_reads {A : Type} (m : Eff world A) (s : site) (r : completion A) :
  m (process s) = (r, process s) -> in_process m s = (r, s).
Proof. intros E. rewrite (in_process_runs _ _ _ _ E). now rewrite set_process_same. Qed.

Lemma in_process_sql {A : Type} (op : Z -> Eff db A) (s : site) (r : completion A)
    (d' : db) :
  op (w_now (process s)) (w_db (process s)) = (r, d') ->
  in_process (sql op) s = (r, set_process (set_db d' (process s)) s).
Proof. intros E. apply in_process_runs. now apply sql_runs. Qed.

Lemma in_process_sql_reads {A : Type} (op : Z -> Eff db A) (s : site) (r : completion A) :
  op (w_now (process s)) (w_db (process s)) = (r, w_db (process s)) ->
  in_process (sql op) s = (r, s).
Proof.
  intros E. rewrite (in_process_sql _ _ _ _ E).
  now rewrite set_db_same, set_process_same.
Qed.

Lemma sql_store_runs {A : Type} (op : Z -> Eff store A) (s : site) (r : completion A)
    (st' : store) :
  op (w_now (process s)) (store_of s) = (r, st') ->
  sql_store op s = (r, put_store st' s).
Proof. unfold sql_store, zoom. now intros ->. Qed.

Section Routes.
Context {js : JsRuntime} {bcrypt : Bcrypt} {sqlite : Sqlite}.
Context (env_JWT_SECRET : option string).

Lemma guarded_next (authHeader : authorization) (s : site) (user : jwt_payload)
    (handler : jwt_payload -> Eff site reply) :
  fst (authenticateToken env_JWT_SECRET authHeader (process s)) = Normal (next user) ->
  guarded env_JWT_SECRET authHeader handler s = handler user s.
Proof.
  intros A. apply authenticateToken_next in A. unfold guarded.
  now rewrite (bind_normal _ _ _ _ _ (in_process_reads _ _ _ A)).
Qed.

Lemma guarded_answered (authHeader : authorization) (s : site) (r : response)
    (handler : jwt_payload -> Eff site reply) :
  fst (authenticateToken env_JWT_SECRET authHeader (process s)) = Normal (answered r) ->
  guarded env_JWT_SECRET authHeader handler s = (Normal (forward r), s).
Proof.
  intros A.
  assert (A' : authenticateToken env_JWT_SECRET authHeader (process s)
               = (Normal (answered r), process s)).
  { rewrite (surjective_pairing (authenticateToken _ _ _)).
    now rewrite A, authenticateToken_reads_only. }
  unfold guarded. now rewrite (bind_normal _ _ _ _ _ (in_process_reads _ _ _ A')).
Qed.

Lemma admin_only_next (authHeader : authorization) (s : site) (user : jwt_payload)
    (handler : jwt_payload -> Eff site reply) :
  fst (authenticateToken env_JWT_SECRET authHeader (process s)) = Normal (next user) ->
  role user = admin ->
  admin_only env_JWT_SECRET authHeader handler s = handler user s.
Proof.
  intros A R. unfold admin_only. rewrite (guarded_next _ _ _ _ A).
  unfold requireAdmin. now rewrite R.
Qed.

(** Every route behind [requireAdmin] is closed to a staff token: the
    answer is 403 and the handler of the route is not run, so nothing is
    read or written.  This is so for the routes on users and for the
    restore route, and for any handler put behind the same middleware. *)
Theorem admin_routes_closed_to_staff (s : site) (authHeader : authorization)
    (user : jwt_payload) (handler : jwt_payload -> Eff site reply)
    (handler' : jwt_payload -> Eff world response) :
  fst (authenticateToken env_JWT_SECRET authHeader (process s)) = Normal (next user) ->
  role user = staff ->
  admin_only env_JWT_SECRET authHeader handler s
  = (Normal {| code := 403;
               content := plain (json_error
                 "Akses ditolak. Hanya admin yang dapat mengakses.") |}, s)
  /\
  admin_route env_JWT_SECRET authHeader handler' (process s)
  = (Normal {| http_status := 403;
               json := json_error
                 "Akses ditolak. Hanya admin yang dapat mengakses." |}, process s).
Proof.
  intros A R. split.
  - unfold admin_only. rewrite (guarded_next _ _ _ _ A).
    unfold requireAdmin. now rewrite R.
  - apply authenticateToken_next in A.
    unfold admin_route, authenticated_route.
    rewrite (bind_normal _ _ _ _ _ A). unfold requireAdmin. now rewrite R.
Qed.

(** ** Deleting users *)

(** An administrator cannot delete their own account: DELETE /api/users/:id
    with their own id answers 400 and writes nothing. *)
Theorem delete_user_refuses_self (s : site) (authHeader : authorization)
    (user : jwt_payload) :
  fst (authenticateToken env_JWT_SECRET authHeader (process s)) = Normal (next user) ->
  role user = admin ->
  delete_api_users_id env_JWT_SECRET authHeader (id user) s
  = (Normal {| code := 400;
               content := plain (json_error "Tidak dapat menghapus diri sendiri") |}, s).
Proof.
  intros A R. unfold delete_api_users_id.
  rewrite (admin_only_next _ _ _ _ A R). unfold try_catch.
  now rewrite Z.eqb_refl.
Qed.

Lemma getById_user_in_site (s : site) (uid : Z) :
  in_process (sql (fun _ => userOps_getById uid)) s =
  (Normal (option_map public_columns
             (find (fun u => u_id u =? uid) (users (w_db (process s))))), s).
Proof. now apply in_process_sql_reads. Qed.

Lemma find_user_exists (d : db) (uid : Z) (u : user_row) :
  find (fun u => u_id u =? uid) (users d) = Some u -> user_exists d uid = true.
Proof.
  intros F. apply find_some in F. unfold user_exists. apply existsb_exists. eauto.
Qed.

(** An account that appears in the activity log, as every account that has
    logged in does, cannot be deleted: SQLite refuses the DELETE because of
    the foreign key of activity_logs, the route answers 500 and nothing is
    written. *)
Theorem delete_user_blocked_by_activity_log (s : site) (authHeader : authorization)
    (user : jwt_payload) (params_id : Z) (target : user_row) (a : activity_log_row) :
  fst (authenticateToken env_JWT_SECRET authHeader (process s)) = Normal (next user) ->
  role user = admin ->
  params_id <> id user ->
  find (fun u => u_id u =? params_id) (users (w_db (process s))) = Some target ->
  In a (activity_logs (w_db (process s))) ->
  a_user_id a = Some params_id ->
  delete_api_users_id env_JWT_SECRET authHeader params_id s
  = (Normal {| code := 500;
               content := plain (json_error "FOREIGN KEY constraint failed") |}, s).
Proof.
  intros A R N F I E. unfold delete_api_users_id.
  rewrite (admin_only_next _ _ _ _ A R). unfold try_catch.
  destruct (params_id =? id user) eqn:Q; [lia|].
  rewrite (bind_normal _ _ _ _ _ (getById_user_in_site s params_id)), F.
  unfold option_map. cbv iota beta.
  assert (D : sql_delete_user params_id (w_db (process s))
              = (Throw fk_failed, w_db (process s))).
  { unfold sql_delete_user, bind, get, throw.
    rewrite (find_user_exists _ _ _ F).
    assert (Ref : referenced_user (w_db (process s)) params_id = true).
    { unfold referenced_user. rewrite !orb_true_iff. right.
      apply existsb_exists. exists a. split; [assumption|].
      rewrite E. apply Z.eqb_refl. }
    now rewrite Ref. }
  rewrite (bind_throw _ _ _ _ _
             (in_process_sql_reads (fun _ => sql_delete_user params_id) s _ D)).
  reflexivity.
Qed.

(** ** Creating users *)

Lemma getByUsername_in_site (s : site) (username : string) :
  in_process (sql (fun _ => userOps_getByUsername username)) s =
  (Normal (find (fun u => String.eqb (u_username u) username)
             (users (w_db (process s)))), s).
Proof. now apply in_process_sql_reads. Qed.

(** POST /api/users with a username that is already in the table answers
    400 'Username sudah digunakan' and writes nothing. *)
Theorem create_user_refuses_taken_username (s : site) (authHeader : authorization)
    (user : jwt_payload) (b : user_body) (username password nama_lengkap : string)
    (existing : user_row) :
  fst (authenticateToken env_JWT_SECRET authHeader (process s)) = Normal (next user) ->
  role user = admin ->
  given (body_username b) = Some username ->
  given (body_password b) = Some password ->
  given (body_nama_lengkap b) = Some nama_lengkap ->
  find (fun u => String.eqb (u_username u) username) (users (w_db (process s)))
  = Some existing ->
  post_api_users env_JWT_SECRET authHeader b s
  = (Normal {| code := 400; content := plain (json_error "Username sudah digunakan") |}, s).
Proof.
  intros A R Gu Gp Gn F. unfold post_api_users.
  rewrite (admin_only_next _ _ _ _ A R). unfold try_catch. rewrite Gu, Gp, Gn.
  now rewrite (bind_normal _ _ _ _ _ (getByUsername_in_site s username)), F.
Qed.

Lemma find_none_existsb {A : Type} (f : A -> bool) (l : list A) :
  find f l = None -> existsb f l = false.
Proof.
  induction l as [|a l IH]; simpl; [reflexivity|].
  destruct (f a); [discriminate|exact IH].
Qed.



(** ** Settings *)

Lemma find_upserted (key key' : string) (new : setting_row) (l : list setting_row) :
  s_key new = key ->
  find (fun r => String.eqb (s_key r) key') (map (upsert_row key new) l)
  = if String.eqb key' key
    then (if existsb (fun r => String.eqb (s_key r) key) l then Some new else None)
    else find (fun r => String.eqb (s_key r) key') l.
Proof.
  intros K. induction l as [|r l IH]; simpl.
  - now destruct (String.eqb key' key).
  - destruct (String.eqb_spec (s_key r) key) as [E|E].
    + assert (U : upsert_row key new r = new).
      { unfold upsert_row. apply String.eqb_eq in E. now rewrite E. }
      rewrite U, K, IH. simpl.
      destruct (String.eqb_spec key' key) as [E'|E'].
      * subst key'. now rewrite String.eqb_refl.
      * destruct (String.eqb_spec key key'); [congruence|].
        destruct (String.eqb_spec (s_key r) key'); [congruence|reflexivity].
    + assert (U : upsert_row key new r = r).
      { unfold upsert_row. apply String.eqb_neq in E. now rewrite E. }
      rewrite U, IH. simpl.
      destruct (String.eqb_spec key' key) as [E'|E']; [|reflexivity].
      subst key'. destruct (String.eqb_spec (s_key r) key); [contradiction|reflexivity].
Qed.

Lemma find_appended (key key' : string) (new : setting_row) (l : list setting_row) :
  s_key new = key ->
  existsb (fun r => String.eqb (s_key r) key) l = false ->
  find (fun r => String.eqb (s_key r) key') (l ++ [new])
  = if String.eqb key' key then Some new
    else find (fun r => String.eqb (s_key r) key') l.
Proof.
  intros K. induction l as [|r l IH]; simpl; intros E.
  - rewrite K, (String.eqb_sym key key'). now destruct (String.eqb key' key).
  - apply orb_false_iff in E. destruct E as [E1 E2]. rewrite (IH E2).
    destruct (String.eqb_spec key' key) as [E'|E']; [|reflexivity].
    subst key'. now rewrite E1.
Qed.

Lemma upsert_keeps_keys (key : string) (new : setting_row) (l : list setting_row) :
  s_key new = key -> map s_key (map (upsert_row key new) l) = map s_key l.
Proof.
  intros K. rewrite map_map. apply map_ext. intros r. unfold upsert_row.
  destruct (String.eqb_spec (s_key r) key); congruence.
Qed.

Lemma settingsOps_set_runs (st : store) (key : string) (value : option string) (now : Z) :
  let new := {| s_key := key; s_value := value; s_updated_at := now |} in
  settingsOps_set key value now st =
  (Normal true,
   if existsb (fun r => String.eqb (s_key r) key) (settings st)
   then set_settings (map (upsert_row key new) (settings st)) st
   else set_settings (settings st ++ [new]) st).
Proof. reflexivity. Qed.

(** A setting that has been set is read back; every other key reads as
    before; the tables of users, customers and transactions are not
    touched; and the settings table keeps one row per key. *)
Theorem settings_set_then_get (st : store) (key : string) (value : option string)
    (now : Z) :
  NoDup (map s_key (settings st)) ->
  exists st',
    settingsOps_set key value now st = (Normal true, st') /\
    (forall key',
       fst (settingsOps_get key' st')
       = if String.eqb key' key then Normal value else fst (settingsOps_get key' st)) /\
    NoDup (map s_key (settings st')) /\
    tables st' = tables st.
Proof.
  intros N. eexists. split; [apply settingsOps_set_runs|].
  destruct (existsb (fun r => String.eqb (s_key r) key) (settings st)) eqn:E.
  - split; [|split; [|reflexivity]].
    + intros key'. unfold settingsOps_get, bind, get, ret; simpl.
      rewrite (find_upserted key key' (Build_setting_row key value now) _ eq_refl), E.
      now destruct (String.eqb key' key).
    + simpl. now rewrite (upsert_keeps_keys key (Build_setting_row key value now) _ eq_refl).
  - split; [|split; [|reflexivity]].
    + intros key'. unfold settingsOps_get, bind, get, ret; simpl.
      rewrite (find_appended key key' (Build_setting_row key value now) _ eq_refl E).
      now destruct (String.eqb key' key).
    + simpl. rewrite map_app. simpl. apply NoDup_app; [assumption|repeat constructor; intros []|].
      intros k I [<-|[]]. apply in_map_iff in I. destruct I as (r & K & I).
      assert (X : existsb (fun r => String.eqb (s_key r) key) (settings st) = true).
      { apply existsb_exists. exists r. split; [assumption|].
        rewrite K. apply String.eqb_refl. }
      congruence.
Qed.

(** POST /api/settings is open to every valid token, staff included: with a
    key and a value it answers 200, the value is stored (a later
    [settingsOps.get] reads it), every open event stream is sent
    'settings_updated', and the other tables are untouched. *)
Theorem any_token_can_change_a_setting (s : site) (authHeader : authorization)
    (user : jwt_payload) (key value : string) :
  fst (authenticateToken env_JWT_SECRET authHeader (process s)) = Normal (next user) ->
  key <> "" ->
  exists s',
    post_api_settings env_JWT_SECRET authHeader (Some key) (Some value) s
    = (Normal {| code := 200; content := plain json_success |}, s') /\
    fst (settingsOps_get key (store_of s')) = Normal (Some value) /\
    w_wire (process s')
    = w_wire (process s)
      ++ map (fun client => (client, settings_updated key value)) (w_clients (process s)) /\
    w_db (process s') = w_db (process s).
Proof.
  intros A K. unfold post_api_settings.
  rewrite (guarded_next _ _ _ _ A). unfold try_catch.
  assert (G : given (Some key) = Some key).
  { unfold given, text_or_null. destruct (String.eqb_spec key ""); [contradiction|reflexivity]. }
  rewrite G.
  rewrite (bind_normal _ _ _ _ _
             (sql_store_runs _ _ _ _
                (settingsOps_set_runs (store_of s) key (Some value) (w_now (process s))))).
  set (st' := if existsb _ _ then _ else _).
  eexists. split; [reflexivity|].
  match goal with
  | |- fst (settingsOps_get key (store_of ?x)) = _ /\ _ => set (sf := x)
  end.
  assert (S : settings (store_of sf) = settings st') by reflexivity.
  split; [|split].
  - change (fst (settingsOps_get key (store_of sf)))
      with (Normal (match find (fun r => String.eqb (s_key r) key)
                            (settings (store_of sf)) with
                    | Some r => s_value r
                    | None => None
                    end)).
    rewrite S. subst st'.
    destruct (existsb (fun r => String.eqb (s_key r) key) (settings (store_of s))) eqn:E;
      cbn [settings set_settings].
    + rewrite (find_upserted key key
                 (Build_setting_row key (Some value) (w_now (process s))) _ eq_refl),
        String.eqb_refl, E. reflexivity.
    + rewrite (find_appended key key
                 (Build_setting_row key (Some value) (w_now (process s))) _ eq_refl E),
        String.eqb_refl. reflexivity.
  - subst sf st'. simpl. now destruct (existsb _ _).
  - subst sf st'. simpl. now destruct (existsb _ _).
Qed.

(** ** Restore *)

Lemma customerOps_create_runs (st : store) (data : customer_data) (userId : option Z)
    (now : Z) (nama : string) (t : tipe) (whatsapp : string) :
  checked_customer data = Normal (nama, t, whatsapp) ->
  fk_ok (user_exists (tables st)) userId = true ->
  let cid := next_rowid (seq_customers st) (map c_id (customers (tables st))) in
  exists st',
    customerOps_create data userId now st = (Normal (cid, data), st') /\
    customers (tables st') =
      customers (tables st) ++
      [{| c_id := cid; c_nama := nama; c_tipe := t; c_whatsapp := whatsapp;
          c_username_pppoe := text_or_null (data_username_pppoe data);
          c_password_pppoe := text_or_null (data_password_pppoe data);
          c_alamat := text_or_null (data_alamat data);
          c_aktif := 1; c_created_by := userId;
          c_created_at := now; c_updated_at := now |}] /\
    users (tables st') = users (tables st) /\
    transactions (tables st') = transactions (tables st).
Proof.
  intros K U cid. unfold customerOps_create. unfold bind at 1. unfold get.
  rewrite K, U. unfold bind at 1. unfold modify at 1.
  set (st1 := set_seq_customers _ _).
  assert (U1 : fk_ok (user_exists (tables st1)) userId = true) by exact U.
  destruct (when_logActivity_runs (tables st1) (truthy_id userId) userId
              "CREATE_CUSTOMER" ("Menambah customer: " +++ template_text (data_nama data))
              "" now U1) as (d' & L & Eu & Ec & Et & _).
  unfold bind at 1. unfold on_tables, zoom. rewrite L.
  eexists. split; [reflexivity|]. simpl. now rewrite Ec, Eu, Et.
Qed.

Lemma restore_customers_loop (uid : Z) (cs : list customer_data) (s : site) :
  user_exists (w_db (process s)) uid = true ->
  Forall (fun c => exists v, checked_customer c = Normal v) cs ->
  exists s' news,
    forEach (fun c => sql_store (customerOps_create c (Some uid)) ;; ret tt) cs s
    = (Normal tt, s') /\
    customers (w_db (process s')) = customers (w_db (process s)) ++ news /\
    Forall2 (restored_from uid) cs news /\
    (forall c c', In c (customers (w_db (process s))) -> In c' news -> c_id c < c_id c') /\
    NoDup (map c_id news) /\
    users (w_db (process s')) = users (w_db (process s)) /\
    transactions (w_db (process s')) = transactions (w_db (process s)) /\
    w_clients (process s') = w_clients (process s) /\
    w_wire (process s') = w_wire (process s) /\
    w_now (process s') = w_now (process s).
Proof.
  revert s. induction cs as [|c cs IH]; intros s X F.
  - exists s, []. simpl. rewrite app_nil_r. repeat split; try constructor.
    intros ? ? _ [].
  - inversion F as [|? ? [[[nama t] wa] K] F']; subst.
    destruct (customerOps_create_runs (store_of s) c (Some uid) (w_now (process s))
                nama t wa K X) as (st' & E & Ec & Eu & Et).
    simpl forEach. unfold bind at 1. unfold bind at 1.
    rewrite (sql_store_runs _ _ _ _ E). cbv beta iota.
    set (s1 := put_store st' s).
    assert (X1 : user_exists (w_db (process s1)) uid = true).
    { unfold user_exists in *. simpl. now rewrite Eu. }
    destruct (IH s1 X1 F') as (s' & news & L & Lc & Lf & Lo & Ln & Lu & Lt & Lcl & Lw & Lnow).
    assert (C1 : customers (w_db (process s1)) = customers (w_db (process s)) ++ _)
      by exact Ec.
    set (row := {| c_id := _ |}) in C1.
    exists s', (row :: news). split; [exact L|].
    split; [rewrite Lc, C1, <- app_assoc; reflexivity|].
    split; [constructor; [now repeat split|assumption]|].
    assert (Fresh : forall x, In x (customers (w_db (process s))) -> c_id x < c_id row).
    { intros x I. apply next_rowid_fresh. now apply (in_map c_id). }
    assert (After : forall c', In c' news -> c_id row < c_id c').
    { intros c' I. apply (Lo row c'); [|assumption].
      rewrite C1. apply in_or_app. right. now left. }
    split; [|split].
    + intros x c' I [<-|I']; [now apply Fresh|].
      apply (Lo x c'); [|assumption]. rewrite C1. apply in_or_app. now left.
    + change (NoDup (c_id row :: map c_id news)).
      constructor; [|assumption]. intros I. apply in_map_iff in I.
      destruct I as (c' & E' & I). specialize (After c' I). lia.
    + repeat split; [rewrite Lu|rewrite Lt|rewrite Lcl|rewrite Lw|rewrite Lnow];
        try reflexivity; simpl; assumption.
Qed.

Lemma restore_settings_loop (kvs : list (string * option string)) (s : site) :
  exists s',
    forEach (fun kv => sql_store (settingsOps_set (fst kv) (snd kv)) ;; ret tt) kvs s
    = (Normal tt, s') /\
    process s' = process s.
Proof.
  revert s. induction kvs as [|kv kvs IH]; intros s; [now exists s|].
  simpl forEach. unfold bind at 1. unfold bind at 1.
  rewrite (sql_store_runs _ _ _ _
             (settingsOps_set_runs (store_of s) (fst kv) (snd kv) (w_now (process s)))).
  cbv beta iota. set (s1 := put_store _ s).
  assert (P1 : process s1 = process s).
  { subst s1. unfold put_store. simpl.
    destruct (existsb _ _); simpl; apply set_db_same. }
  destruct (IH s1) as (s' & L & P). exists s'. split; [exact L|congruence].
Qed.

(** POST /api/restore by an administrator, with a backup whose customers
    pass the constraints of the customers table: the route answers 200 and
    appends one customer per entry, in order, active, created by the
    administrator, under fresh ids that are all larger than the ids already
    in the table (whatever ids the backup carried).  The transactions of
    the backup are ignored: the transactions and users tables are as
    before. *)
Theorem restore_appends_customers (s : site) (authHeader : authorization)
    (user : jwt_payload) (b : backup_body) (cs : list customer_data) :
  fst (authenticateToken env_JWT_SECRET authHeader (process s)) = Normal (next user) ->
  role user = admin ->
  user_exists (w_db (process s)) (id user) = true ->
  backup_customers b = Some cs ->
  Forall (fun c => exists v, checked_customer c = Normal v) cs ->
  exists s' news,
    post_api_restore env_JWT_SECRET authHeader b s
    = (Normal {| code := 200;
                 content := plain (json_message "Data berhasil dipulihkan") |}, s') /\
    customers (w_db (process s')) = customers (w_db (process s)) ++ news /\
    Forall2 (restored_from (id user)) cs news /\
    (forall c c', In c (customers (w_db (process s))) -> In c' news -> c_id c < c_id c') /\
    NoDup (map c_id news) /\
    users (w_db (process s')) = users (w_db (process s)) /\
    transactions (w_db (process s')) = transactions (w_db (process s)).
Proof.
  intros A R X B F. unfold post_api_restore.
  rewrite (admin_only_next _ _ _ _ A R). unfold try_catch. rewrite B.
  destruct (restore_customers_loop (id user) cs s X F)
    as (s1 & news & L & Lc & Lf & Lo & Ln & Lu & Lt & _).
  rewrite (bind_normal _ _ _ _ _ L).
  assert (S2 : exists s2,
             match backup_settings b with
             | Some settings =>
                 forEach (fun kv => sql_store (settingsOps_set (fst kv) (snd kv)) ;; ret tt)
                         settings
             | None => ret tt
             end s1 = (Normal tt, s2) /\ process s2 = process s1).
  { destruct (backup_settings b) as [kvs|]; [apply restore_settings_loop|now exists s1]. }
  destruct S2 as (s2 & L2 & P2).
  rewrite (bind_normal _ _ _ _ _ L2).
  unfold bind at 1. unfold in_process at 1, zoom, broadcast, modify.
  set (s3 := set_process _ s2).
  assert (D3 : w_db (process s3) = w_db (process s1)) by (simpl; now rewrite P2).
  assert (X3 : fk_ok (user_exists (w_db (process s3))) (Some (id user)) = true).
  { rewrite D3. simpl. unfold user_exists in *. now rewrite Lu. }
  destruct (logActivity_runs (w_db (process s3)) (Some (id user)) "RESTORE_DATA"
              "Restore data dari backup" "" (w_now (process s3)) X3)
    as (d4 & L4 & Eu & Ec & Et & _).
  rewrite (bind_normal _ _ _ _ _ (in_process_sql _ _ _ _ L4)).
  eexists. exists news. split; [reflexivity|]. simpl.
  rewrite Ec, Eu, Et, D3. repeat split; assumption.
Qed.

(** ** Pending bills of one customer *)

(** GET /api/transactions/customer/:id/pending never lists a bill: for
    every valid token and every customer id, with pending bills or without,
    [getPendingByCustomer] throws at [db.prepare], whose statement has
    ["pending"] in double quotes; the route answers 500 with the message
    of SQLite, and nothing is written. *)
Theorem pending_route_always_answers_500 (s : site) (authHeader : authorization)
    (user : jwt_payload) (params_id : Z) :
  fst (authenticateToken env_JWT_SECRET authHeader (process s)) = Normal (next user) ->
  transactionOps_getPendingByCustomer params_id (w_db (process s))
  = (Throw (SqliteError (no_such_column "pending")), w_db (process s)) /\
  get_api_transactions_customer_id_pending env_JWT_SECRET authHeader params_id s
  = (Normal {| code := 500; content := plain (json_error (no_such_column "pending")) |},
     s).
Proof.
  intros A. split; [reflexivity|].
  unfold get_api_transactions_customer_id_pending.
  rewrite (guarded_next _ _ _ _ A).
  rewrite (try_catch_throw _ _ _ _ _
             (bind_throw _ _ _ _ _
                (in_process_sql_reads
                   (fun _ => transactionOps_getPendingByCustomer params_id) s _ eq_refl))).
  reflexivity.
Qed.

(** ** Updating a customer that does not exist *)


End Routes.

End SiteFacts.

(** * More about whatsapp.js *)

Module GatewayFacts.
Import Database Store Whatsapp Notions DatabaseFacts ServerFacts.

Lemma strip_non_digits_digits (s : string) : all_digits (strip_non_digits s) = true.
Proof.
  induction s as [|a s IH]; simpl; [reflexivity|].
  destruct (is_digit a) eqn:D; simpl; [now rewrite D|exact IH].
Qed.

(** The address a message is sent to is made of digits only, whatever is
    stored as the customer's number; and a number written locally (leading
    0) or internationally (+62) gives the same address, starting with 62. *)
Theorem chat_address_is_digits_with_country_code (stored n : string) :
  all_digits (international (strip_non_digits stored)) = true /\
  international (strip_non_digits ("0" +++ n)) = "62" +++ strip_non_digits n /\
  international (strip_non_digits ("+62" +++ n)) = "62" +++ strip_non_digits n.
Proof.
  split; [|split; reflexivity].
  pose proof (strip_non_digits_digits stored) as D.
  destruct (strip_non_digits stored) as [|a rest]; [reflexivity|].
  simpl in D. apply andb_true_iff in D. destruct D as [Da Dr].
  unfold international.
  destruct (Ascii.eqb_spec a "0"%char) as [->|N].
  - simpl. exact Dr.
  - assert (K : match a with
                | "0"%char => "62" +++ rest
                | _ => String a rest
                end = String a rest).
    { destruct a as [[] [] [] [] [] [] [] []]; try reflexivity. now elim N. }
    rewrite K. simpl. now rewrite Da.
Qed.

Section Facts.
Context {js : JsRuntime} {transport : WhatsAppWeb}.

Lemma not_ready_guard (w : world) :
  gateway_ready w = false ->
  negb (w_client w) || negb (client_status_eqb (w_clientStatus w) ready) = true.
Proof.
  unfold gateway_ready. destruct (w_client w), (client_status_eqb _ _); simpl; congruence.
Qed.

Lemma send_when_not_ready (customerId : Z) (message : string) (userId : option Z)
    (w : world) :
  gateway_ready w = false ->
  sendBillingMessage customerId message userId w
  = (Throw (ReferenceError "customer is not defined"), w).
Proof.
  intros G. apply not_ready_guard in G.
  unfold sendBillingMessage.
  assert (T : sendBillingMessage_try customerId message userId w
              = (Throw (Error "WhatsApp client not ready"), w)).
  { unfold sendBillingMessage_try, bind, get, throw. now rewrite G. }
  rewrite (try_catch_throw _ _ _ _ _ T).
  apply WhatsappFacts.sendBillingMessage_catch_throws.
Qed.

(** While the gateway is not ready, nothing is handed to the WhatsApp
    client: a send throws and a broadcast returns, both leaving the whole
    state (transport, database, clock) as it was. *)
Theorem nothing_is_sent_unless_ready (w : world) (customerId : Z)
    (message template : string) (userId : option Z) :
  gateway_ready w = false ->
  sendBillingMessage customerId message userId w
  = (Throw (ReferenceError "customer is not defined"), w) /\
  exists r, broadcastBillingMessage template userId w = (Normal r, w).
Proof.
  intros G. split; [now apply send_when_not_ready|].
  unfold broadcastBillingMessage, try_catch.
  destruct (getWithPending_reads_only (w_db w)) as [R _].
  destruct (customerOps_getWithPending (w_db w)) as [[rows|e] d'] eqn:P;
    simpl in R; subst d'.
  - rewrite (bind_normal _ _ _ _ _
               (sql_runs (fun _ => customerOps_getWithPending) w _ _ P)).
    rewrite set_db_same.
    destruct rows as [|r rows].
    + simpl. eexists. reflexivity.
    + assert (F : for_debtors template userId (r :: rows)
                    {| total := 0; success := 0; failed := 0; details := [] |} w
                  = (Throw (ReferenceError "customer is not defined"), w)).
      { simpl for_debtors. unfold bind at 1. unfold get. cbv beta iota zeta.
        apply bind_throw. now apply send_when_not_ready. }
      rewrite (bind_throw _ _ _ _ _ F). eexists. reflexivity.
  - rewrite (bind_throw _ _ _ _ _
               (sql_runs (fun _ => customerOps_getWithPending) w _ _ P)).
    rewrite set_db_same. eexists. reflexivity.
Qed.

(** ** A broadcast that goes through *)





End Facts.

End GatewayFacts.

(** * Properties of the start-up of database.js *)

Module StartupFacts.
Import Database Store FullStore Server Site Notions DatabaseFacts ServerFacts.

Section Startup.
Context {js : JsRuntime} {bcrypt : Bcrypt}.

Lemma set_tables_same (st : store) : set_tables (tables st) st = st.
Proof. now destruct st. Qed.

Lemma existsb_find_some {A : Type} (f : A -> bool) (l : list A) :
  existsb f l = true -> exists x, find f l = Some x.
Proof.
  induction l as [|a l IH]; simpl; [discriminate|].
  destruct (f a); [eauto|exact IH].
Qed.

(** One of the two [if (!exists) INSERT] blocks, followed by the rest. *)
Lemma ensure_user (username hash nama_lengkap rtxt : string) (r : Database.role)
    (now : Z) (k : Eff store unit) (st : store) :
  parse_role rtxt = Some r ->
  exists st' news,
    (existing <- on_tables (userOps_getByUsername username) ;;
     match existing with
     | Some _ => ret tt
     | None => sql_insert_user username hash nama_lengkap rtxt now ;; ret tt
     end ;;
     k)%eff st = k st' /\
    tables st' = set_users (users (tables st) ++ news) (tables st) /\
    settings st' = settings st /\
    seq_customers st' = seq_customers st /\
    (has_user username st = true -> st' = st) /\
    (has_user username st = false ->
     exists row, news = [row] /\ u_username row = username /\ u_password row = hash /\
                 u_role row = r /\ u_aktif row = 1).
Proof.
  intros P. unfold bind at 1. unfold on_tables, zoom, userOps_getByUsername.
  unfold bind at 1. unfold get, ret. cbv beta iota zeta. rewrite set_tables_same.
  unfold has_user.
  destruct (find (fun u => String.eqb (u_username u) username) (users (tables st)))
    as [u|] eqn:F.
  - exists st, []. split; [reflexivity|]. rewrite app_nil_r.
    split; [now destruct (tables st)|]. do 3 (split; [reflexivity|]).
    intros E. apply find_some in F. destruct F as [I U].
    assert (X : existsb (fun u => String.eqb (u_username u) username) (users (tables st))
                = true) by (apply existsb_exists; eauto).
    congruence.
  - apply SiteFacts.find_none_existsb in F.
    unfold sql_insert_user, bind, get, modify, ret. rewrite P, F.
    cbv beta iota zeta. do 2 eexists. split; [reflexivity|].
    split; [reflexivity|]. do 2 (split; [reflexivity|]). split; [discriminate|].
    intros _. eexists. split; [reflexivity|]. now repeat split.
Qed.

(** The [forEach] over the default settings. *)
Lemma default_settings_loop (now : Z) (l : list (string * string)) (st : store) :
  exists st' more,
    forEach (fun kv => sql_insert_or_ignore_setting (fst kv) (snd kv) now) l st
    = (Normal tt, st') /\
    tables st' = tables st /\ seq_users st' = seq_users st /\
    seq_customers st' = seq_customers st /\
    settings st' = settings st ++ more /\
    (forall kv, In kv l -> has_setting (fst kv) st' = true) /\
    ((forall kv, In kv l -> has_setting (fst kv) st = true) -> st' = st).
Proof.
  revert st. induction l as [|kv l IH]; intros st.
  - exists st, []. rewrite app_nil_r. repeat split; try reflexivity.
    intros kv [].
  - simpl forEach. unfold bind at 1. unfold sql_insert_or_ignore_setting at 1.
    unfold modify. cbv beta iota zeta.
    fold (has_setting (fst kv) st).
    destruct (has_setting (fst kv) st) eqn:E.
    + destruct (IH st) as (st' & more & R & Et & Eu & Ec & Es & Hs & Same).
      exists st', more. repeat split; try assumption.
      * intros kv' [<-|I]; [|now apply Hs].
        unfold has_setting in *. rewrite Es, existsb_app, E. reflexivity.
      * intros A. apply Same. intros kv' I. apply A. now right.
    + set (row := {| s_key := fst kv; s_value := Some (snd kv); s_updated_at := now |}).
      destruct (IH (set_settings (settings st ++ [row]) st))
        as (st' & more & R & Et & Eu & Ec & Es & Hs & Same).
      exists st', (row :: more). repeat split; try assumption.
      * rewrite Es. simpl. now rewrite <- app_assoc.
      * intros kv' [<-|I]; [|now apply Hs].
        unfold has_setting. rewrite Es. simpl. rewrite !existsb_app. simpl.
        rewrite String.eqb_refl. now rewrite Bool.orb_true_r.
      * intros A. rewrite (A kv (or_introl eq_refl)) in E. discriminate.
Qed.

Lemma has_user_grows (username : string) (st st' : store) (news : list user_row) :
  tables st' = set_users (users (tables st) ++ news) (tables st) ->
  has_user username st = true -> has_user username st' = true.
Proof.
  unfold has_user. intros -> H. simpl. now rewrite existsb_app, H.
Qed.

(** What start-up does, block by block. *)
Lemma initialize_runs (now : Z) (st : store) :
  exists st' news more,
    initialize now st = (Normal tt, st') /\
    tables st' = set_users (users (tables st) ++ news) (tables st) /\
    settings st' = settings st ++ more /\
    seq_customers st' = seq_customers st /\
    has_user "admin" st' = true /\ has_user "staff" st' = true /\
    (forall kv, In kv defaultSettings -> has_setting (fst kv) st' = true) /\
    (has_user "admin" st = true -> has_user "staff" st = true ->
     (forall kv, In kv defaultSettings -> has_setting (fst kv) st = true) ->
     st' = st) /\
    (has_user "admin" st = false ->
     exists row rest, news = row :: rest /\ u_username row = "admin" /\
                 u_password row = hashSync "admin123" 10 /\
                 u_role row = admin /\ u_aktif row = 1).
Proof.
  unfold initialize.
  destruct (ensure_user "admin" (hashSync "admin123" 10) "Administrator" "admin" admin
              now
              (staffExists <- on_tables (userOps_getByUsername "staff") ;;
               match staffExists with
               | Some _ => ret tt
               | None =>
                   sql_insert_user "staff" (hashSync "staff123" 10) "Staff Kasir"
                     "staff" now ;; ret tt
               end ;;
               forEach (fun kv => sql_insert_or_ignore_setting (fst kv) (snd kv) now)
                       defaultSettings)%eff st eq_refl)
    as (st1 & news1 & R1 & T1 & S1 & C1 & Same1 & New1).
  rewrite R1.
  destruct (ensure_user "staff" (hashSync "staff123" 10) "Staff Kasir" "staff" staff
              now
              (forEach (fun kv => sql_insert_or_ignore_setting (fst kv) (snd kv) now)
                       defaultSettings) st1 eq_refl)
    as (st2 & news2 & R2 & T2 & S2 & C2 & Same2 & New2).
  rewrite R2.
  destruct (default_settings_loop now defaultSettings st2)
    as (st3 & more & R3 & T3 & U3 & C3 & S3 & Hs & Same3).
  exists st3, (news1 ++ news2), more. split; [exact R3|].
  assert (A1 : has_user "admin" st1 = true).
  { destruct (has_user "admin" st) eqn:E.
    - now rewrite (Same1 eq_refl).
    - destruct (New1 eq_refl) as (row & -> & Un & _).
      unfold has_user. rewrite T1. simpl. rewrite existsb_app. simpl.
      rewrite Un. simpl. now rewrite Bool.orb_true_r. }
  assert (A2 : has_user "staff" st2 = true).
  { destruct (has_user "staff" st1) eqn:E.
    - now rewrite (Same2 eq_refl).
    - destruct (New2 eq_refl) as (row & -> & Un & _).
      unfold has_user. rewrite T2. simpl. rewrite existsb_app. simpl.
      rewrite Un. simpl. now rewrite Bool.orb_true_r. }
  assert (T : tables st3 = set_users (users (tables st) ++ news1 ++ news2) (tables st)).
  { rewrite T3, T2, T1. simpl. now rewrite <- app_assoc. }
  split; [exact T|]. split; [now rewrite S3, S2, S1|].
  split; [now rewrite C3, C2, C1|].
  assert (H3 : forall u, has_user u st2 = true -> has_user u st3 = true).
  { intros u. unfold has_user. now rewrite T3. }
  split; [apply H3; now apply (has_user_grows _ st1 st2 news2)|].
  split; [now apply H3|]. split; [exact Hs|]. split.
  - intros Ha Hf Hk. rewrite (Same1 Ha) in *. rewrite (Same2 Hf) in *.
    now apply Same3.
  - intros E. destruct (New1 E) as (row & -> & P). exists row, news2.
    split; [reflexivity|exact P].
Qed.

(** Loading database.js always succeeds, and loading it again on the
    database it has left (a restart of the server) changes nothing: no
    second default account, no setting reset. *)
Theorem restart_changes_nothing (st : store) (now now' : Z) :
  fst (initialize now st) = Normal tt /\
  initialize now' (snd (initialize now st)) = (Normal tt, snd (initialize now st)).
Proof.
  destruct (initialize_runs now st)
    as (st1 & news & more & R & _ & _ & _ & Ha & Hf & Hk & _).
  rewrite R. split; [reflexivity|]. simpl.
  destruct (initialize_runs now' st1) as (st2 & ? & ? & R2 & _ & _ & _ & _ & _ & _ & Same & _).
  rewrite R2. now rewrite (Same Ha Hf Hk).
Qed.

(** Start-up only adds: every account and every setting that was there
    stays as it was (a changed admin password or price is not reset), the
    other tables are untouched, and afterwards the accounts 'admin' and
    'staff' and the four default settings exist. *)
Theorem initialize_only_adds (st : store) (now : Z) :
  exists news more,
    let st' := snd (initialize now st) in
    users (tables st') = users (tables st) ++ news /\
    customers (tables st') = customers (tables st) /\
    transactions (tables st') = transactions (tables st) /\
    settings st' = settings st ++ more /\
    (forall key, has_setting key st = true ->
       fst (settingsOps_get key st') = fst (settingsOps_get key st)) /\
    has_user "admin" st' = true /\ has_user "staff" st' = true /\
    has_setting "price_internet" st' = true /\ has_setting "price_gas" st' = true /\
    has_setting "app_name" st' = true /\ has_setting "business_address" st' = true.
Proof.
  destruct (initialize_runs now st)
    as (st1 & news & more & R & T & S & _ & Ha & Hf & Hk & _).
  exists news, more. rewrite R. cbv zeta. simpl snd.
  rewrite T, S. simpl.
  repeat split; try assumption.
  - intros key H. unfold settingsOps_get, bind, get, ret. simpl. rewrite S.
    apply existsb_find_some in H. destruct H as (r & F).
    now rewrite (find_app_found _ _ more _ F), F.
  - apply (Hk ("price_internet", "150000")). simpl. tauto.
  - apply (Hk ("price_gas", "22000")). simpl. tauto.
  - apply (Hk ("app_name", "PPPoE Billing Pro")). simpl. tauto.
  - apply (Hk ("business_address", "-")). simpl. tauto.
Qed.

(** On a database without an 'admin' account, the server that has just
    started accepts the login admin / admin123 and answers with a token
    of role admin for the account that start-up has created.  This needs
    bcrypt to accept the password it has just hashed. *)
Theorem default_admin_can_log_in (env_JWT_SECRET : option string) (st : store)
    (now : Z) :
  has_user "admin" st = false ->
  compareSync "admin123" (hashSync "admin123" 10) = true ->
  exists row t w',
    post_api_auth_login env_JWT_SECRET "admin" "admin123" (process (boot_site st now))
    = (Normal {| http_status := 200; json := json_login t (user_payload row) |}, w') /\
    In row (users (w_db (process (boot_site st now)))) /\
    ~ In row (users (tables st)) /\
    u_username row = "admin" /\ u_role row = admin /\
    Server.role (Server.payload t) = admin /\ Server.id (Server.payload t) = u_id row.
Proof.
  intros H B.
  destruct (initialize_runs now st)
    as (st1 & news & more & R & T & _ & _ & _ & _ & _ & _ & New).
  destruct (New H) as (row & rest & -> & Un & Up & Ur & Ua).
  unfold boot_site. rewrite R. cbv zeta. simpl snd.
  set (w := boot (tables st1) now).
  assert (M : forall u, In u (users (tables st)) ->
                String.eqb (u_username u) "admin" = false).
  { intros u I. destruct (String.eqb (u_username u) "admin") eqn:E; [|reflexivity].
    unfold has_user in H. rewrite <- H. symmetry. apply existsb_exists. eauto. }
  assert (F : find (fun u => String.eqb (u_username u) "admin") (users (w_db w))
              = Some row).
  { simpl. rewrite T. simpl. rewrite (TransactionFacts.find_app_missing _ _ _ M).
    simpl. now rewrite Un. }
  pose proof (AuthFacts.login_accepts env_JWT_SECRET w "admin" "admin123" row F
                ltac:(lia) ltac:(now rewrite Up)) as L.
  cbv zeta in L. do 3 eexists. split; [exact L|].
  split; [simpl; rewrite T; simpl; apply in_or_app; right; now left|].
  split; [|now repeat split].
  intros I. specialize (M row I). rewrite Un in M. discriminate.
Qed.

End Startup.

End StartupFacts.

(** * Invariants of the operations of database.js *)

Module InvariantFacts.
Import Database Ledger Store FullStore Notions DatabaseFacts.

Section Invariants.
Context {js : JsRuntime} {bcrypt : Bcrypt} {sqlite : Sqlite}.

Lemma preserves_throw {S A : Type} (P : S -> Prop) (e : js_error) :
  preserves P (throw (S := S) (A := A) e).
Proof. now intros s Ps. Qed.

Lemma preserves_on_tables {A : Type} (P : db -> Prop) (m : Eff db A) :
  preserves P m -> preserves (fun st => P (tables st)) (on_tables m).
Proof.
  intros Hm st Ps. unfold on_tables, zoom. specialize (Hm (tables st) Ps).
  now destruct (m (tables st)) as [r d'].
Qed.

Lemma logActivity_keeps_customers (P : list customer_row -> list transaction_row -> Prop)
    (userId : option Z) (action details ip : string) (now : Z) :
  preserves (fun d => P (customers d) (transactions d))
    (userOps_logActivity userId action details ip now).
Proof.
  apply preserves_get. intros d Pd.
  now destruct (fk_ok (user_exists d) userId).
Qed.

Lemma customer_exists_in (d : db) (id : Z) :
  customer_exists d id = true <-> exists c, In c (customers d) /\ c_id c = id.
Proof.
  unfold customer_exists. rewrite existsb_exists.
  split; intros (c & I & E); exists c; (split; [assumption|]);
    [now apply Z.eqb_eq|now apply Z.eqb_eq].
Qed.

Lemma create_transaction_keeps_references (data : transaction_data)
    (userId : option Z) (now : Z) :
  preserves customers_referenced_exist (transactionOps_create data userId now).
Proof.
  unfold transactionOps_create.
  destruct (checked_transaction data) as [[[[[nama t] kategori] j] s]|e];
    [|apply preserves_throw].
  apply preserves_bind; [apply insert_transaction_keeps_references|]. intros id.
  apply preserves_bind; [|intros _; apply preserves_ret].
  apply preserves_when, logActivity_keeps_references.
Qed.

Lemma delete_transaction_keeps_references (id : Z) (userId : option Z) (now : Z) :
  preserves customers_referenced_exist (transactionOps_delete id userId now).
Proof.
  unfold transactionOps_delete, transactionOps_getById.
  apply preserves_bind; [now intros d Ref|]. intros [t|]; [|apply preserves_ret].
  apply preserves_bind.
  - intros d Ref x I. simpl in I. apply filter_In in I. destruct I as [I _].
    now apply Ref.
  - intros _. apply preserves_bind; [|intros _; apply preserves_ret].
    apply preserves_when, logActivity_keeps_references.
Qed.

Lemma sql_delete_customer_keeps_references (id : Z) :
  preserves customers_referenced_exist (sql_delete_customer id).
Proof.
  apply preserves_get. intros d Ref.
  destruct (customer_exists d id && referenced_customer d id) eqn:B; [exact Ref|].
  intros t I. simpl in I. pose proof (Ref t I) as X.
  apply customer_exists_in in X. destruct X as (c & Ic & Ec).
  apply customer_exists_in. exists c. split; [|assumption]. simpl.
  apply filter_In. split; [assumption|].
  destruct (c_id c =? id) eqn:E; [|reflexivity]. exfalso.
  apply Z.eqb_eq in E.
  assert (X : customer_exists d id = true)
    by (apply customer_exists_in; exists c; now split).
  assert (R : referenced_customer d id = true).
  { unfold referenced_customer. apply Bool.orb_true_iff. left.
    apply existsb_exists. exists t. split; [assumption|]. apply Z.eqb_eq. congruence. }
  rewrite X, R in B. discriminate.
Qed.

Lemma delete_customer_keeps_references (id : Z) (userId : option Z) (now : Z) :
  preserves customers_referenced_exist (customerOps_delete id userId now).
Proof.
  unfold customerOps_delete, customerOps_getById.
  apply preserves_bind; [now intros d Ref|]. intros [c|]; [|apply preserves_ret].
  apply preserves_bind; [apply sql_delete_customer_keeps_references|]. intros _.
  apply preserves_bind; [|intros _; apply preserves_ret].
  apply preserves_when, logActivity_keeps_references.
Qed.

Lemma sql_update_customer_keeps_ids (id : Z) (data : customer_data) (now : Z) (d : db) :
  map c_id (customers (snd (sql_update_customer id data now d))) = map c_id (customers d)
  /\ map c_aktif (customers (snd (sql_update_customer id data now d)))
     = map c_aktif (customers d)
  /\ transactions (snd (sql_update_customer id data now d)) = transactions d.
Proof.
  unfold sql_update_customer, bind, get.
  destruct (customer_exists d id); [|now repeat split].
  destruct (checked_customer data) as [[[nama t] whatsapp]|e]; [|now repeat split].
  simpl. rewrite !map_map. repeat split; apply map_ext; intros c;
    now destruct (c_id c =? id).
Qed.

Lemma customer_exists_by_ids (d d' : db) (id : Z) :
  map c_id (customers d') = map c_id (customers d) ->
  customer_exists d' id = customer_exists d id.
Proof.
  intros E. unfold customer_exists.
  assert (K : forall l, existsb (fun c => c_id c =? id) l
                        = existsb (fun x => x =? id) (map c_id l)).
  { induction l as [|c l IH]; simpl; [reflexivity|]. now rewrite IH. }
  now rewrite !K, E.
Qed.

Lemma update_customer_keeps_references (id : Z) (data : customer_data)
    (userId : option Z) (now : Z) :
  preserves customers_referenced_exist (customerOps_update id data userId now).
Proof.
  unfold customerOps_update.
  apply preserves_bind.
  - intros d Ref t I.
    destruct (sql_update_customer_keeps_ids id data now d) as (Ei & _ & Et).
    rewrite Et in I. rewrite (customer_exists_by_ids d _ _ Ei). now apply Ref.
  - intros _. apply preserves_bind.
    + apply preserves_when, logActivity_keeps_references.
    + intros _. unfold customerOps_getById. now apply preserves_get.
Qed.

Lemma create_customer_appends (data : customer_data) (userId : option Z) (now : Z)
    (st : store) :
  transactions (tables (snd (customerOps_create data userId now st)))
  = transactions (tables st) /\
  (customers (tables (snd (customerOps_create data userId now st)))
   = customers (tables st) \/
   exists c, customers (tables (snd (customerOps_create data userId now st)))
             = customers (tables st) ++ [c] /\ c_aktif c = 1).
Proof.
  destruct (customerOps_create data userId now st) as [r st'] eqn:E. simpl snd.
  unfold customerOps_create in E. unfold bind at 1 in E. unfold get in E.
  cbv beta iota zeta in E.
  destruct (checked_customer data) as [[[nama t] whatsapp]|e];
    [|injection E as _ <-; split; [|left]; reflexivity].
  destruct (fk_ok (user_exists (tables st)) userId);
    [|injection E as _ <-; split; [|left]; reflexivity].
  unfold bind at 1 in E. unfold modify in E. cbv beta iota zeta in E.
  set (st1 := set_seq_customers _ _) in E.
  unfold bind at 1 in E.
  assert (L : preserves
                (fun d => customers d = customers (tables st1)
                          /\ transactions d = transactions (tables st1))
                (when (truthy_id userId)
                   (userOps_logActivity userId "CREATE_CUSTOMER"
                      ("Menambah customer: " +++ template_text (data_nama data)) "" now))).
  { apply preserves_when.
    apply (logActivity_keeps_customers
             (fun cs ts => cs = customers (tables st1) /\ ts = transactions (tables st1))). }
  pose proof (preserves_on_tables _ _ L st1 (conj eq_refl eq_refl)) as K.
  destruct (on_tables _ st1) as [[[]|e] st2]; simpl in K, E;
    injection E as _ <-; destruct K as [Kc Kt]; rewrite Kc, Kt;
    (split; [reflexivity|right; eexists; split; [reflexivity|reflexivity]]).
Qed.

(** Under [foreign_keys = ON] no operation on customers or transactions
    leaves a transaction whose customer is missing: if every transaction
    refers to an existing customer before [transactionOps.create],
    [markAsLunas], [transactionOps.delete], [customerOps.create],
    [customerOps.update] or [customerOps.delete], then so it is
    afterwards, whether the operation returns or throws. *)
Theorem no_operation_orphans_a_transaction :
  (forall data userId now,
     preserves customers_referenced_exist (transactionOps_create data userId now)) /\
  (forall id userId now,
     preserves customers_referenced_exist (transactionOps_markAsLunas id userId now)) /\
  (forall id userId now,
     preserves customers_referenced_exist (transactionOps_delete id userId now)) /\
  (forall id data userId now,
     preserves customers_referenced_exist (customerOps_update id data userId now)) /\
  (forall id userId now,
     preserves customers_referenced_exist (customerOps_delete id userId now)) /\
  (forall data userId now,
     preserves (fun st => customers_referenced_exist (tables st))
       (customerOps_create data userId now)).
Proof.
  split; [exact create_transaction_keeps_references|].
  split; [intros; apply markAsLunas_keeps_references|].
  split; [exact delete_transaction_keeps_references|].
  split; [exact update_customer_keeps_references|].
  split; [exact delete_customer_keeps_references|].
  intros data userId now st Ref t I.
  destruct (create_customer_appends data userId now st) as (Et & [Ec|(c & Ec & _)]);
    rewrite Et in I; specialize (Ref t I); unfold customer_exists in *; rewrite Ec;
    [assumption|]. now rewrite existsb_app, Ref.
Qed.

(** No operation of [customerOps] deactivates a customer: [create] stores
    [aktif = 1], [update] does not write the column and [delete] removes
    the row.  So once all customers are active they stay so. *)
Theorem customers_are_never_deactivated :
  (forall data userId now,
     preserves (fun st => all_active (tables st)) (customerOps_create data userId now)) /\
  (forall id data userId now, preserves all_active (customerOps_update id data userId now)) /\
  (forall id userId now, preserves all_active (customerOps_delete id userId now)).
Proof.
  split; [|split].
  - intros data userId now st A c I.
    destruct (create_customer_appends data userId now st) as (_ & [Ec|(c' & Ec & Ea)]);
      rewrite Ec in I; [now apply A|].
    apply in_app_or in I. destruct I as [I|[<-|[]]]; [now apply A|exact Ea].
  - intros id data userId now. unfold customerOps_update.
    apply preserves_bind.
    + intros d A c I.
      destruct (sql_update_customer_keeps_ids id data now d) as (_ & Ea & _).
      assert (X : In (c_aktif c) (map c_aktif (customers d)))
        by (rewrite <- Ea; now apply in_map).
      apply in_map_iff in X. destruct X as (c0 & <- & I0). now apply A.
    + intros _. apply preserves_bind.
      * apply preserves_when.
        apply (logActivity_keeps_customers (fun cs _ => forall c, In c cs -> c_aktif c = 1)).
      * intros _. unfold customerOps_getById. now apply preserves_get.
  - intros id userId now. unfold customerOps_delete, customerOps_getById.
    apply preserves_bind; [now intros d A|]. intros [c|]; [|apply preserves_ret].
    apply preserves_bind.
    + apply preserves_get. intros d A.
      destruct (customer_exists d id && referenced_customer d id); [exact A|].
      intros x I. simpl in I. apply filter_In in I. now apply A.
    + intros _. apply preserves_bind; [|intros _; apply preserves_ret].
      apply preserves_when.
      apply (logActivity_keeps_customers (fun cs _ => forall c, In c cs -> c_aktif c = 1)).
Qed.

End Invariants.

End InvariantFacts.

(** * Properties of the listing queries of database.js *)

Module QueryFacts.
Import Database Ledger Store Notions DatabaseFacts OrderFacts.

Lemma newest_first_total (u v : transaction_row) :
  newest_first u v = true \/ newest_first v u = true.
Proof. unfold newest_first. lia. Qed.

Lemma newest_first_sorted (l : list transaction_row) :
  StronglySorted newer_or_same (order_by newest_first l).
Proof.
  apply Sorted_StronglySorted.
  - intros x y z. unfold newer_or_same. lia.
  - pose proof (order_by_sorted newest_first l newest_first_total) as S.
    induction S as [|a l' S IH H]; constructor; [assumption|].
    destruct H as [|b l'' H]; constructor. unfold newer_or_same.
    unfold newest_first in H. lia.
Qed.

Lemma In_firstn_in_list {A : Type} (n : nat) (l : list A) (x : A) :
  In x (firstn n l) -> In x l.
Proof.
  intros I. rewrite <- (firstn_skipn n l). apply in_or_app. now left.
Qed.

Lemma In_skipn_in_list {A : Type} (n : nat) (l : list A) (x : A) :
  In x (skipn n l) -> In x l.
Proof.
  intros I. rewrite <- (firstn_skipn n l). apply in_or_app. now right.
Qed.

Lemma strongly_sorted_firstn {A : Type} (R : A -> A -> Prop) (n : nat) (l : list A) :
  StronglySorted R l -> StronglySorted R (firstn n l).
Proof.
  intros S. revert n. induction S as [|a l S IH H]; intros [|n]; simpl;
    try constructor; [apply IH|].
  apply Forall_forall. intros x I. apply (proj1 (Forall_forall _ _) H).
  now apply (In_firstn_in_list n).
Qed.

Lemma strongly_sorted_split {A : Type} (R : A -> A -> Prop) (n : nat) (l : list A) :
  StronglySorted R l ->
  forall x y, In x (firstn n l) -> In y (skipn n l) -> R x y.
Proof.
  intros S. revert n. induction S as [|a l S IH H]; intros [|n] x y Ix Iy;
    simpl in *; try contradiction.
  destruct Ix as [<-|Ix]; [|now apply (IH n)].
  apply (proj1 (Forall_forall _ _) H). now apply (In_skipn_in_list n).
Qed.

Lemma rows_of_views (d : db) (l : list transaction_row) :
  map row (map (left_join_customer d) l) = l.
Proof. rewrite map_map. simpl. apply map_id. Qed.

Section Queries.
Context {js : JsRuntime} {bcrypt : Bcrypt} {sqlite : Sqlite}.

(** [transactionOps.getAll] without a limit returns every transaction that
    passes the filters, each once, newest first.  A limit of 0 is no
    limit: it is falsy in [if (filter.limit)], so the listing is the same
    as without one. *)
Theorem getAll_without_limit_lists_every_match (d : db) (f : transaction_filter) :
  filter_limit f = None \/ filter_limit f = Some 0 ->
  exists views,
    transactionOps_getAll f d = (Normal views, d) /\
    Permutation (map row views) (filter (transaction_passes f) (transactions d)) /\
    StronglySorted newer_or_same (map row views).
Proof.
  intros L.
  assert (N : or_null (filter_limit f) = None) by (destruct L as [->| ->]; reflexivity).
  unfold transactionOps_getAll, bind, get, ret. rewrite N.
  eexists. split; [reflexivity|]. rewrite rows_of_views.
  split; [apply order_by_perm|apply newest_first_sorted].
Qed.

(** [transactionOps.getAll] with a limit n > 0 returns the n newest of the
    transactions that pass the filters (all of them when there are fewer):
    exactly min(n, matches) rows, each a stored row that passes, newest
    first, and no row left out is newer than a row returned. *)
Theorem getAll_limit_keeps_the_newest (d : db) (f : transaction_filter) (n : Z) :
  filter_limit f = Some n -> 0 < n ->
  exists views,
    transactionOps_getAll f d = (Normal views, d) /\
    List.length views
    = Nat.min (Z.to_nat n)
        (List.length (filter (transaction_passes f) (transactions d))) /\
    (forall v, In v views ->
       In (row v) (transactions d) /\ transaction_passes f (row v) = true) /\
    StronglySorted newer_or_same (map row views) /\
    (forall t v, In t (transactions d) -> transaction_passes f t = true ->
       ~ In t (map row views) -> In v views -> newer_or_same (row v) t).
Proof.
  intros L P.
  assert (N : or_null (filter_limit f) = Some n).
  { rewrite L. unfold or_null, truthy_id. destruct (n =? 0) eqn:E; [lia|reflexivity]. }
  unfold transactionOps_getAll, bind, get, ret. rewrite N. unfold limit.
  destruct (n <? 0) eqn:E; [lia|].
  set (sorted := order_by newest_first (filter (transaction_passes f) (transactions d))).
  eexists. split; [reflexivity|]. rewrite rows_of_views.
  assert (S : StronglySorted newer_or_same sorted) by apply newest_first_sorted.
  split; [|split; [|split]].
  - rewrite length_map, length_firstn. f_equal.
    apply Permutation_length, order_by_perm.
  - intros v I. apply in_map_iff in I. destruct I as (t & <- & I). simpl.
    apply In_firstn_in_list, In_order_by, filter_In in I. exact I.
  - now apply strongly_sorted_firstn.
  - intros t v It Pt Out Iv. apply in_map_iff in Iv. destruct Iv as (t' & <- & Iv).
    simpl. apply (strongly_sorted_split _ (Z.to_nat n) sorted S); [assumption|].
    assert (I : In t sorted) by (apply In_order_by, filter_In; now split).
    rewrite <- (firstn_skipn (Z.to_nat n) sorted) in I.
    apply in_app_or in I. destruct I as [I|I]; [contradiction|assumption].
Qed.

(** [customerOps.getAll] with no [tipe] and no [search] filter (absent, or
    the empty string, which is falsy) returns every customer, or every
    customer of the requested [aktif] flag when that filter is given, also
    when it is [false]; each once, in ascending order of name. *)
Theorem customers_getAll_without_text_filters (d : db) (f : customer_filter) :
  given (filter_tipe f) = None -> given (filter_search f) = None ->
  exists rows,
    customerOps_getAll f d = (Normal rows, d) /\
    Permutation rows
      (filter (fun c => match filter_aktif f with
                        | Some b => c_aktif c =? (if b then 1 else 0)
                        | None => true
                        end) (customers d)) /\
    Sorted (fun c c' => String.leb (c_nama c) (c_nama c') = true) rows.
Proof.
  intros Et Es.
  unfold customerOps_getAll, bind, get, ret. eexists. split; [reflexivity|].
  split.
  - rewrite order_by_perm. unfold customer_passes. rewrite Et, Es.
    erewrite filter_ext; [reflexivity|]. intros c. simpl.
    now rewrite Bool.andb_true_r.
  - apply (order_by_sorted by_nama). intros u v. unfold by_nama.
    unfold String.leb. rewrite (String.compare_antisym (c_nama u) (c_nama v)).
    destruct (String.compare (c_nama v) (c_nama u)); simpl; auto.
Qed.

End Queries.

End QueryFacts.

(** * The further theorems at work on the sample deployment *)

Module MoreExamples.
Import Database Ledger Store FullStore Server Site Notions Fixture Samples.

Lemma billing_db_user_keys : NoDup (map u_id (users billing_db)).
Proof. repeat constructor; simpl; intuition discriminate. Defined.

Lemma billing_db_customer_keys : NoDup (map c_id (customers billing_db)).
Proof. repeat constructor; simpl; intuition discriminate. Defined.

Lemma billing_db_active : all_active billing_db.
Proof. intros c [<-|[<-|[<-|[]]]]; reflexivity. Defined.

Lemma price_settings_keys : NoDup (map s_key price_settings).
Proof. repeat constructor; simpl; intuition discriminate. Defined.

Lemma backup_customers_pass :
  Forall (fun c => exists v, checked_customer c = Normal v) [dewi; eko].
Proof.
  constructor; [eexists; reflexivity|constructor; [eexists; reflexivity|constructor]].
Defined.

(** Budi, who owes 22000, is among the debtors. *)
Lemma getWithPending_complete_witness :
  In {| debtor := budi; total_debt := 22000 |}
     [{| debtor := andi; total_debt := 150000 |};
      {| debtor := budi; total_debt := 22000 |};
      {| debtor := citra; total_debt := 150000 |}].
Proof.
  exact (DebtorFacts.getWithPending_complete billing_db _ budi eq_refl
           (or_intror (or_introl eq_refl)) eq_refl eq_refl).
Defined.

Lemma getWithPending_ordered_witness :
  let rows := [{| debtor := andi; total_debt := 150000 |};
               {| debtor := budi; total_debt := 22000 |};
               {| debtor := citra; total_debt := 150000 |}] in
  Sorted nama_le rows /\ NoDup (map (fun r => c_id (debtor r)) rows).
Proof.
  exact (DebtorFacts.getWithPending_ordered billing_db _ eq_refl
           billing_db_customer_keys).
Defined.


Lemma create_defaults_to_pending_witness :
  exists id d' r,
    transactionOps_create (js := runtime) new_bill (Some 1) 1000000 billing_db
    = (Normal (id, new_bill), d') /\
    transactions d' = transactions billing_db ++ [r] /\
    t_status r = pending /\
    sum_amounts is_pending (transactions d') = 344000.
Proof.
  destruct (TransactionFacts.create_defaults_to_pending (H := runtime) billing_db
              new_bill (Some 1) 1000000
              ("Budi", "gas", "Tagihan", pemasukan, pending)
              eq_refl eq_refl eq_refl eq_refl)
    as (id & d' & r & E & T & _ & S & _ & _ & _ & P).
  exists id, d', r. split; [exact E|]. split; [exact T|]. split; [exact S|].
  rewrite P. reflexivity.
Defined.

Lemma deleted_id_never_reused_witness :
  exists id1 d1 d2 id2 d3,
    transactionOps_create (js := runtime) new_bill (Some 1) 1 billing_db
    = (Normal (id1, new_bill), d1) /\
    transactionOps_delete (js := runtime) id1 (Some 1) 2 d1 = (Normal true, d2) /\
    transactions d2 = transactions billing_db /\
    transactionOps_create (js := runtime) new_bill (Some 1) 3 d2
    = (Normal (id2, new_bill), d3) /\
    id1 < id2.
Proof.
  exact (TransactionFacts.deleted_id_never_reused (H := runtime) billing_db
           new_bill new_bill (Some 1) 1 2 3
           ("Budi", "gas", "Tagihan", pemasukan, pending)
           ("Budi", "gas", "Tagihan", pemasukan, pending)
           eq_refl eq_refl eq_refl eq_refl eq_refl).
Defined.

(** The administrator logs in and uses the token. *)
Lemma login_issues_a_working_token_witness :
  exists t w',
    post_api_auth_login (bcrypt := bcrypt) None "admin" "admin123" ready_world
    = (Normal {| http_status := 200; json := json_login t (user_payload admin_user) |},
       w') /\
    authenticateToken None (Bearer (Some t)) w' = (Normal (next (Server.payload t)), w').
Proof.
  destruct (AuthFacts.login_issues_a_working_token (bcrypt := bcrypt) None
              ready_world "admin" "admin123" admin_user billing_db_user_keys
              eq_refl ltac:(discriminate) eq_refl)
    as (t & w' & a & L & _ & _ & _ & _ & A & _).
  exists t, w'. split; assumption.
Defined.

(** The staff account asks for a restore. *)
Lemma admin_routes_closed_to_staff_witness :
  post_api_restore None (Bearer (Some staff_token)) backup billing_site
  = (Normal {| code := 403;
               content := plain (json_error
                 "Akses ditolak. Hanya admin yang dapat mengakses.") |}, billing_site).
Proof.
  unfold post_api_restore.
  refine (proj1 (SiteFacts.admin_routes_closed_to_staff None billing_site
                   (Bearer (Some staff_token)) (Server.payload staff_token) _
                   (fun _ => ret {| http_status := 200; json := json_success |})
                   eq_refl eq_refl)).
Defined.

Lemma delete_user_refuses_self_witness :
  delete_api_users_id None (Bearer (Some admin_token)) 1 billing_site
  = (Normal {| code := 400;
               content := plain (json_error "Tidak dapat menghapus diri sendiri") |},
     billing_site).
Proof.
  exact (SiteFacts.delete_user_refuses_self None billing_site
           (Bearer (Some admin_token)) (Server.payload admin_token) eq_refl eq_refl).
Defined.

Lemma delete_user_blocked_by_activity_log_witness :
  delete_api_users_id None (Bearer (Some admin_token)) 2 site_after_staff_login
  = (Normal {| code := 500;
               content := plain (json_error "FOREIGN KEY constraint failed") |},
     site_after_staff_login).
Proof.
  exact (SiteFacts.delete_user_blocked_by_activity_log None site_after_staff_login
           (Bearer (Some admin_token)) (Server.payload admin_token) 2 staff_user staff_login
           eq_refl eq_refl ltac:(discriminate) eq_refl (or_introl eq_refl) eq_refl).
Defined.

Lemma create_user_refuses_taken_username_witness :
  post_api_users (bcrypt := bcrypt) None (Bearer (Some admin_token)) second_staff
    billing_site
  = (Normal {| code := 400; content := plain (json_error "Username sudah digunakan") |},
     billing_site).
Proof.
  exact (SiteFacts.create_user_refuses_taken_username (bcrypt := bcrypt) None
           billing_site (Bearer (Some admin_token)) (Server.payload admin_token) second_staff
           "staff" "rahasia" "Staff Dua" staff_user
           eq_refl eq_refl eq_refl eq_refl eq_refl eq_refl).
Defined.


Lemma settings_set_then_get_witness :
  exists st',
    settingsOps_set "price_gas" (Some "25000") 5 billing_store = (Normal true, st') /\
    fst (settingsOps_get "price_gas" st') = Normal (Some "25000") /\
    fst (settingsOps_get "price_internet" st') = Normal (Some "150000").
Proof.
  destruct (SiteFacts.settings_set_then_get billing_store "price_gas" (Some "25000") 5
              price_settings_keys) as (st' & E & G & _ & _).
  exists st'. split; [exact E|]. split; [exact (G "price_gas")|].
  exact (G "price_internet").
Defined.

(** The staff account changes the price of gas. *)
Lemma any_token_can_change_a_setting_witness :
  exists s',
    post_api_settings None (Bearer (Some staff_token)) (Some "price_gas")
      (Some "25000") billing_site
    = (Normal {| code := 200; content := plain json_success |}, s') /\
    fst (settingsOps_get "price_gas" (store_of s')) = Normal (Some "25000").
Proof.
  destruct (SiteFacts.any_token_can_change_a_setting None billing_site
              (Bearer (Some staff_token)) (Server.payload staff_token) "price_gas" "25000"
              eq_refl ltac:(discriminate)) as (s' & E & G & _).
  exists s'. split; assumption.
Defined.

Lemma restore_appends_customers_witness :
  exists s' news,
    post_api_restore None (Bearer (Some admin_token)) backup billing_site
    = (Normal {| code := 200;
                 content := plain (json_message "Data berhasil dipulihkan") |}, s') /\
    customers (w_db (process s')) = customers billing_db ++ news /\
    List.length news = 2%nat /\
    transactions (w_db (process s')) = transactions billing_db.
Proof.
  destruct (SiteFacts.restore_appends_customers None billing_site
              (Bearer (Some admin_token)) (Server.payload admin_token) backup [dewi; eko]
              eq_refl eq_refl eq_refl eq_refl
              backup_customers_pass)
    as (s' & news & E & C & F & _ & _ & _ & T).
  exists s', news. split; [exact E|]. split; [exact C|]. split; [|exact T].
  symmetry. exact (Forall2_length F).
Defined.

Lemma pending_route_always_answers_500_witness :
  get_api_transactions_customer_id_pending (sqlite := sqlite) None
    (Bearer (Some staff_token)) 2 billing_site
  = (Normal {| code := 500;
               content := plain (json_error (no_such_column (Sqlite := sqlite)
                                               "pending")) |},
     billing_site).
Proof.
  exact (proj2 (SiteFacts.pending_route_always_answers_500 (sqlite := sqlite) None
                  billing_site (Bearer (Some staff_token))
                  (Server.payload staff_token) 2 eq_refl)).
Defined.



(** The first start on an empty database file. *)
Lemma default_admin_can_log_in_witness :
  exists row t w',
    post_api_auth_login (bcrypt := bcrypt) None "admin" "admin123"
      (process (boot_site (bcrypt := bcrypt) fresh_store 0))
    = (Normal {| http_status := 200; json := json_login t (user_payload row) |}, w') /\
    u_username row = "admin" /\ u_role row = admin.
Proof.
  destruct (StartupFacts.default_admin_can_log_in (bcrypt := bcrypt) None fresh_store 0
              eq_refl eq_refl)
    as (row & t & w' & L & _ & _ & U & R & _).
  exists row, t, w'. split; [exact L|]. split; assumption.
Defined.

Lemma no_operation_orphans_a_transaction_witness :
  customers_referenced_exist
    (snd (transactionOps_create (js := runtime) bill_for_nobody (Some 1) 5 billing_db)) /\
  customers_referenced_exist
    (snd (customerOps_delete 1 (Some 1) 5 billing_db)).
Proof.
  destruct (InvariantFacts.no_operation_orphans_a_transaction (js := runtime)
              (sqlite := sqlite))
    as (C & _ & _ & _ & D & _).
  split; [apply C|apply D]; exact Examples.billing_db_references.
Defined.

Lemma customers_are_never_deactivated_witness :
  all_active (snd (customerOps_update 1 dewi (Some 1) 5 billing_db)).
Proof.
  destruct InvariantFacts.customers_are_never_deactivated as (_ & U & _).
  apply U. exact billing_db_active.
Defined.

(** A limit of 0 lists all three pending bills. *)
Lemma getAll_without_limit_lists_every_match_witness :
  exists views,
    transactionOps_getAll pending_unlimited billing_db = (Normal views, billing_db) /\
    List.length views = 3%nat.
Proof.
  destruct (QueryFacts.getAll_without_limit_lists_every_match billing_db
              pending_unlimited (or_intror eq_refl)) as (views & E & P & _).
  exists views. split; [exact E|].
  rewrite <- (length_map row views), (Permutation_length P). reflexivity.
Defined.

Lemma getAll_limit_keeps_the_newest_witness :
  exists views,
    transactionOps_getAll two_newest billing_db = (Normal views, billing_db) /\
    List.length views = 2%nat.
Proof.
  destruct (QueryFacts.getAll_limit_keeps_the_newest billing_db two_newest 2
              eq_refl eq_refl) as (views & E & L & _).
  exists views. split; [exact E|]. rewrite L. reflexivity.
Defined.

(** No customer of the sample deployment is inactive; the empty [tipe] is
    no filter. *)
Lemma customers_getAll_without_text_filters_witness :
  exists rows,
    customerOps_getAll (sqlite := sqlite) inactive_customers billing_db
    = (Normal rows, billing_db) /\
    Permutation rows [].
Proof.
  destruct (QueryFacts.customers_getAll_without_text_filters (sqlite := sqlite)
              billing_db inactive_customers eq_refl eq_refl) as (rows & E & P & _).
  exists rows. split; [exact E|exact P].
Defined.

(** A token signed with a guessed secret. *)
Lemma token_accepted_exactly_when_valid_witness :
  authenticateToken None (Bearer (Some forged_token)) ready_world
  = (Normal (answered {| http_status := 401; json := json_error "Token tidak valid" |}),
     ready_world).
Proof.
  refine (proj1 (proj2 (AuthFacts.token_accepted_exactly_when_valid None ready_world
                          forged_token) (or_introl _))).
  intros E. apply (f_equal String.length) in E. vm_compute in E. discriminate E.
Defined.

(** Right after start-up the gateway is not connected. *)
Lemma nothing_is_sent_unless_ready_witness :
  exists r,
    Whatsapp.broadcastBillingMessage (js := runtime) (transport := reliable)
      "Halo {nama}" (Some 1) (boot billing_db 0)
    = (Normal r, boot billing_db 0).
Proof.
  exact (proj2 (GatewayFacts.nothing_is_sent_unless_ready (js := runtime)
                  (transport := reliable) (boot billing_db 0) 1 "Tagihan"
                  "Halo {nama}" (Some 1) eq_refl)).
Defined.

(** A restart keeps the price of gas that is in the settings table. *)
Lemma initialize_only_adds_witness :
  fst (settingsOps_get "price_gas" (snd (initialize (bcrypt := bcrypt) 5 billing_store)))
  = Normal (Some "22000").
Proof.
  pose proof (StartupFacts.initialize_only_adds (bcrypt := bcrypt) billing_store 5)
    as (news & more & K).
  cbv zeta in K. destruct K as (_ & _ & _ & _ & G & _).
  exact (G "price_gas" eq_refl).
Defined.

End MoreExamples.
